(** * TechWaan ERP: stock ledger, inventory projection, document numbering
      and document creation

    A shallow embedding of the data-access layer (server/storage.ts), of the
    request handlers that call it (server/routes.ts) and of the table and
    validation schemas they rely on (shared/schema.ts).

    Every [await db. ...] of the source is one [Query]; a storage method or a
    request handler is a [Task], a tree of queries with the synchronous code
    in between.  [run] executes a task alone; [interleave] executes a pool of
    tasks under a schedule, one query at a time, the way the event loop
    resumes one handler at each completed [await]. *)

From Stdlib Require Import List String Ascii ZArith QArith Lia Bool Arith.
From Stdlib Require Import Decimal DecimalString DecimalN DecimalZ DecimalPos.
From Stdlib Require Import Sorted Permutation.
Import ListNotations.
Local Close Scope Q_scope.
Local Open Scope string_scope.
Local Open Scope Z_scope.

(* ================================================================== *)
(** * Part I. Definitions *)
(* ================================================================== *)

(** ** Column types *)

(** [varchar] primary keys filled by [gen_random_uuid()].  Keys are only ever
    compared for equality; the generator is modelled by the counter [nextId]
    of the database, and collisions of generated keys are not modelled. *)
Definition Id := nat.

(** Errors a statement or a schema can raise. *)
Inductive Error : Type :=
| ForeignKeyViolation
| UniqueViolation
| NumericValueOutOfRange
| InvalidTextRepresentation
| EmptyValues
| ZodError.

Inductive Result (A : Type) : Type :=
| Ok (a : A)
| Err (e : Error).
Arguments Ok {A} a.
Arguments Err {A} e.

(** PostgreSQL [integer]: 32 bits, signed. *)
Definition int32 (z : Z) : bool :=
  (-2147483648 <=? z) && (z <=? 2147483647).

(** PostgreSQL [decimal(10,2)]: a value is stored as a count of hundredths,
    rounded half away from zero; it must keep fewer than 10 digits. *)
Definition hundredths (q : Q) : Z :=
  let n := Qnum q * 100 in
  let d := Zpos (Qden q) in
  Z.sgn n * ((2 * Z.abs n + d) / (2 * d)).

Definition decimal_10_2 (q : Q) : Result Z :=
  let h := hundredths q in
  if Z.abs h <? 10 ^ 10 then Ok h else Err NumericValueOutOfRange.

(** A decimal column written from a text (the generated schemas of purchases
    carry decimals as strings): the model carries the value the database
    reads from the text, [None] when the text is no numeric literal. *)
Definition decimal_10_2_text (t : option Q) : Result Z :=
  match t with
  | Some q => decimal_10_2 q
  | None => Err InvalidTextRepresentation
  end.

(** ** Rows (shared/schema.ts)

    Timestamps ([createdAt], [lastUpdated], dates) are not columns of the
    model: a table is the list of its rows in insertion order, and
    [createdAt], always filled by [defaultNow()], orders rows as they were
    inserted. *)

Record Item : Type := {
  item_id : Id;
  item_code : string;
  item_name : string;
  item_lowStockThreshold : Z
}.

Record Customer : Type := {
  customer_id : Id;
  customer_name : string
}.

Record Vendor : Type := {
  vendor_id : Id;
  vendor_name : string
}.

Record Inventory : Type := {
  inv_id : Id;
  inv_itemId : Id;
  inv_quantity : Z
}.

Record StockMovement : Type := {
  sm_id : Id;
  sm_itemId : Id;
  sm_type : string;
  sm_quantity : Z;
  sm_reason : option string
}.

(** [InsertStockMovement]: the row without [id] and [createdAt]. *)
Record InsertStockMovement : Type := {
  ism_itemId : Id;
  ism_type : string;
  ism_quantity : Z;
  ism_reason : option string
}.

Record Bill : Type := {
  bill_id : Id;
  bill_billNumber : string;
  bill_customerId : Id;
  bill_subtotal : Z;
  bill_gstAmount : Z;
  bill_total : Z;
  bill_status : string;
  bill_createdBy : Id
}.

(** [InsertBill]: what [insertBillSchema] yields; the amounts are numbers. *)
Record InsertBill : Type := {
  ib_billNumber : string;
  ib_customerId : Id;
  ib_subtotal : Q;
  ib_gstAmount : Q;
  ib_total : Q;
  ib_status : option string;
  ib_createdBy : Id
}.

Record BillItem : Type := {
  bi_id : Id;
  bi_billId : Id;
  bi_itemId : Id;
  bi_quantity : Z;
  bi_rate : Z;
  bi_amount : Z
}.

(** [InsertBillItem]: what [insertBillItemSchema] yields ([billId] omitted). *)
Record InsertBillItem : Type := {
  ibi_itemId : Id;
  ibi_quantity : Z;
  ibi_rate : Q;
  ibi_amount : Q
}.

Record Purchase : Type := {
  purchase_id : Id;
  purchase_purchaseNumber : string;
  purchase_vendorId : Id;
  purchase_total : Z;
  purchase_createdBy : Id
}.

Record InsertPurchase : Type := {
  ip_purchaseNumber : string;
  ip_vendorId : Id;
  ip_total : option Q;
  ip_createdBy : Id
}.

Record PurchaseItem : Type := {
  pi_id : Id;
  pi_purchaseId : Id;
  pi_itemId : Id;
  pi_quantity : Z;
  pi_rate : Z;
  pi_amount : Z
}.

(** [InsertPurchaseItem]: [insertPurchaseItemSchema] omits only [id]. *)
Record InsertPurchaseItem : Type := {
  ipi_purchaseId : Id;
  ipi_itemId : Id;
  ipi_quantity : Z;
  ipi_rate : option Q;
  ipi_amount : option Q
}.

(** ** The database *)

Record DB : Type := {
  users : list Id;
  customers : list Customer;
  vendors : list Vendor;
  items : list Item;
  inventory : list Inventory;
  stockMovements : list StockMovement;
  bills : list Bill;
  billItems : list BillItem;
  purchases : list Purchase;
  purchaseItems : list PurchaseItem;
  nextId : Id
}.

Definition set_inventory (v : list Inventory) (db : DB) : DB :=
  {| users := users db; customers := customers db; vendors := vendors db;
     items := items db; inventory := v;
     stockMovements := stockMovements db; bills := bills db;
     billItems := billItems db; purchases := purchases db;
     purchaseItems := purchaseItems db; nextId := nextId db |}.

Definition set_stockMovements (v : list StockMovement) (db : DB) : DB :=
  {| users := users db; customers := customers db; vendors := vendors db;
     items := items db; inventory := inventory db;
     stockMovements := v; bills := bills db;
     billItems := billItems db; purchases := purchases db;
     purchaseItems := purchaseItems db; nextId := nextId db |}.

Definition set_bills (v : list Bill) (db : DB) : DB :=
  {| users := users db; customers := customers db; vendors := vendors db;
     items := items db; inventory := inventory db;
     stockMovements := stockMovements db; bills := v;
     billItems := billItems db; purchases := purchases db;
     purchaseItems := purchaseItems db; nextId := nextId db |}.

Definition set_billItems (v : list BillItem) (db : DB) : DB :=
  {| users := users db; customers := customers db; vendors := vendors db;
     items := items db; inventory := inventory db;
     stockMovements := stockMovements db; bills := bills db;
     billItems := v; purchases := purchases db;
     purchaseItems := purchaseItems db; nextId := nextId db |}.

Definition set_purchases (v : list Purchase) (db : DB) : DB :=
  {| users := users db; customers := customers db; vendors := vendors db;
     items := items db; inventory := inventory db;
     stockMovements := stockMovements db; bills := bills db;
     billItems := billItems db; purchases := v;
     purchaseItems := purchaseItems db; nextId := nextId db |}.

Definition set_purchaseItems (v : list PurchaseItem) (db : DB) : DB :=
  {| users := users db; customers := customers db; vendors := vendors db;
     items := items db; inventory := inventory db;
     stockMovements := stockMovements db; bills := bills db;
     billItems := billItems db; purchases := purchases db;
     purchaseItems := v; nextId := nextId db |}.

(** [n] generated keys have been handed out. *)
Definition advance (n : nat) (db : DB) : DB :=
  {| users := users db; customers := customers db; vendors := vendors db;
     items := items db; inventory := inventory db;
     stockMovements := stockMovements db; bills := bills db;
     billItems := billItems db; purchases := purchases db;
     purchaseItems := purchaseItems db; nextId := (nextId db + n)%nat |}.

(** ** Constraints declared by the schema *)

Definition hasItem (db : DB) (i : Id) : bool :=
  existsb (fun it => Nat.eqb (item_id it) i) (items db).

Definition hasCustomer (db : DB) (i : Id) : bool :=
  existsb (fun c => Nat.eqb (customer_id c) i) (customers db).

Definition hasVendor (db : DB) (i : Id) : bool :=
  existsb (fun v => Nat.eqb (vendor_id v) i) (vendors db).

Definition hasUser (db : DB) (i : Id) : bool :=
  existsb (Nat.eqb i) (users db).

Definition hasBill (db : DB) (i : Id) : bool :=
  existsb (fun b => Nat.eqb (bill_id b) i) (bills db).

Definition hasPurchase (db : DB) (i : Id) : bool :=
  existsb (fun p => Nat.eqb (purchase_id p) i) (purchases db).

Definition billNumberTaken (db : DB) (n : string) : bool :=
  existsb (fun b => String.eqb (bill_billNumber b) n) (bills db).

Definition purchaseNumberTaken (db : DB) (n : string) : bool :=
  existsb (fun p => String.eqb (purchase_purchaseNumber p) n) (purchases db).

(** ** Statements

    One function per statement issued by the storage layer.  A statement
    either applies as a whole or raises and leaves the database as it was. *)

(** The row an accepted movement becomes, under the generated key [id]. *)
Definition movementRow (id : Id) (v : InsertStockMovement) : StockMovement :=
  {| sm_id := id; sm_itemId := ism_itemId v; sm_type := ism_type v;
     sm_quantity := ism_quantity v; sm_reason := ism_reason v |}.

(** [db.insert(stockMovements).values(movement).returning()] *)
Definition insertStockMovement (v : InsertStockMovement) (db : DB)
  : DB * Result StockMovement :=
  if negb (int32 (ism_quantity v)) then (db, Err NumericValueOutOfRange)
  else if negb (hasItem db (ism_itemId v)) then (db, Err ForeignKeyViolation)
  else
    let row := movementRow (nextId db) v in
    (advance 1 (set_stockMovements (stockMovements db ++ [row]) db), Ok row).

(** [db.select().from(inventory).where(eq(inventory.itemId, itemId))] *)
Definition selectInventoryByItem (itemId : Id) (db : DB) : list Inventory :=
  filter (fun r => Nat.eqb (inv_itemId r) itemId) (inventory db).

Definition setQuantity (itemId : Id) (quantity : Z) (r : Inventory) : Inventory :=
  if Nat.eqb (inv_itemId r) itemId
  then {| inv_id := inv_id r; inv_itemId := inv_itemId r;
          inv_quantity := quantity |}
  else r.

(** [db.update(inventory).set({ quantity, lastUpdated })
       .where(eq(inventory.itemId, itemId)).returning()] *)
Definition updateInventoryRows (itemId : Id) (quantity : Z) (db : DB)
  : DB * Result (list Inventory) :=
  if negb (int32 quantity) then (db, Err NumericValueOutOfRange)
  else
    let db' := set_inventory (map (setQuantity itemId quantity) (inventory db)) db in
    (db', Ok (selectInventoryByItem itemId db')).

(** [db.insert(bills).values(bill).returning()]; [status] defaults to
    ["pending"], [bill_number] is unique. *)
Definition insertBill (v : InsertBill) (db : DB) : DB * Result Bill :=
  match decimal_10_2 (ib_subtotal v), decimal_10_2 (ib_gstAmount v),
        decimal_10_2 (ib_total v) with
  | Ok s, Ok g, Ok t =>
      if billNumberTaken db (ib_billNumber v) then (db, Err UniqueViolation)
      else if negb (hasCustomer db (ib_customerId v)) then (db, Err ForeignKeyViolation)
      else if negb (hasUser db (ib_createdBy v)) then (db, Err ForeignKeyViolation)
      else
        let row := {| bill_id := nextId db;
                      bill_billNumber := ib_billNumber v;
                      bill_customerId := ib_customerId v;
                      bill_subtotal := s; bill_gstAmount := g; bill_total := t;
                      bill_status := match ib_status v with
                                     | Some st => st
                                     | None => "pending"
                                     end;
                      bill_createdBy := ib_createdBy v |} in
        (advance 1 (set_bills (bills db ++ [row]) db), Ok row)
  | _, _, _ => (db, Err NumericValueOutOfRange)
  end.

(** The rows of a multi-row insert into [bill_items], keys taken from [id]
    on; each value carries the [billId] the storage layer added. *)
Fixpoint billItemRows (db : DB) (id : Id) (vs : list (Id * InsertBillItem))
  : Result (list BillItem) :=
  match vs with
  | [] => Ok []
  | (billId, v) :: rest =>
      if negb (int32 (ibi_quantity v)) then Err NumericValueOutOfRange
      else
        match decimal_10_2 (ibi_rate v), decimal_10_2 (ibi_amount v) with
        | Ok r, Ok a =>
            if negb (hasBill db billId) then Err ForeignKeyViolation
            else if negb (hasItem db (ibi_itemId v)) then Err ForeignKeyViolation
            else
              match billItemRows db (S id) rest with
              | Ok rows =>
                  Ok ({| bi_id := id; bi_billId := billId;
                         bi_itemId := ibi_itemId v;
                         bi_quantity := ibi_quantity v;
                         bi_rate := r; bi_amount := a |} :: rows)
              | Err e => Err e
              end
        | _, _ => Err NumericValueOutOfRange
        end
  end.

(** [db.insert(billItems).values(billItemsWithBillId)]: the query builder
    refuses an empty list of values. *)
Definition insertBillItems (vs : list (Id * InsertBillItem)) (db : DB)
  : DB * Result unit :=
  match vs with
  | [] => (db, Err EmptyValues)
  | _ =>
      match billItemRows db (nextId db) vs with
      | Ok rows =>
          (advance (List.length rows) (set_billItems (billItems db ++ rows) db), Ok tt)
      | Err e => (db, Err e)
      end
  end.

(** [db.select({ bill, customer }).from(bills).innerJoin(customers, ...)
       .where(eq(bills.id, id))] *)
Definition selectBillWithCustomer (id : Id) (db : DB) : list (Bill * Customer) :=
  flat_map
    (fun b =>
       map (fun c => (b, c))
           (filter (fun c => Nat.eqb (bill_customerId b) (customer_id c))
                   (customers db)))
    (filter (fun b => Nat.eqb (bill_id b) id) (bills db)).

(** [db.select({ billItem, item }).from(billItems).innerJoin(items, ...)
       .where(eq(billItems.billId, id))] *)
Definition selectBillItemsWithItem (id : Id) (db : DB) : list (BillItem * Item) :=
  flat_map
    (fun bi =>
       map (fun it => (bi, it))
           (filter (fun it => Nat.eqb (bi_itemId bi) (item_id it)) (items db)))
    (filter (fun bi => Nat.eqb (bi_billId bi) id) (billItems db)).

Definition setStatus (id : Id) (status : string) (b : Bill) : Bill :=
  if Nat.eqb (bill_id b) id
  then {| bill_id := bill_id b; bill_billNumber := bill_billNumber b;
          bill_customerId := bill_customerId b;
          bill_subtotal := bill_subtotal b; bill_gstAmount := bill_gstAmount b;
          bill_total := bill_total b; bill_status := status;
          bill_createdBy := bill_createdBy b |}
  else b.

(** [db.update(bills).set({ status }).where(eq(bills.id, id)).returning()] *)
Definition updateBillStatusRows (id : Id) (status : string) (db : DB)
  : DB * list Bill :=
  let db' := set_bills (map (setStatus id status) (bills db)) db in
  (db', filter (fun b => Nat.eqb (bill_id b) id) (bills db')).

(** [db.select({ billNumber }).from(bills).orderBy(desc(bills.createdAt))
       .limit(1)]: the number of the bill inserted last. *)
Definition selectLastBillNumber (db : DB) : list string :=
  match List.rev (bills db) with
  | [] => []
  | b :: _ => [bill_billNumber b]
  end.

(** [db.insert(purchases).values(purchase).returning()] *)
Definition insertPurchase (v : InsertPurchase) (db : DB) : DB * Result Purchase :=
  match decimal_10_2_text (ip_total v) with
  | Ok t =>
      if purchaseNumberTaken db (ip_purchaseNumber v) then (db, Err UniqueViolation)
      else if negb (hasVendor db (ip_vendorId v)) then (db, Err ForeignKeyViolation)
      else if negb (hasUser db (ip_createdBy v)) then (db, Err ForeignKeyViolation)
      else
        let row := {| purchase_id := nextId db;
                      purchase_purchaseNumber := ip_purchaseNumber v;
                      purchase_vendorId := ip_vendorId v;
                      purchase_total := t;
                      purchase_createdBy := ip_createdBy v |} in
        (advance 1 (set_purchases (purchases db ++ [row]) db), Ok row)
  | Err e => (db, Err e)
  end.

Fixpoint purchaseItemRows (db : DB) (id : Id) (vs : list InsertPurchaseItem)
  : Result (list PurchaseItem) :=
  match vs with
  | [] => Ok []
  | v :: rest =>
      if negb (int32 (ipi_quantity v)) then Err NumericValueOutOfRange
      else
        match decimal_10_2_text (ipi_rate v), decimal_10_2_text (ipi_amount v) with
        | Ok r, Ok a =>
            if negb (hasPurchase db (ipi_purchaseId v)) then Err ForeignKeyViolation
            else if negb (hasItem db (ipi_itemId v)) then Err ForeignKeyViolation
            else
              match purchaseItemRows db (S id) rest with
              | Ok rows =>
                  Ok ({| pi_id := id; pi_purchaseId := ipi_purchaseId v;
                         pi_itemId := ipi_itemId v;
                         pi_quantity := ipi_quantity v;
                         pi_rate := r; pi_amount := a |} :: rows)
              | Err e => Err e
              end
        | Err e, _ => Err e
        | _, Err e => Err e
        end
  end.

(** [db.insert(purchaseItems).values(purchaseItemsWithPurchaseId)] *)
Definition insertPurchaseItems (vs : list InsertPurchaseItem) (db : DB)
  : DB * Result unit :=
  match vs with
  | [] => (db, Err EmptyValues)
  | _ =>
      match purchaseItemRows db (nextId db) vs with
      | Ok rows =>
          (advance (List.length rows)
                   (set_purchaseItems (purchaseItems db ++ rows) db), Ok tt)
      | Err e => (db, Err e)
      end
  end.

Definition selectPurchaseWithVendor (id : Id) (db : DB) : list (Purchase * Vendor) :=
  flat_map
    (fun p =>
       map (fun v => (p, v))
           (filter (fun v => Nat.eqb (purchase_vendorId p) (vendor_id v))
                   (vendors db)))
    (filter (fun p => Nat.eqb (purchase_id p) id) (purchases db)).

Definition selectPurchaseItemsWithItem (id : Id) (db : DB)
  : list (PurchaseItem * Item) :=
  flat_map
    (fun pi =>
       map (fun it => (pi, it))
           (filter (fun it => Nat.eqb (pi_itemId pi) (item_id it)) (items db)))
    (filter (fun pi => Nat.eqb (pi_purchaseId pi) id) (purchaseItems db)).

Definition selectLastPurchaseNumber (db : DB) : list string :=
  match List.rev (purchases db) with
  | [] => []
  | p :: _ => [purchase_purchaseNumber p]
  end.

(** ** Queries and tasks *)

Inductive Query : Type -> Type :=
| InsertStockMovementQ (v : InsertStockMovement) : Query StockMovement
| SelectInventoryByItemQ (itemId : Id) : Query (list Inventory)
| UpdateInventoryQ (itemId : Id) (quantity : Z) : Query (list Inventory)
| InsertBillQ (v : InsertBill) : Query Bill
| InsertBillItemsQ (vs : list (Id * InsertBillItem)) : Query unit
| SelectBillWithCustomerQ (id : Id) : Query (list (Bill * Customer))
| SelectBillItemsWithItemQ (id : Id) : Query (list (BillItem * Item))
| UpdateBillStatusQ (id : Id) (status : string) : Query (list Bill)
| SelectLastBillNumberQ : Query (list string)
| InsertPurchaseQ (v : InsertPurchase) : Query Purchase
| InsertPurchaseItemsQ (vs : list InsertPurchaseItem) : Query unit
| SelectPurchaseWithVendorQ (id : Id) : Query (list (Purchase * Vendor))
| SelectPurchaseItemsWithItemQ (id : Id) : Query (list (PurchaseItem * Item))
| SelectLastPurchaseNumberQ : Query (list string).

Definition exec {X : Type} (q : Query X) (db : DB) : DB * Result X :=
  match q in Query T return DB * Result T with
  | InsertStockMovementQ v => insertStockMovement v db
  | SelectInventoryByItemQ i => (db, Ok (selectInventoryByItem i db))
  | UpdateInventoryQ i z => updateInventoryRows i z db
  | InsertBillQ v => insertBill v db
  | InsertBillItemsQ vs => insertBillItems vs db
  | SelectBillWithCustomerQ i => (db, Ok (selectBillWithCustomer i db))
  | SelectBillItemsWithItemQ i => (db, Ok (selectBillItemsWithItem i db))
  | UpdateBillStatusQ i s =>
      let (db', rows) := updateBillStatusRows i s db in (db', Ok rows)
  | SelectLastBillNumberQ => (db, Ok (selectLastBillNumber db))
  | InsertPurchaseQ v => insertPurchase v db
  | InsertPurchaseItemsQ vs => insertPurchaseItems vs db
  | SelectPurchaseWithVendorQ i => (db, Ok (selectPurchaseWithVendor i db))
  | SelectPurchaseItemsWithItemQ i => (db, Ok (selectPurchaseItemsWithItem i db))
  | SelectLastPurchaseNumberQ => (db, Ok (selectLastPurchaseNumber db))
  end.

(** An asynchronous computation: it returns, throws, or awaits a query and
    goes on with its outcome. *)
Inductive Task (A : Type) : Type :=
| Return (a : A)
| Throw (e : Error)
| Await (X : Type) (q : Query X) (k : Result X -> Task A).
Arguments Return {A} a.
Arguments Throw {A} e.
Arguments Await {A X} q k.

(** [await q]: the rows, or the exception of the statement. *)
Definition await {X : Type} (q : Query X) : Task X :=
  Await q (fun r => match r with Ok x => Return x | Err e => Throw e end).

Fixpoint bind {A B : Type} (t : Task A) (f : A -> Task B) : Task B :=
  match t with
  | Return a => f a
  | Throw e => Throw e
  | Await q k => Await q (fun r => bind (k r) f)
  end.

(** [try { t } catch (error) { h error }] *)
Fixpoint tryCatch {A : Type} (t : Task A) (h : Error -> Task A) : Task A :=
  match t with
  | Return a => Return a
  | Throw e => h e
  | Await q k => Await q (fun r => tryCatch (k r) h)
  end.

(** A synchronous call that may throw ([schema.parse]). *)
Definition lift {A : Type} (r : Result A) : Task A :=
  match r with
  | Ok a => Return a
  | Err e => Throw e
  end.

Declare Scope task_scope.
Delimit Scope task_scope with task.
Notation "x <- t ;; k" := (bind t (fun x => k))
  (at level 61, t at next level, right associativity) : task_scope.
Notation "t ;;; k" := (bind t (fun _ => k))
  (at level 61, right associativity) : task_scope.
Local Open Scope task_scope.

(** A task running alone, to completion. *)
Fixpoint run {A : Type} (t : Task A) (db : DB) : DB * Result A :=
  match t with
  | Return a => (db, Ok a)
  | Throw e => (db, Err e)
  | Await q k => let (db', r) := exec q db in run (k r) db'
  end.

(** A task resumed once: its pending query is executed. *)
Definition step {A : Type} (t : Task A) (db : DB) : DB * Task A :=
  match t with
  | Await q k => let (db', r) := exec q db in (db', k r)
  | _ => (db, t)
  end.

Fixpoint stepAt {A : Type} (i : nat) (pool : list (Task A)) (db : DB)
  : DB * list (Task A) :=
  match pool, i with
  | [], _ => (db, [])
  | t :: ts, O => let (db', t') := step t db in (db', t' :: ts)
  | t :: ts, S j => let (db', ts') := stepAt j ts db in (db', t :: ts')
  end.

(** A pool of tasks in flight; the schedule names the task resumed next. *)
Fixpoint interleave {A : Type} (schedule : list nat) (pool : list (Task A))
  (db : DB) : DB * list (Task A) :=
  match schedule with
  | [] => (db, pool)
  | i :: rest => let (db', pool') := stepAt i pool db in interleave rest pool' db'
  end.

(** ** JavaScript strings and numbers used by the numbering code

    A character is a code unit below 256.  A [number] is [NaN] or an
    integer; the model is exact on the safe integers (below [2^53]), where
    JavaScript's doubles are. *)

Inductive number : Type :=
| NaN
| Num (z : Z).

(** [s.split(sep)]: the pieces of [s] between occurrences of [sep]. *)
Fixpoint split (sep : ascii) (s : string) : list string :=
  match s with
  | EmptyString => [EmptyString]
  | String c rest =>
      if Ascii.eqb c sep then EmptyString :: split sep rest
      else
        match split sep rest with
        | [] => [String c EmptyString]
        | piece :: pieces => String c piece :: pieces
        end
  end.

Definition isWhiteSpace (c : ascii) : bool :=
  let n := nat_of_ascii c in
  Nat.eqb n 9 || Nat.eqb n 10 || Nat.eqb n 11 || Nat.eqb n 12
  || Nat.eqb n 13 || Nat.eqb n 32 || Nat.eqb n 160.

Fixpoint trimStart (s : string) : string :=
  match s with
  | String c rest => if isWhiteSpace c then trimStart rest else s
  | EmptyString => EmptyString
  end.

(** The value of [c] as a digit: 0-9, then a-z and A-Z for 10 to 35. *)
Definition digitValue (c : ascii) : option Z :=
  let n := Z.of_nat (nat_of_ascii c) in
  if (48 <=? n) && (n <=? 57) then Some (n - 48)
  else if (97 <=? n) && (n <=? 122) then Some (n - 87)
  else if (65 <=? n) && (n <=? 90) then Some (n - 55)
  else None.

(** The longest prefix of [s] made of digits of radix [R]. *)
Fixpoint digitsPrefix (R : Z) (s : string) : list Z :=
  match s with
  | String c rest =>
      match digitValue c with
      | Some d => if d <? R then d :: digitsPrefix R rest else []
      | None => []
      end
  | EmptyString => []
  end.

Definition digitsValue (R : Z) (ds : list Z) : Z :=
  fold_left (fun acc d => acc * R + d) ds 0.

(** [parseInt(input)] with no radix: leading white space, a sign, a [0x]
    prefix, then the longest run of digits; [NaN] when there is none. *)
Definition parseInt (input : string) : number :=
  let s := trimStart input in
  let '(sign, s) :=
    match s with
    | String "-"%char rest => (-1, rest)
    | String "+"%char rest => (1, rest)
    | _ => (1, s)
    end in
  let '(R, s) :=
    match s with
    | String "0"%char (String "x"%char rest) => (16, rest)
    | String "0"%char (String "X"%char rest) => (16, rest)
    | _ => (10, s)
    end in
  match digitsPrefix R s with
  | [] => NaN
  | ds => Num (sign * digitsValue R ds)
  end.

(** [parseInt(pieces[2])]: a missing piece is [undefined], read as the
    text ["undefined"]. *)
Definition parseIntAt (pieces : list string) (i : nat) : number :=
  match nth_error pieces i with
  | Some piece => parseInt piece
  | None => parseInt "undefined"
  end.

(** [n + 1] *)
Definition plusOne (n : number) : number :=
  match n with
  | NaN => NaN
  | Num z => Num (z + 1)
  end.

(** [String(n)] *)
Definition numberToString (n : number) : string :=
  match n with
  | NaN => "NaN"
  | Num z => NilZero.string_of_int (Z.to_int z)
  end.

Fixpoint repeatChar (n : nat) (c : ascii) : string :=
  match n with
  | O => EmptyString
  | S m => String c (repeatChar m c)
  end.

(** [s.padStart(targetLength, fill)] for a one-character [fill]. *)
Definition padStart (targetLength : nat) (fill : ascii) (s : string) : string :=
  repeatChar (targetLength - String.length s) fill ++ s.

(** ** The storage layer (server/storage.ts) *)

Definition getInventoryByItem (itemId : Id) : Task (option Inventory) :=
  rows <- await (SelectInventoryByItemQ itemId) ;;
  Return (hd_error rows).

Definition updateInventory (itemId : Id) (quantity : Z) : Task (option Inventory) :=
  rows <- await (UpdateInventoryQ itemId quantity) ;;
  Return (hd_error rows).

(** The quantity [createStockMovement] computes before clamping. *)
Definition newQuantity (current : Z) (movement : InsertStockMovement) : Z :=
  if String.eqb (ism_type movement) "purchase"
  then current + ism_quantity movement
  else if String.eqb (ism_type movement) "sale"
  then current - ism_quantity movement
  else if String.eqb (ism_type movement) "adjustment"
  then ism_quantity movement
  else current.

Definition createStockMovement (movement : InsertStockMovement)
  : Task StockMovement :=
  newMovement <- await (InsertStockMovementQ movement) ;;
  currentInventory <- getInventoryByItem (ism_itemId movement) ;;
  match currentInventory with
  | Some inv =>
      updateInventory (ism_itemId movement)
                      (Z.max 0 (newQuantity (inv_quantity inv) movement)) ;;;
      Return newMovement
  | None => Return newMovement
  end.

Record BillWithDetails : Type := {
  bwd_bill : Bill;
  bwd_customer : Customer;
  bwd_billItems : list (BillItem * Item)
}.

Definition getBill (id : Id) : Task (option BillWithDetails) :=
  rows <- await (SelectBillWithCustomerQ id) ;;
  match hd_error rows with
  | None => Return None
  | Some (bill, customer) =>
      billItemsResult <- await (SelectBillItemsWithItemQ id) ;;
      Return (Some {| bwd_bill := bill; bwd_customer := customer;
                      bwd_billItems := billItemsResult |})
  end.

(** [for (const x of xs) { await body(x); }] *)
Fixpoint forOf {A B : Type} (xs : list A) (body : A -> Task B) : Task unit :=
  match xs with
  | [] => Return tt
  | x :: rest => body x ;;; forOf rest body
  end.

Definition saleMovement (billNumber : string) (billItem : InsertBillItem)
  : InsertStockMovement :=
  {| ism_itemId := ibi_itemId billItem;
     ism_type := "sale";
     ism_quantity := ibi_quantity billItem;
     ism_reason := Some ("Sale - Bill " ++ billNumber) |}.

Definition createBill (bill : InsertBill) (billItemsData : list InsertBillItem)
  : Task (option BillWithDetails) :=
  newBill <- await (InsertBillQ bill) ;;
  let billItemsWithBillId :=
    map (fun item => (bill_id newBill, item)) billItemsData in
  await (InsertBillItemsQ billItemsWithBillId) ;;;
  forOf billItemsData
        (fun billItem =>
           createStockMovement (saleMovement (bill_billNumber newBill) billItem)) ;;;
  getBill (bill_id newBill).

Definition updateBillStatus (id : Id) (status : string) : Task (option Bill) :=
  rows <- await (UpdateBillStatusQ id status) ;;
  Return (hd_error rows).

Definition getNextBillNumber : Task string :=
  rows <- await SelectLastBillNumberQ ;;
  match hd_error rows with
  | None => Return "INV-2024-001"
  | Some billNumber =>
      let lastNumber := parseIntAt (split "-" billNumber) 2 in
      Return ("INV-2024-" ++ padStart 3 "0" (numberToString (plusOne lastNumber)))
  end.

Record PurchaseWithDetails : Type := {
  pwd_purchase : Purchase;
  pwd_vendor : Vendor;
  pwd_purchaseItems : list (PurchaseItem * Item)
}.

Definition getPurchase (id : Id) : Task (option PurchaseWithDetails) :=
  rows <- await (SelectPurchaseWithVendorQ id) ;;
  match hd_error rows with
  | None => Return None
  | Some (purchase, vendor) =>
      purchaseItemsResult <- await (SelectPurchaseItemsWithItemQ id) ;;
      Return (Some {| pwd_purchase := purchase; pwd_vendor := vendor;
                      pwd_purchaseItems := purchaseItemsResult |})
  end.

Definition purchaseMovement (purchaseNumber : string)
  (purchaseItem : InsertPurchaseItem) : InsertStockMovement :=
  {| ism_itemId := ipi_itemId purchaseItem;
     ism_type := "purchase";
     ism_quantity := ipi_quantity purchaseItem;
     ism_reason := Some ("Purchase - " ++ purchaseNumber) |}.

Definition withPurchaseId (id : Id) (item : InsertPurchaseItem)
  : InsertPurchaseItem :=
  {| ipi_purchaseId := id; ipi_itemId := ipi_itemId item;
     ipi_quantity := ipi_quantity item; ipi_rate := ipi_rate item;
     ipi_amount := ipi_amount item |}.

Definition createPurchase (purchase : InsertPurchase)
  (purchaseItemsData : list InsertPurchaseItem)
  : Task (option PurchaseWithDetails) :=
  newPurchase <- await (InsertPurchaseQ purchase) ;;
  let purchaseItemsWithPurchaseId :=
    map (withPurchaseId (purchase_id newPurchase)) purchaseItemsData in
  await (InsertPurchaseItemsQ purchaseItemsWithPurchaseId) ;;;
  forOf purchaseItemsData
        (fun purchaseItem =>
           createStockMovement
             (purchaseMovement (purchase_purchaseNumber newPurchase) purchaseItem)) ;;;
  getPurchase (purchase_id newPurchase).

Definition getNextPurchaseNumber : Task string :=
  rows <- await SelectLastPurchaseNumberQ ;;
  match hd_error rows with
  | None => Return "PUR-2024-001"
  | Some purchaseNumber =>
      let lastNumber := parseIntAt (split "-" purchaseNumber) 2 in
      Return ("PUR-2024-" ++ padStart 3 "0" (numberToString (plusOne lastNumber)))
  end.

(** ** Validation schemas (shared/schema.ts) *)

(** A numeric field of a request body, after [z.coerce.number()] (or as
    [z.number()] finds it): a finite number, or nothing a number can be made
    of ([NaN], a missing field, a text that is no number). *)
Inductive field : Type :=
| Invalid
| Number (q : Q).

Definition isInteger (q : Q) : bool :=
  Qnum q mod Zpos (Qden q) =? 0.

Definition toInteger (q : Q) : Z :=
  Qnum q / Zpos (Qden q).

(** [z.coerce.number().min(lo, ...)] *)
Definition zNumberMin (lo : Q) (x : field) : Result Q :=
  match x with
  | Number q => if Qle_bool lo q then Ok q else Err ZodError
  | Invalid => Err ZodError
  end.

(** [z.coerce.number().int().min(lo, ...)] *)
Definition zIntMin (lo : Z) (x : field) : Result Z :=
  match x with
  | Number q =>
      if isInteger q && (lo <=? toInteger q) then Ok (toInteger q)
      else Err ZodError
  | Invalid => Err ZodError
  end.

(** The schema generated for an [integer] column.  A number that is not an
    integer is refused, by the schema or by the column; either way the
    handler answers before anything is written. *)
Definition zInteger (x : field) : Result Z :=
  match x with
  | Number q => if isInteger q then Ok (toInteger q) else Err ZodError
  | Invalid => Err ZodError
  end.

Record BillItemBody : Type := {
  bib_itemId : Id;
  bib_quantity : field;
  bib_rate : field;
  bib_amount : field
}.

Definition insertBillItemSchema (item : BillItemBody) : Result InsertBillItem :=
  match zIntMin 1 (bib_quantity item), zNumberMin 0 (bib_rate item),
        zNumberMin 0 (bib_amount item) with
  | Ok quantity, Ok rate, Ok amount =>
      Ok {| ibi_itemId := bib_itemId item; ibi_quantity := quantity;
            ibi_rate := rate; ibi_amount := amount |}
  | _, _, _ => Err ZodError
  end.

Record BillBody : Type := {
  bb_customerId : Id;
  bb_subtotal : field;
  bb_gstAmount : field;
  bb_total : field;
  bb_status : option string
}.

(** [insertBillSchema.parse({ ...billData, billNumber, createdBy })] *)
Definition insertBillSchema (billData : BillBody) (billNumber : string)
  (createdBy : Id) : Result InsertBill :=
  match zNumberMin 0 (bb_subtotal billData), zNumberMin 0 (bb_gstAmount billData),
        zNumberMin 0 (bb_total billData) with
  | Ok subtotal, Ok gstAmount, Ok total =>
      Ok {| ib_billNumber := billNumber; ib_customerId := bb_customerId billData;
            ib_subtotal := subtotal; ib_gstAmount := gstAmount;
            ib_total := total; ib_status := bb_status billData;
            ib_createdBy := createdBy |}
  | _, _, _ => Err ZodError
  end.



(** [xs.map(x => schema.parse(x))]: the first refusal throws. *)
Fixpoint parseEach {A B : Type} (parse : A -> Result B) (xs : list A)
  : Result (list B) :=
  match xs with
  | [] => Ok []
  | x :: rest =>
      match parse x with
      | Ok y =>
          match parseEach parse rest with
          | Ok ys => Ok (y :: ys)
          | Err e => Err e
          end
      | Err e => Err e
      end
  end.

(** ** Request handlers (server/routes.ts) *)

Inductive Response (A : Type) : Type :=
| Json (status : nat) (payload : A)
| Message (status : nat) (message : string).
Arguments Json {A} status payload.
Arguments Message {A} status message.

(** [PATCH /api/inventory/:itemId] *)
Definition patchInventory (itemId : Id) (quantity : field)
  : Task (Response (option Inventory)) :=
  tryCatch
    match quantity with
    | Invalid => Return (Message 400 "Quantity must be a number")
    | Number q =>
        if isInteger q then
          inventory <- updateInventory itemId (toInteger q) ;;
          Return (Json 200 inventory)
        else Throw InvalidTextRepresentation
    end
    (fun _ => Return (Message 500 "Failed to update inventory")).


(** [POST /api/bills]; [sub] is [req.user.claims.sub]. *)
Definition postBills (sub : Id) (billData : BillBody)
  (billItemsData : list BillItemBody)
  : Task (Response (option BillWithDetails)) :=
  tryCatch
    (billNumber <- getNextBillNumber ;;
     validatedBill <- lift (insertBillSchema billData billNumber sub) ;;
     validatedBillItems <- lift (parseEach insertBillItemSchema billItemsData) ;;
     bill <- createBill validatedBill validatedBillItems ;;
     Return (Json 201 bill))
    (fun _ => Return (Message 400 "Invalid bill data")).

(** [PATCH /api/bills/:id/status] *)
Definition patchBillStatus (id : Id) (status : string)
  : Task (Response (option Bill)) :=
  tryCatch
    (bill <- updateBillStatus id status ;;
     Return (Json 200 bill))
    (fun _ => Return (Message 500 "Failed to update bill status")).

(** ** Properties the specification states *)

(** Replaying a ledger, in the specification's words: from 0, add for a
    purchase, subtract for a sale, replace for an adjustment, clamp at 0. *)
Definition replayStep (quantity : Z) (m : StockMovement) : Z :=
  Z.max 0
    (if String.eqb (sm_type m) "purchase" then quantity + sm_quantity m
     else if String.eqb (sm_type m) "sale" then quantity - sm_quantity m
     else if String.eqb (sm_type m) "adjustment" then sm_quantity m
     else quantity).

Definition replay (ms : list StockMovement) : Z :=
  fold_left replayStep ms 0.

(** The movements of one item, in creation order. *)
Definition movementsOf (db : DB) (itemId : Id) : list StockMovement :=
  filter (fun m => Nat.eqb (sm_itemId m) itemId) (stockMovements db).

(** The projected quantity of an item: that of its inventory row, 0 when it
    has none ([inv?.quantity || 0] in [getItems]). *)
Definition projection (db : DB) (itemId : Id) : Z :=
  match hd_error (selectInventoryByItem itemId db) with
  | Some inv => inv_quantity inv
  | None => 0
  end.

(** Ledger and projection agree on every item of the catalog. *)
Definition consistent (db : DB) : Prop :=
  forall it, In it (items db) ->
    projection db (item_id it) = replay (movementsOf db (item_id it)).

(** The next number of a series, in the specification's words: the highest
    suffix issued in the series for the year, plus one, padded to 3 digits;
    001 when the year has none. *)
Definition specSuffixes (prefix : string) (year : Z) (issued : list string)
  : list Z :=
  flat_map
    (fun n =>
       match split "-" n with
       | [p; y; s] =>
           match parseInt y, parseInt s with
           | Num y', Num s' =>
               if String.eqb p prefix && (y' =? year) then [s'] else []
           | _, _ => []
           end
       | _ => []
       end)
    issued.

Definition specNextNumber (prefix : string) (year : Z) (issued : list string)
  : string :=
  prefix ++ "-" ++ numberToString (Num year) ++ "-"
  ++ padStart 3 "0"
       (numberToString (Num (fold_right Z.max 0 (specSuffixes prefix year issued) + 1))).


(** The numbers the allocators hand out. *)
Definition billNumberOf (n : Z) : string :=
  "INV-2024-" ++ padStart 3 "0" (numberToString (Num n)).

Definition purchaseNumberOf (n : Z) : string :=
  "PUR-2024-" ++ padStart 3 "0" (numberToString (Num n)).

(** [n] is the suffix issued last in the bill series: no bill and [n = 0],
    or the bill created last carries [billNumberOf n]. *)
Definition lastBillSuffix (db : DB) (n : Z) : Prop :=
  (bills db = [] /\ n = 0)
  \/ (0 <= n < 2 ^ 53 - 1
      /\ exists b older, bills db = (older ++ [b])%list
                         /\ bill_billNumber b = billNumberOf n).

Definition lastPurchaseSuffix (db : DB) (n : Z) : Prop :=
  (purchases db = [] /\ n = 0)
  \/ (0 <= n < 2 ^ 53 - 1
      /\ exists p older, purchases db = (older ++ [p])%list
                         /\ purchase_purchaseNumber p = purchaseNumberOf n).

(** ** Vocabulary of the properties *)

(** The database after an accepted movement on an item that has a row. *)
Definition afterMovement (db : DB) (movement : InsertStockMovement) : DB :=
  let db1 :=
    advance 1 (set_stockMovements
                 (stockMovements db ++ [movementRow (nextId db) movement]) db) in
  set_inventory
    (map (setQuantity (ism_itemId movement)
            (Z.max 0 (newQuantity (projection db (ism_itemId movement)) movement)))
         (inventory db1))
    db1.

(** A line the specification calls invalid: quantity below 1, or negative
    rate. *)
Definition invalidLine (item : BillItemBody) : Prop :=
  (exists q, bib_quantity item = Number q /\ (q < 1)%Q)
  \/ (exists r, bib_rate item = Number r /\ (r < 0)%Q).

(** Text made of the digits 0 to 9 only. *)
Definition decimalDigit (c : ascii) : bool :=
  let n := nat_of_ascii c in Nat.leb 48 n && Nat.leb n 57.

Fixpoint allDecimal (s : string) : bool :=
  match s with
  | EmptyString => true
  | String c rest => decimalDigit c && allDecimal rest
  end.

(** What a ledger row records of the movement it came from. *)
Definition written (m : StockMovement) : InsertStockMovement :=
  {| ism_itemId := sm_itemId m; ism_type := sm_type m;
     ism_quantity := sm_quantity m; ism_reason := sm_reason m |}.

(** The document tables of [db'] are those of [db]. *)
Definition sameDocuments (db db' : DB) : Prop :=
  bills db' = bills db /\ billItems db' = billItems db
  /\ purchases db' = purchases db /\ purchaseItems db' = purchaseItems db.

(** What a line row records: its document, its item, its quantity. *)
Definition billLine (r : BillItem) : Id * Id * Z :=
  (bi_billId r, bi_itemId r, bi_quantity r).

Definition purchaseLine (r : PurchaseItem) : Id * Id * Z :=
  (pi_purchaseId r, pi_itemId r, pi_quantity r).

(** All artifacts of a bill are in [db']: the header, a line row per
    submitted line, a sale movement per submitted line. *)
Definition billComplete (db db' : DB) (bill : InsertBill)
  (lines : list InsertBillItem) : Prop :=
  exists newBill rows ms,
    bills db' = (bills db ++ [newBill])%list
    /\ bill_billNumber newBill = ib_billNumber bill
    /\ billItems db' = (billItems db ++ rows)%list
    /\ map billLine rows
       = map (fun l => (bill_id newBill, ibi_itemId l, ibi_quantity l)) lines
    /\ stockMovements db' = (stockMovements db ++ ms)%list
    /\ map written ms = map (saleMovement (ib_billNumber bill)) lines.

(** The header of the bill is in [db']. *)
Definition billHeaderWritten (db db' : DB) (bill : InsertBill) : Prop :=
  exists newBill,
    bills db' = (bills db ++ [newBill])%list
    /\ bill_billNumber newBill = ib_billNumber bill.

Definition purchaseComplete (db db' : DB) (purchase : InsertPurchase)
  (lines : list InsertPurchaseItem) : Prop :=
  exists newPurchase rows ms,
    purchases db' = (purchases db ++ [newPurchase])%list
    /\ purchase_purchaseNumber newPurchase = ip_purchaseNumber purchase
    /\ purchaseItems db' = (purchaseItems db ++ rows)%list
    /\ map purchaseLine rows
       = map (fun l => (purchase_id newPurchase, ipi_itemId l, ipi_quantity l)) lines
    /\ stockMovements db' = (stockMovements db ++ ms)%list
    /\ map written ms = map (purchaseMovement (ip_purchaseNumber purchase)) lines.

Definition purchaseHeaderWritten (db db' : DB) (purchase : InsertPurchase) : Prop :=
  exists newPurchase,
    purchases db' = (purchases db ++ [newPurchase])%list
    /\ purchase_purchaseNumber newPurchase = ip_purchaseNumber purchase.

(** No two bills share a number, no two purchases share a number. *)
Definition uniqueNumbers (db : DB) : Prop :=
  NoDup (map bill_billNumber (bills db))
  /\ NoDup (map purchase_purchaseNumber (purchases db)).

(** ** Sample states *)

Definition emptyDB : DB :=
  {| users := []; customers := []; vendors := []; items := [];
     inventory := []; stockMovements := []; bills := []; billItems := [];
     purchases := []; purchaseItems := []; nextId := 0%nat |}.

(** A shop with a user, a customer, a vendor and the item ITM001 with its
    inventory row at 0, as [createItem] leaves it. *)
Definition shop : DB :=
  {| users := [1%nat];
     customers := [{| customer_id := 2%nat; customer_name := "Asha" |}];
     vendors := [{| vendor_id := 3%nat; vendor_name := "Kiran" |}];
     items := [{| item_id := 4%nat; item_code := "ITM001";
                  item_name := "Widget"; item_lowStockThreshold := 10 |}];
     inventory := [{| inv_id := 5%nat; inv_itemId := 4%nat; inv_quantity := 0 |}];
     stockMovements := []; bills := []; billItems := [];
     purchases := []; purchaseItems := []; nextId := 6%nat |}.

(** The shop after [Inbound(50, "initial stock")]. *)
Definition initialStock : InsertStockMovement :=
  {| ism_itemId := 4%nat; ism_type := "purchase"; ism_quantity := 50;
     ism_reason := Some "initial stock" |}.

Definition stocked : DB :=
  fst (run (createStockMovement initialStock) shop).

(** The shop with ITM001 in the catalog and no inventory row for it. *)
Definition shopWithoutRow : DB :=
  set_inventory [] shop.

(** A sale of 60 units of ITM001. *)
Definition oversell : InsertStockMovement :=
  {| ism_itemId := 4%nat; ism_type := "sale"; ism_quantity := 60;
     ism_reason := None |}.

(** A movement for an item that is not in the catalog. *)
Definition ghostMovement : InsertStockMovement :=
  {| ism_itemId := 99%nat; ism_type := "purchase"; ism_quantity := 5;
     ism_reason := None |}.


(** A bill for 2 units of ITM001 at 100.00. *)
Definition billFor2 : BillBody :=
  {| bb_customerId := 2%nat; bb_subtotal := Number (200 # 1);
     bb_gstAmount := Number (36 # 1); bb_total := Number (236 # 1);
     bb_status := None |}.

Definition units (quantity : Z) : BillItemBody :=
  {| bib_itemId := 4%nat; bib_quantity := Number (quantity # 1);
     bib_rate := Number (100 # 1); bib_amount := Number (quantity * 100 # 1) |}.

(** The stocked shop after that bill, INV-2024-001 with key 7, then after
    the bill has been marked paid. *)
Definition billed : DB :=
  fst (run (postBills 1%nat billFor2 [units 2]) stocked).



(** A validated bill numbered INV-2024-001 for the customer of the shop,
    a validated line at rate 100.00, and the line for 2 units of an item
    that is not in the catalog. *)
Definition firstBill : InsertBill :=
  {| ib_billNumber := "INV-2024-001"; ib_customerId := 2%nat;
     ib_subtotal := (200 # 1)%Q; ib_gstAmount := (36 # 1)%Q;
     ib_total := (236 # 1)%Q;
     ib_status := None; ib_createdBy := 1%nat |}.

Definition lineFor (itemId : Id) (quantity : Z) : InsertBillItem :=
  {| ibi_itemId := itemId; ibi_quantity := quantity; ibi_rate := (100 # 1)%Q;
     ibi_amount := (quantity * 100 # 1)%Q |}.


Definition firstPurchase : InsertPurchase :=
  {| ip_purchaseNumber := "PUR-2024-001"; ip_vendorId := 3%nat;
     ip_total := Some (500 # 1)%Q; ip_createdBy := 1%nat |}.


(** Two requests in flight: both read the last number, then the first
    runs its seven remaining statements, then the second resumes. *)
Definition racing : list nat :=
  [0; 1; 0; 0; 0; 0; 0; 0; 0; 1]%nat.

(** ** Proof steps for the numbering code *)

(** [parseInt] on a text that starts with neither white space, a sign nor a
    hexadecimal prefix. *)
Ltac parseInt_plain c s Hpre :=
  change (parseInt (String c s))
    with (match digitsPrefix 10 (String c s) with
          | [] => NaN
          | d :: ds => Num (1 * digitsValue 10 (d :: ds))
          end);
  rewrite Hpre; cbv iota beta; now rewrite Z.mul_1_l.

(** The first character of the text is read as a decimal digit. *)
Ltac read_digit :=
  match goal with
  | |- context [digitsPrefix 10 (String ?c ?s)] =>
      let v := eval vm_compute in (digitValue c) in
      match v with
      | Some ?k =>
          change (digitsPrefix 10 (String c s)) with (k :: digitsPrefix 10 s)
      end
  end.

(** ** The rest of the storage layer

    The methods below are given their sequential reading: a [Script] runs
    its statements one after the other on the database, which is what [run]
    does for a task. *)

Definition Script (X : Type) : Type := DB -> DB * Result X.

Definition ret {X : Type} (x : X) : Script X :=
  fun db => (db, Ok x).

Definition andThen {X Y : Type} (s : Script X) (k : X -> Script Y) : Script Y :=
  fun db =>
    match s db with
    | (db', Ok x) => k x db'
    | (db', Err e) => (db', Err e)
    end.

(** A select: rows read, nothing written. *)
Definition select {X : Type} (rows : DB -> X) : Script X :=
  fun db => (db, Ok (rows db)).

(** A synchronous call that may throw, in a script. *)
Definition liftScript {X : Type} (r : Result X) : Script X :=
  fun db => (db, r).

(** [try { s } catch (error) { h error }] *)
Definition orElse {X : Type} (s : Script X) (h : Error -> Script X) : Script X :=
  fun db =>
    match s db with
    | (db', Ok x) => (db', Ok x)
    | (db', Err e) => h e db'
    end.

Declare Scope script_scope.
Delimit Scope script_scope with script.
Notation "x <- s ;; k" := (andThen s (fun x => k))
  (at level 61, s at next level, right associativity) : script_scope.
Notation "s ;;; k" := (andThen s (fun _ => k))
  (at level 61, right associativity) : script_scope.

Definition set_items (v : list Item) (db : DB) : DB :=
  {| users := users db; customers := customers db; vendors := vendors db;
     items := v; inventory := inventory db;
     stockMovements := stockMovements db; bills := bills db;
     billItems := billItems db; purchases := purchases db;
     purchaseItems := purchaseItems db; nextId := nextId db |}.

Definition set_customers (v : list Customer) (db : DB) : DB :=
  {| users := users db; customers := v; vendors := vendors db;
     items := items db; inventory := inventory db;
     stockMovements := stockMovements db; bills := bills db;
     billItems := billItems db; purchases := purchases db;
     purchaseItems := purchaseItems db; nextId := nextId db |}.

Definition set_vendors (v : list Vendor) (db : DB) : DB :=
  {| users := users db; customers := customers db; vendors := v;
     items := items db; inventory := inventory db;
     stockMovements := stockMovements db; bills := bills db;
     billItems := billItems db; purchases := purchases db;
     purchaseItems := purchaseItems db; nextId := nextId db |}.

(** *** Items *)

(** PostgreSQL [decimal(5,2)] ([gst_rate]). *)
Definition decimal_5_2 (q : Q) : Result Z :=
  let h := hundredths q in
  if Z.abs h <? 10 ^ 5 then Ok h else Err NumericValueOutOfRange.

(** [InsertItem]: what [insertItemSchema] yields.  The columns no modelled
    method reads ([description], [category], [price], [gstRate], [unit])
    are checked when a row is written and not carried by [Item]. *)
Record InsertItem : Type := {
  ii_code : string;
  ii_name : string;
  ii_price : Q;
  ii_gstRate : Q;
  ii_lowStockThreshold : Z
}.

Definition codeTaken (db : DB) (code : string) : bool :=
  existsb (fun it => String.eqb (item_code it) code) (items db).

(** [db.insert(items).values(item).returning()]; [code] is unique. *)
Definition insertItem (v : InsertItem) (db : DB) : DB * Result Item :=
  match decimal_10_2 (ii_price v), decimal_5_2 (ii_gstRate v) with
  | Ok _, Ok _ =>
      if negb (int32 (ii_lowStockThreshold v)) then (db, Err NumericValueOutOfRange)
      else if codeTaken db (ii_code v) then (db, Err UniqueViolation)
      else
        let row := {| item_id := nextId db; item_code := ii_code v;
                      item_name := ii_name v;
                      item_lowStockThreshold := ii_lowStockThreshold v |} in
        (advance 1 (set_items (items db ++ [row]) db), Ok row)
  | _, _ => (db, Err NumericValueOutOfRange)
  end.

(** [db.insert(inventory).values({ itemId, quantity })] *)
Definition insertInventory (itemId : Id) (quantity : Z) (db : DB)
  : DB * Result Inventory :=
  if negb (int32 quantity) then (db, Err NumericValueOutOfRange)
  else if negb (hasItem db itemId) then (db, Err ForeignKeyViolation)
  else
    let row := {| inv_id := nextId db; inv_itemId := itemId;
                  inv_quantity := quantity |} in
    (advance 1 (set_inventory (inventory db ++ [row]) db), Ok row).

Definition createItem (item : InsertItem) : Script Item :=
  (newItem <- insertItem item ;;
   insertInventory (item_id newItem) 0 ;;;
   ret newItem)%script.

Definition getItem (id : Id) : Script (option Item) :=
  (rows <- select (fun db => filter (fun it => Nat.eqb (item_id it) id) (items db)) ;;
   ret (hd_error rows))%script.

(** A row of [inventory], [stock_movements], [bill_items] or
    [purchase_items] references the item. *)
Definition itemReferenced (db : DB) (id : Id) : bool :=
  existsb (fun r => Nat.eqb (inv_itemId r) id) (inventory db)
  || existsb (fun m => Nat.eqb (sm_itemId m) id) (stockMovements db)
  || existsb (fun r => Nat.eqb (bi_itemId r) id) (billItems db)
  || existsb (fun r => Nat.eqb (pi_itemId r) id) (purchaseItems db).

(** [db.delete(items).where(eq(items.id, id))]: the references to
    [items.id] declare no [onDelete], so a referenced row can not go. *)
Definition deleteItemRows (id : Id) (db : DB) : DB * Result unit :=
  if hasItem db id && itemReferenced db id then (db, Err ForeignKeyViolation)
  else
    (set_items (filter (fun it => negb (Nat.eqb (item_id it) id)) (items db)) db,
     Ok tt).

Definition deleteItem (id : Id) : Script unit :=
  deleteItemRows id.

(** *** Sorting ([orderBy]) *)

Fixpoint insertBy {A : Type} (leb : A -> A -> bool) (x : A) (l : list A)
  : list A :=
  match l with
  | [] => [x]
  | y :: rest => if leb x y then x :: l else y :: insertBy leb x rest
  end.

(** An [ORDER BY]: the rows in ascending order of [leb].  SQL leaves the
    order of ties open; this sort keeps them as they were. *)
Fixpoint sortBy {A : Type} (leb : A -> A -> bool) (l : list A) : list A :=
  match l with
  | [] => []
  | x :: rest => insertBy leb x (sortBy leb rest)
  end.

(** *** Inventory views *)

Record ItemWithInventory : Type := {
  iwi_item : Item;
  iwi_inventory : option Inventory;
  iwi_currentStock : Z;
  iwi_isLowStock : bool
}.

(** [from(items).innerJoin(inventory, eq(items.id, inventory.itemId))
      .where(sql`quantity <= lowStockThreshold`)
      .orderBy(asc(inventory.quantity))] *)
Definition selectLowStock (db : DB) : list (Item * Inventory) :=
  sortBy (fun a b => inv_quantity (snd a) <=? inv_quantity (snd b))
    (flat_map
       (fun it =>
          map (fun inv => (it, inv))
              (filter (fun inv =>
                         Nat.eqb (item_id it) (inv_itemId inv)
                         && (inv_quantity inv <=? item_lowStockThreshold it))
                      (inventory db)))
       (items db)).

Definition getLowStockItems : Script (list ItemWithInventory) :=
  (result <- select selectLowStock ;;
   ret (map (fun row =>
               {| iwi_item := fst row; iwi_inventory := Some (snd row);
                  iwi_currentStock := inv_quantity (snd row);
                  iwi_isLowStock := true |})
            result))%script.

(** [from(items).leftJoin(inventory, eq(items.id, inventory.itemId))] *)
Definition leftJoinInventory (db : DB) : list (Item * option Inventory) :=
  flat_map
    (fun it =>
       match filter (fun inv => Nat.eqb (item_id it) (inv_itemId inv))
                    (inventory db) with
       | [] => [(it, None)]
       | rows => map (fun inv => (it, Some inv)) rows
       end)
    (items db).

(** [{ ...item, inventory: inv || undefined,
       currentStock: inv?.quantity || 0,
       isLowStock: (inv?.quantity || 0) <= item.lowStockThreshold }] *)
Definition withInventory (row : Item * option Inventory) : ItemWithInventory :=
  let currentStock :=
    match snd row with
    | Some inv => inv_quantity inv
    | None => 0
    end in
  {| iwi_item := fst row; iwi_inventory := snd row;
     iwi_currentStock := currentStock;
     iwi_isLowStock := currentStock <=? item_lowStockThreshold (fst row) |}.

(** [orderBy(asc(items.name))] compares texts under the collation of the
    database, which the code does not fix: [nameLeb] stands for it. *)
Definition getItems (nameLeb : string -> string -> bool)
  : Script (list ItemWithInventory) :=
  (result <- select (fun db =>
                       sortBy (fun a b => nameLeb (item_name (fst a))
                                                  (item_name (fst b)))
                              (leftJoinInventory db)) ;;
   ret (map withInventory result))%script.

(** [from(stockMovements).innerJoin(items, ...)
      .orderBy(desc(stockMovements.createdAt)).limit(50)] *)
Definition selectRecentMovements (db : DB) : list (StockMovement * Item) :=
  firstn 50
    (flat_map
       (fun m =>
          map (fun it => (m, it))
              (filter (fun it => Nat.eqb (sm_itemId m) (item_id it)) (items db)))
       (List.rev (stockMovements db))).

Definition getStockMovements : Script (list (StockMovement * Item)) :=
  (result <- select selectRecentMovements ;;
   ret result)%script.

(** *** Customers and vendors *)

(** [db.insert(customers).values(customer).returning()]; only the name is
    carried. *)
Definition createCustomer (name : string) : Script Customer :=
  fun db =>
    let row := {| customer_id := nextId db; customer_name := name |} in
    (advance 1 (set_customers (customers db ++ [row]) db), Ok row).

Definition customerReferenced (db : DB) (id : Id) : bool :=
  existsb (fun b => Nat.eqb (bill_customerId b) id) (bills db).

(** [db.delete(customers).where(eq(customers.id, id))] *)
Definition deleteCustomer (id : Id) : Script unit :=
  fun db =>
    if hasCustomer db id && customerReferenced db id
    then (db, Err ForeignKeyViolation)
    else
      (set_customers
         (filter (fun c => negb (Nat.eqb (customer_id c) id)) (customers db)) db,
       Ok tt).

Definition createVendor (name : string) : Script Vendor :=
  fun db =>
    let row := {| vendor_id := nextId db; vendor_name := name |} in
    (advance 1 (set_vendors (vendors db ++ [row]) db), Ok row).

Definition vendorReferenced (db : DB) (id : Id) : bool :=
  existsb (fun p => Nat.eqb (purchase_vendorId p) id) (purchases db).

(** [db.delete(vendors).where(eq(vendors.id, id))] *)
Definition deleteVendor (id : Id) : Script unit :=
  fun db =>
    if hasVendor db id && vendorReferenced db id
    then (db, Err ForeignKeyViolation)
    else
      (set_vendors
         (filter (fun v => negb (Nat.eqb (vendor_id v) id)) (vendors db)) db,
       Ok tt).

(** *** Lists of documents *)

(** [from(bills).innerJoin(customers, ...).orderBy(desc(bills.createdAt))] *)
Definition selectBillsWithCustomer (db : DB) : list (Bill * Customer) :=
  flat_map
    (fun b =>
       map (fun c => (b, c))
           (filter (fun c => Nat.eqb (bill_customerId b) (customer_id c))
                   (customers db)))
    (List.rev (bills db)).

(** [getBills]: each bill of the list is given its lines by one more
    select. *)
Definition getBills : Script (list BillWithDetails) :=
  (result <- select selectBillsWithCustomer ;;
   select (fun db =>
             map (fun row =>
                    {| bwd_bill := fst row; bwd_customer := snd row;
                       bwd_billItems :=
                         selectBillItemsWithItem (bill_id (fst row)) db |})
                 result))%script.

(** ** More request handlers (server/routes.ts) *)

(** An answer without a JSON payload: [res.status(code).send()] or
    [res.status(code).json({ message })]. *)
Inductive Sent : Type :=
| Status (code : nat)
| StatusMessage (code : nat) (message : string).

(** [GET /api/items/:id] *)
Definition getItemRoute (id : Id) : Script (Response Item) :=
  orElse
    (item <- getItem id ;;
     match item with
     | None => ret (Message 404 "Item not found")
     | Some it => ret (Json 200 it)
     end)%script
    (fun _ => ret (Message 500 "Failed to fetch item")).

Record ItemBody : Type := {
  itb_code : string;
  itb_name : string;
  itb_price : field;
  itb_gstRate : field;
  itb_lowStockThreshold : field
}.

Definition insertItemSchema (body : ItemBody) : Result InsertItem :=
  match zNumberMin 0 (itb_price body), zNumberMin 0 (itb_gstRate body),
        zIntMin 0 (itb_lowStockThreshold body) with
  | Ok price, Ok gstRate, Ok lowStockThreshold =>
      Ok {| ii_code := itb_code body; ii_name := itb_name body;
            ii_price := price; ii_gstRate := gstRate;
            ii_lowStockThreshold := lowStockThreshold |}
  | _, _, _ => Err ZodError
  end.

(** [POST /api/items]; both shapes of the 400 answer carry the message
    ["Invalid item data"]. *)
Definition postItems (body : ItemBody) : Script (Response Item) :=
  orElse
    (validatedData <- liftScript (insertItemSchema body) ;;
     item <- createItem validatedData ;;
     ret (Json 201 item))%script
    (fun _ => ret (Message 400 "Invalid item data")).

(** [DELETE /api/items/:id] *)
Definition deleteItemRoute (id : Id) : Script Sent :=
  orElse
    (deleteItem id ;;; ret (Status 204))%script
    (fun _ => ret (StatusMessage 500 "Failed to delete item")).

(** [DELETE /api/customers/:id] *)
Definition deleteCustomerRoute (id : Id) : Script Sent :=
  orElse
    (deleteCustomer id ;;; ret (Status 204))%script
    (fun _ => ret (StatusMessage 500 "Failed to delete customer")).

(** [DELETE /api/vendors/:id] *)
Definition deleteVendorRoute (id : Id) : Script Sent :=
  orElse
    (deleteVendor id ;;; ret (Status 204))%script
    (fun _ => ret (StatusMessage 500 "Failed to delete vendor")).

(** [GET /api/bills/:id] *)
Definition getBillRoute (id : Id) : Task (Response BillWithDetails) :=
  tryCatch
    (bill <- getBill id ;;
     match bill with
     | None => Return (Message 404 "Bill not found")
     | Some b => Return (Json 200 b)
     end)
    (fun _ => Return (Message 500 "Failed to fetch bill")).

(** A field the schema wants as a text holding a decimal: something that is
    no text, or a text with the value the database reads from it ([None]
    when it is no numeric literal). *)
Inductive textField : Type :=
| NotText
| Text (value : option Q).

(** [z.string()] *)
Definition zString (x : textField) : Result (option Q) :=
  match x with
  | Text v => Ok v
  | NotText => Err ZodError
  end.

Record PurchaseBody : Type := {
  pb_vendorId : Id;
  pb_total : textField
}.

(** [insertPurchaseSchema.parse({ ...purchaseData, purchaseNumber, createdBy })] *)
Definition insertPurchaseSchema (purchaseData : PurchaseBody)
  (purchaseNumber : string) (createdBy : Id) : Result InsertPurchase :=
  match zString (pb_total purchaseData) with
  | Ok total =>
      Ok {| ip_purchaseNumber := purchaseNumber;
            ip_vendorId := pb_vendorId purchaseData;
            ip_total := total; ip_createdBy := createdBy |}
  | Err e => Err e
  end.

(** A submitted purchase line; [purchaseId] may be missing. *)
Record PurchaseItemBody : Type := {
  pib_purchaseId : option Id;
  pib_itemId : Id;
  pib_quantity : field;
  pib_rate : textField;
  pib_amount : textField
}.

(** [insertPurchaseItemSchema]: the generated schema less [id]; the column
    [purchase_id] is not null and has no default, so the field is required. *)
Definition insertPurchaseItemSchema (item : PurchaseItemBody)
  : Result InsertPurchaseItem :=
  match pib_purchaseId item, zInteger (pib_quantity item),
        zString (pib_rate item), zString (pib_amount item) with
  | Some purchaseId, Ok quantity, Ok rate, Ok amount =>
      Ok {| ipi_purchaseId := purchaseId; ipi_itemId := pib_itemId item;
            ipi_quantity := quantity; ipi_rate := rate; ipi_amount := amount |}
  | _, _, _, _ => Err ZodError
  end.

(** [POST /api/purchases] *)
Definition postPurchases (sub : Id) (purchaseData : PurchaseBody)
  (purchaseItemsData : list PurchaseItemBody)
  : Task (Response (option PurchaseWithDetails)) :=
  tryCatch
    (purchaseNumber <- getNextPurchaseNumber ;;
     validatedPurchase <- lift (insertPurchaseSchema purchaseData purchaseNumber sub) ;;
     validatedPurchaseItems <-
       lift (parseEach insertPurchaseItemSchema purchaseItemsData) ;;
     purchase <- createPurchase validatedPurchase validatedPurchaseItems ;;
     Return (Json 201 purchase))
    (fun _ => Return (Message 400 "Invalid purchase data")).

(** ** The routing table

    [registerRoutes] registers its handlers in this order; a request goes to
    the first route whose method and path match, and no handler passes the
    request on.  A path is the list of its segments; a literal segment is
    compared without regard to case, a parameter takes any one segment. *)

Inductive Method : Type := GET | HEAD | POST | PATCH | DELETE.

Inductive Segment : Type :=
| Lit (s : string)
| Param (name : string).

Inductive Endpoint : Type :=
| AuthUser
| DashboardStats | DashboardRecentTransactions | DashboardTopSellingItems
| ItemsList | ItemsGet | ItemsCreate | ItemsUpdate | ItemsDelete
| CustomersList | CustomersGet | CustomersCreate | CustomersUpdate | CustomersDelete
| VendorsList | VendorsGet | VendorsCreate | VendorsUpdate | VendorsDelete
| InventoryList | InventoryLowStock | InventoryUpdate
| StockMovementsList | StockMovementsCreate
| BillsList | BillsGet | BillsCreate | BillsUpdateStatus | BillsNextNumber
| PurchasesList | PurchasesGet | PurchasesCreate | PurchasesNextNumber.

Record Route : Type := {
  route_method : Method;
  route_path : list Segment;
  route_endpoint : Endpoint
}.

Definition routes : list Route :=
  [ {| route_method := GET; route_path := [Lit "api"; Lit "auth"; Lit "user"];
       route_endpoint := AuthUser |};
    {| route_method := GET; route_path := [Lit "api"; Lit "dashboard"; Lit "stats"];
       route_endpoint := DashboardStats |};
    {| route_method := GET;
       route_path := [Lit "api"; Lit "dashboard"; Lit "recent-transactions"];
       route_endpoint := DashboardRecentTransactions |};
    {| route_method := GET;
       route_path := [Lit "api"; Lit "dashboard"; Lit "top-selling-items"];
       route_endpoint := DashboardTopSellingItems |};
    {| route_method := GET; route_path := [Lit "api"; Lit "items"];
       route_endpoint := ItemsList |};
    {| route_method := GET; route_path := [Lit "api"; Lit "items"; Param "id"];
       route_endpoint := ItemsGet |};
    {| route_method := POST; route_path := [Lit "api"; Lit "items"];
       route_endpoint := ItemsCreate |};
    {| route_method := PATCH; route_path := [Lit "api"; Lit "items"; Param "id"];
       route_endpoint := ItemsUpdate |};
    {| route_method := DELETE; route_path := [Lit "api"; Lit "items"; Param "id"];
       route_endpoint := ItemsDelete |};
    {| route_method := GET; route_path := [Lit "api"; Lit "customers"];
       route_endpoint := CustomersList |};
    {| route_method := GET; route_path := [Lit "api"; Lit "customers"; Param "id"];
       route_endpoint := CustomersGet |};
    {| route_method := POST; route_path := [Lit "api"; Lit "customers"];
       route_endpoint := CustomersCreate |};
    {| route_method := PATCH; route_path := [Lit "api"; Lit "customers"; Param "id"];
       route_endpoint := CustomersUpdate |};
    {| route_method := DELETE; route_path := [Lit "api"; Lit "customers"; Param "id"];
       route_endpoint := CustomersDelete |};
    {| route_method := GET; route_path := [Lit "api"; Lit "vendors"];
       route_endpoint := VendorsList |};
    {| route_method := GET; route_path := [Lit "api"; Lit "vendors"; Param "id"];
       route_endpoint := VendorsGet |};
    {| route_method := POST; route_path := [Lit "api"; Lit "vendors"];
       route_endpoint := VendorsCreate |};
    {| route_method := PATCH; route_path := [Lit "api"; Lit "vendors"; Param "id"];
       route_endpoint := VendorsUpdate |};
    {| route_method := DELETE; route_path := [Lit "api"; Lit "vendors"; Param "id"];
       route_endpoint := VendorsDelete |};
    {| route_method := GET; route_path := [Lit "api"; Lit "inventory"];
       route_endpoint := InventoryList |};
    {| route_method := GET; route_path := [Lit "api"; Lit "inventory"; Lit "low-stock"];
       route_endpoint := InventoryLowStock |};
    {| route_method := PATCH;
       route_path := [Lit "api"; Lit "inventory"; Param "itemId"];
       route_endpoint := InventoryUpdate |};
    {| route_method := GET; route_path := [Lit "api"; Lit "stock-movements"];
       route_endpoint := StockMovementsList |};
    {| route_method := POST; route_path := [Lit "api"; Lit "stock-movements"];
       route_endpoint := StockMovementsCreate |};
    {| route_method := GET; route_path := [Lit "api"; Lit "bills"];
       route_endpoint := BillsList |};
    {| route_method := GET; route_path := [Lit "api"; Lit "bills"; Param "id"];
       route_endpoint := BillsGet |};
    {| route_method := POST; route_path := [Lit "api"; Lit "bills"];
       route_endpoint := BillsCreate |};
    {| route_method := PATCH;
       route_path := [Lit "api"; Lit "bills"; Param "id"; Lit "status"];
       route_endpoint := BillsUpdateStatus |};
    {| route_method := GET; route_path := [Lit "api"; Lit "bills"; Lit "next-number"];
       route_endpoint := BillsNextNumber |};
    {| route_method := GET; route_path := [Lit "api"; Lit "purchases"];
       route_endpoint := PurchasesList |};
    {| route_method := GET; route_path := [Lit "api"; Lit "purchases"; Param "id"];
       route_endpoint := PurchasesGet |};
    {| route_method := POST; route_path := [Lit "api"; Lit "purchases"];
       route_endpoint := PurchasesCreate |};
    {| route_method := GET;
       route_path := [Lit "api"; Lit "purchases"; Lit "next-number"];
       route_endpoint := PurchasesNextNumber |} ].

Definition lowerCase (c : ascii) : ascii :=
  let n := nat_of_ascii c in
  if Nat.leb 65 n && Nat.leb n 90 then ascii_of_nat (n + 32) else c.

Fixpoint lowerCaseText (s : string) : string :=
  match s with
  | EmptyString => EmptyString
  | String c rest => String (lowerCase c) (lowerCaseText rest)
  end.

Definition sameText (a b : string) : bool :=
  String.eqb (lowerCaseText a) (lowerCaseText b).

(** A route registered with [app.get] also answers [HEAD]. *)
Definition methodMatches (route request : Method) : bool :=
  match route, request with
  | GET, GET | GET, HEAD | HEAD, HEAD | POST, POST | PATCH, PATCH
  | DELETE, DELETE => true
  | _, _ => false
  end.

(** The parameters a path gives to a pattern, in order, when it matches. *)
Fixpoint matchPath (pattern : list Segment) (path : list string)
  : option (list string) :=
  match pattern, path with
  | [], [] => Some []
  | Lit s :: pattern', seg :: path' =>
      if sameText s seg then matchPath pattern' path' else None
  | Param _ :: pattern', seg :: path' =>
      match seg with
      | EmptyString => None
      | _ =>
          match matchPath pattern' path' with
          | Some params => Some (seg :: params)
          | None => None
          end
      end
  | _, _ => None
  end.

Definition matchRoute (r : Route) (m : Method) (path : list string)
  : option (list string) :=
  if methodMatches (route_method r) m then matchPath (route_path r) path
  else None.

Fixpoint firstMatch (rs : list Route) (m : Method) (path : list string)
  : option (Endpoint * list string) :=
  match rs with
  | [] => None
  | r :: rest =>
      match matchRoute r m path with
      | Some params => Some (route_endpoint r, params)
      | None => firstMatch rest m path
      end
  end.

Definition dispatch (m : Method) (path : list string)
  : option (Endpoint * list string) :=
  firstMatch routes m path.

(** ** Vocabulary of the further properties *)

(** The item has an inventory row. *)
Definition hasRow (db : DB) (itemId : Id) : Prop :=
  selectInventoryByItem itemId db <> [].

(** The catalog, the inventory and the ledger of [db'] are those of [db]. *)
Definition sameStock (db db' : DB) : Prop :=
  items db' = items db /\ inventory db' = inventory db
  /\ stockMovements db' = stockMovements db.

(** The key the generator hands out next is used nowhere in [db]. *)
Definition nextKeyUnused (db : DB) : Prop :=
  (forall it, In it (items db) -> item_id it <> nextId db)
  /\ (forall r, In r (inventory db) -> inv_itemId r <> nextId db)
  /\ (forall m, In m (stockMovements db) -> sm_itemId m <> nextId db)
  /\ (forall b, In b (bills db) -> bill_id b <> nextId db)
  /\ (forall r, In r (billItems db) -> bi_billId r <> nextId db).

(** From [db] to [db'] the ledger has only grown at its end, the catalog is
    the same, and the inventory has the same rows for the same items. *)
Definition ledgerGrown (db db' : DB) : Prop :=
  (exists ms, stockMovements db' = (stockMovements db ++ ms)%list)
  /\ items db' = items db
  /\ map (fun r => (inv_id r, inv_itemId r)) (inventory db')
     = map (fun r => (inv_id r, inv_itemId r)) (inventory db).

(** What the first bill request of the stocked shop is answered. *)
Definition firstBillAnswer : option BillWithDetails :=
  match snd (run (postBills 1%nat billFor2 [units 2]) stocked) with
  | Ok (Json _ payload) => payload
  | _ => None
  end.

(** A validated purchase line at rate 50.00. *)
Definition purchaseLineFor (itemId : Id) (quantity : Z) : InsertPurchaseItem :=
  {| ipi_purchaseId := 0%nat; ipi_itemId := itemId; ipi_quantity := quantity;
     ipi_rate := Some (50 # 1)%Q; ipi_amount := Some (quantity * 50 # 1)%Q |}.

(** A statement that writes documents only: every branch is looked at. *)
Ltac documents_only :=
  repeat match goal with
         | |- (if ?c then _ else _) = _ -> _ => destruct c
         | |- match ?x with _ => _ end = _ -> _ => destruct x
         end;
  intros H; inversion H; subst; repeat split.

(** The inventory row [createItem] writes: the item takes the next key, the
    row the one after. *)
Definition firstRow (db : DB) : Inventory :=
  {| inv_id := (nextId db + 1)%nat; inv_itemId := nextId db;
     inv_quantity := 0 |}.

(** The database after [createItem] wrote the item [it] and its row. *)
Definition afterCreateItem (db : DB) (it : Item) : DB :=
  let db1 := advance 1 (set_items (items db ++ [it]) db) in
  advance 1 (set_inventory (inventory db1 ++ [firstRow db]) db1).

(** A second item for the shop, and the request that submits it. *)
Definition gadget : ItemBody :=
  {| itb_code := "ITM002"; itb_name := "Gadget"; itb_price := Number (25 # 1);
     itb_gstRate := Number (18 # 1); itb_lowStockThreshold := Number (5 # 1) |}.

Definition gadgetItem : InsertItem :=
  {| ii_code := "ITM002"; ii_name := "Gadget"; ii_price := (25 # 1)%Q;
     ii_gstRate := (18 # 1)%Q; ii_lowStockThreshold := 5 |}.

(** The customers, vendors and users of [db'] are those of [db]. *)
Definition sameParties (db db' : DB) : Prop :=
  customers db' = customers db /\ vendors db' = vendors db
  /\ users db' = users db.

(** The entry of the low-stock list for an item and one of its rows. *)
Definition lowStockEntry (it : Item) (inv : Inventory) : ItemWithInventory :=
  {| iwi_item := it; iwi_inventory := Some inv;
     iwi_currentStock := inv_quantity inv; iwi_isLowStock := true |}.

(** A purchase request for the vendor of the shop, a line of it that names
    a purchase key of its own (77) and one that names none. *)
Definition purchaseOf500 : PurchaseBody :=
  {| pb_vendorId := 3%nat; pb_total := Text (Some (500 # 1)%Q) |}.

Definition purchasedUnits (purchaseId : option Id) (quantity : Z)
  : PurchaseItemBody :=
  {| pib_purchaseId := purchaseId; pib_itemId := 4%nat;
     pib_quantity := Number (quantity # 1);
     pib_rate := Text (Some (50 # 1)%Q);
     pib_amount := Text (Some (quantity * 50 # 1)%Q) |}.

(** The stocked shop after that purchase, and what the request is answered. *)
Definition purchased : DB :=
  fst (run (postPurchases 1%nat purchaseOf500 [purchasedUnits (Some 77%nat) 10])
           stocked).

Definition firstPurchaseAnswer : option PurchaseWithDetails :=
  match snd (run (postPurchases 1%nat purchaseOf500
                    [purchasedUnits (Some 77%nat) 10]) stocked) with
  | Ok (Json _ payload) => payload
  | _ => None
  end.

(** The routes registered before [GET /api/bills/next-number], and before
    [GET /api/purchases/next-number]. *)
Definition routesBefore (e : Endpoint) : list Route :=
  match e with
  | BillsNextNumber => firstn 28 routes
  | PurchasesNextNumber => firstn 32 routes
  | _ => []
  end.

Definition endpointEqb (a b : Endpoint) : bool :=
  match a, b with
  | AuthUser, AuthUser | DashboardStats, DashboardStats
  | DashboardRecentTransactions, DashboardRecentTransactions
  | DashboardTopSellingItems, DashboardTopSellingItems
  | ItemsList, ItemsList | ItemsGet, ItemsGet | ItemsCreate, ItemsCreate
  | ItemsUpdate, ItemsUpdate | ItemsDelete, ItemsDelete
  | CustomersList, CustomersList | CustomersGet, CustomersGet
  | CustomersCreate, CustomersCreate | CustomersUpdate, CustomersUpdate
  | CustomersDelete, CustomersDelete
  | VendorsList, VendorsList | VendorsGet, VendorsGet
  | VendorsCreate, VendorsCreate | VendorsUpdate, VendorsUpdate
  | VendorsDelete, VendorsDelete
  | InventoryList, InventoryList | InventoryLowStock, InventoryLowStock
  | InventoryUpdate, InventoryUpdate
  | StockMovementsList, StockMovementsList
  | StockMovementsCreate, StockMovementsCreate
  | BillsList, BillsList | BillsGet, BillsGet | BillsCreate, BillsCreate
  | BillsUpdateStatus, BillsUpdateStatus | BillsNextNumber, BillsNextNumber
  | PurchasesList, PurchasesList | PurchasesGet, PurchasesGet
  | PurchasesCreate, PurchasesCreate
  | PurchasesNextNumber, PurchasesNextNumber => true
  | _, _ => false
  end.

(* ================================================================== *)
(** * Part II. Properties *)
(* ================================================================== *)

(** ** Running tasks *)

Lemma run_bind {A B : Type} (t : Task A) (f : A -> Task B) (db : DB) :
  run (bind t f) db =
  match run t db with
  | (db', Ok a) => run (f a) db'
  | (db', Err e) => (db', Err e)
  end.
Proof.
  revert db. induction t as [a | e | X q k IH]; intros db; simpl; trivial.
  destruct (exec q db) as [db' r]. apply IH.
Qed.

Lemma run_tryCatch {A : Type} (t : Task A) (h : Error -> Task A) (db : DB) :
  run (tryCatch t h) db =
  match run t db with
  | (db', Ok a) => (db', Ok a)
  | (db', Err e) => run (h e) db'
  end.
Proof.
  revert db. induction t as [a | e | X q k IH]; intros db; simpl; trivial.
  destruct (exec q db) as [db' r]. apply IH.
Qed.

Lemma run_await {X : Type} (q : Query X) (db : DB) :
  run (await q) db = exec q db.
Proof.
  unfold await. simpl. destruct (exec q db) as [db' [x | e]]; reflexivity.
Qed.

Lemma run_lift {A : Type} (r : Result A) (db : DB) :
  run (lift r) db = (db, r).
Proof. destruct r; reflexivity. Qed.

(** A statement that raises leaves the database as it was. *)
Lemma exec_Err_unchanged {X : Type} (q : Query X) (db db' : DB) (e : Error) :
  exec q db = (db', Err e) -> db' = db.
Proof.
  destruct q; simpl;
    unfold insertStockMovement, updateInventoryRows, insertBill,
      insertBillItems, updateBillStatusRows, insertPurchase,
      insertPurchaseItems;
    repeat match goal with
           | |- (if ?c then _ else _) = _ -> _ => destruct c
           | |- match ?x with _ => _ end = _ -> _ => destruct x
           end;
    intros H; inversion H; trivial.
Qed.

(** ** The inventory table under [updateInventory] *)

Lemma setQuantity_itemId (i : Id) (q : Z) (r : Inventory) :
  inv_itemId (setQuantity i q r) = inv_itemId r.
Proof. unfold setQuantity. destruct (Nat.eqb (inv_itemId r) i); reflexivity. Qed.

Lemma setQuantity_other (i : Id) (q : Z) (r : Inventory) :
  inv_itemId r <> i -> setQuantity i q r = r.
Proof.
  intros H. unfold setQuantity.
  destruct (Nat.eqb (inv_itemId r) i) eqn:E; trivial.
  apply Nat.eqb_eq in E. contradiction.
Qed.

Lemma select_after_set_same (i : Id) (q : Z) (l : list Inventory) :
  filter (fun r => Nat.eqb (inv_itemId r) i) (map (setQuantity i q) l) =
  map (setQuantity i q) (filter (fun r => Nat.eqb (inv_itemId r) i) l).
Proof.
  induction l as [| r l IH]; simpl; trivial.
  rewrite setQuantity_itemId.
  destruct (Nat.eqb (inv_itemId r) i); simpl; now rewrite IH.
Qed.

Lemma select_after_set_other (i j : Id) (q : Z) (l : list Inventory) :
  i <> j ->
  filter (fun r => Nat.eqb (inv_itemId r) j) (map (setQuantity i q) l) =
  filter (fun r => Nat.eqb (inv_itemId r) j) l.
Proof.
  intros Hij. induction l as [| r l IH]; simpl; trivial.
  rewrite setQuantity_itemId, IH.
  destruct (Nat.eqb (inv_itemId r) j) eqn:E; trivial.
  apply Nat.eqb_eq in E. rewrite setQuantity_other; trivial. congruence.
Qed.

Lemma projection_after_set_same (db : DB) (i : Id) (q : Z) :
  selectInventoryByItem i db <> [] ->
  projection (set_inventory (map (setQuantity i q) (inventory db)) db) i = q.
Proof.
  unfold projection, selectInventoryByItem. simpl. intros Hrow.
  rewrite select_after_set_same.
  destruct (filter (fun r => Nat.eqb (inv_itemId r) i) (inventory db))
    as [| r rs] eqn:E; [contradiction|].
  assert (In r (filter (fun r => Nat.eqb (inv_itemId r) i) (inventory db)))
    as Hin by (rewrite E; now left).
  apply filter_In in Hin. destruct Hin as [_ Hr].
  simpl. unfold setQuantity. now rewrite Hr.
Qed.

Lemma projection_after_set_other (db : DB) (i j : Id) (q : Z) :
  i <> j ->
  projection (set_inventory (map (setQuantity i q) (inventory db)) db) j
  = projection db j.
Proof.
  intros Hij. unfold projection, selectInventoryByItem. simpl.
  now rewrite select_after_set_other.
Qed.

(** ** [createStockMovement], statement by statement *)

Lemma run_createStockMovement (movement : InsertStockMovement) (db : DB) :
  run (createStockMovement movement) db =
  match insertStockMovement movement db with
  | (db1, Err e) => (db1, Err e)
  | (db1, Ok newMovement) =>
      match hd_error (selectInventoryByItem (ism_itemId movement) db1) with
      | Some inv =>
          match updateInventoryRows
                  (ism_itemId movement)
                  (Z.max 0 (newQuantity (inv_quantity inv) movement)) db1 with
          | (db2, Ok _) => (db2, Ok newMovement)
          | (db2, Err e) => (db2, Err e)
          end
      | None => (db1, Ok newMovement)
      end
  end.
Proof.
  unfold createStockMovement. simpl.
  destruct (insertStockMovement movement db) as [db1 [row | e]]; simpl; trivial.
  destruct (hd_error (selectInventoryByItem (ism_itemId movement) db1))
    as [inv |]; simpl; trivial.
  destruct (updateInventoryRows _ _ db1) as [db2 [rows | e]]; reflexivity.
Qed.

Lemma insertStockMovement_accepts (v : InsertStockMovement) (db : DB) :
  hasItem db (ism_itemId v) = true ->
  int32 (ism_quantity v) = true ->
  insertStockMovement v db =
  (advance 1 (set_stockMovements (stockMovements db ++ [movementRow (nextId db) v]) db),
   Ok (movementRow (nextId db) v)).
Proof.
  intros Hitem Hq. unfold insertStockMovement. now rewrite Hq, Hitem.
Qed.


Lemma selectInventoryByItem_after_insert (i : Id) (db : DB)
  (ms : list StockMovement) (n : nat) :
  selectInventoryByItem i (advance n (set_stockMovements ms db))
  = selectInventoryByItem i db.
Proof. reflexivity. Qed.

Lemma projection_after_insert (i : Id) (db : DB)
  (ms : list StockMovement) (n : nat) :
  projection (advance n (set_stockMovements ms db)) i = projection db i.
Proof. reflexivity. Qed.

Lemma projection_of_row (db : DB) (i : Id) :
  selectInventoryByItem i db <> [] ->
  exists inv, hd_error (selectInventoryByItem i db) = Some inv
              /\ projection db i = inv_quantity inv.
Proof.
  unfold projection. destruct (selectInventoryByItem i db) as [| inv rest];
    [contradiction|]. intros _. exists inv. split; reflexivity.
Qed.

Lemma createStockMovement_with_row (db : DB) (movement : InsertStockMovement) :
  hasItem db (ism_itemId movement) = true ->
  int32 (ism_quantity movement) = true ->
  selectInventoryByItem (ism_itemId movement) db <> [] ->
  int32 (Z.max 0 (newQuantity (projection db (ism_itemId movement)) movement)) = true ->
  run (createStockMovement movement) db
  = (afterMovement db movement, Ok (movementRow (nextId db) movement)).
Proof.
  intros Hitem Hq Hrow Hnew.
  rewrite run_createStockMovement, insertStockMovement_accepts by assumption.
  rewrite selectInventoryByItem_after_insert.
  destruct (projection_of_row db _ Hrow) as [inv [-> Hinv]].
  rewrite <- Hinv. unfold updateInventoryRows. rewrite Hnew. reflexivity.
Qed.

Lemma createStockMovement_without_row (db : DB) (movement : InsertStockMovement) :
  hasItem db (ism_itemId movement) = true ->
  int32 (ism_quantity movement) = true ->
  selectInventoryByItem (ism_itemId movement) db = [] ->
  run (createStockMovement movement) db
  = (advance 1 (set_stockMovements
                  (stockMovements db ++ [movementRow (nextId db) movement]) db),
     Ok (movementRow (nextId db) movement)).
Proof.
  intros Hitem Hq Hrow.
  rewrite run_createStockMovement, insertStockMovement_accepts by assumption.
  rewrite selectInventoryByItem_after_insert, Hrow. reflexivity.
Qed.

Lemma projection_afterMovement_same (db : DB) (movement : InsertStockMovement) :
  selectInventoryByItem (ism_itemId movement) db <> [] ->
  projection (afterMovement db movement) (ism_itemId movement)
  = Z.max 0 (newQuantity (projection db (ism_itemId movement)) movement).
Proof.
  intros Hrow. unfold afterMovement.
  apply (projection_after_set_same
           (advance 1 (set_stockMovements
                         (stockMovements db ++ [movementRow (nextId db) movement]) db))).
  exact Hrow.
Qed.

Lemma projection_afterMovement_other (db : DB) (movement : InsertStockMovement)
  (j : Id) :
  ism_itemId movement <> j ->
  projection (afterMovement db movement) j = projection db j.
Proof.
  intros Hj. unfold afterMovement.
  rewrite (projection_after_set_other
             (advance 1 (set_stockMovements
                           (stockMovements db ++ [movementRow (nextId db) movement]) db)))
    by exact Hj.
  reflexivity.
Qed.

(** ** C4: the clamping law *)

(** C4.  A sale recorded for an item that has an inventory row leaves the
    projected quantity at [max(0, current - amount)]: never negative, and 0
    when the amount exceeds the current quantity.  The movement is one the
    tables accept: the item exists and both integers fit their columns. *)
Theorem sale_clamps_projection_at_zero
  (db : DB) (movement : InsertStockMovement) :
  ism_type movement = "sale" ->
  hasItem db (ism_itemId movement) = true ->
  selectInventoryByItem (ism_itemId movement) db <> [] ->
  int32 (ism_quantity movement) = true ->
  int32 (Z.max 0 (projection db (ism_itemId movement) - ism_quantity movement)) = true ->
  exists db' row,
    run (createStockMovement movement) db = (db', Ok row)
    /\ stockMovements db' = (stockMovements db ++ [row])%list
    /\ projection db' (ism_itemId movement)
       = Z.max 0 (projection db (ism_itemId movement) - ism_quantity movement)
    /\ 0 <= projection db' (ism_itemId movement)
    /\ (projection db (ism_itemId movement) < ism_quantity movement ->
        projection db' (ism_itemId movement) = 0).
Proof.
  intros Htype Hitem Hrow Hq Hnew.
  assert (newQuantity (projection db (ism_itemId movement)) movement
          = projection db (ism_itemId movement) - ism_quantity movement) as Hsale
      by (unfold newQuantity; rewrite Htype; reflexivity).
  exists (afterMovement db movement), (movementRow (nextId db) movement).
  rewrite createStockMovement_with_row, projection_afterMovement_same, Hsale;
    try assumption; [| now rewrite Hsale].
  repeat split; lia.
Qed.

Lemma sale_clamps_projection_at_zero_witness :
  exists db' row,
    run (createStockMovement oversell) stocked = (db', Ok row)
    /\ stockMovements db' = (stockMovements stocked ++ [row])%list
    /\ projection db' 4%nat = Z.max 0 (projection stocked 4%nat - 60)
    /\ 0 <= projection db' 4%nat
    /\ (projection stocked 4%nat < 60 -> projection db' 4%nat = 0).
Proof.
  apply (sale_clamps_projection_at_zero stocked oversell);
    solve [reflexivity | discriminate].
Defined.

(** ** C5: what recording a movement refuses *)




(** ** C10: a movement for an item without an inventory row *)

(** C10 (amended).  A movement for an item of the catalog that has no
    inventory row is appended to the ledger and returned; the inventory
    table, hence the projection of every item, is left as it was. *)
Theorem movement_without_inventory_row
  (db : DB) (movement : InsertStockMovement) :
  hasItem db (ism_itemId movement) = true ->
  int32 (ism_quantity movement) = true ->
  selectInventoryByItem (ism_itemId movement) db = [] ->
  exists db',
    run (createStockMovement movement) db
    = (db', Ok (movementRow (nextId db) movement))
    /\ stockMovements db'
       = (stockMovements db ++ [movementRow (nextId db) movement])%list
    /\ inventory db' = inventory db
    /\ forall j, projection db' j = projection db j.
Proof.
  intros Hitem Hq Hrow.
  rewrite createStockMovement_without_row by assumption.
  eexists. repeat split.
Qed.

Lemma movement_without_inventory_row_witness :
  exists db',
    run (createStockMovement initialStock) shopWithoutRow
    = (db', Ok (movementRow (nextId shopWithoutRow) initialStock))
    /\ stockMovements db'
       = (stockMovements shopWithoutRow
            ++ [movementRow (nextId shopWithoutRow) initialStock])%list
    /\ inventory db' = inventory shopWithoutRow
    /\ forall j, projection db' j = projection shopWithoutRow j.
Proof.
  apply (movement_without_inventory_row shopWithoutRow initialStock);
    reflexivity.
Defined.

(** C10, the claim as stated fails: item 99 has no inventory row, and no
    catalog entry either; the insert is refused and nothing is returned. *)
Lemma movement_for_unknown_item_is_refused :
  selectInventoryByItem (ism_itemId ghostMovement) shop = []
  /\ run (createStockMovement ghostMovement) shop = (shop, Err ForeignKeyViolation).
Proof. split; reflexivity. Qed.

(** ** C3: ledger and projection *)

Lemma replay_app (ms : list StockMovement) (m : StockMovement) :
  replay (ms ++ [m]) = replayStep (replay ms) m.
Proof. unfold replay. now rewrite fold_left_app. Qed.

Lemma replayStep_movementRow (q : Z) (id : Id) (movement : InsertStockMovement) :
  replayStep q (movementRow id movement) = Z.max 0 (newQuantity q movement).
Proof. reflexivity. Qed.

Lemma movementsOf_afterMovement (db : DB) (movement : InsertStockMovement) (j : Id) :
  movementsOf (afterMovement db movement) j
  = (movementsOf db j
       ++ if Nat.eqb (ism_itemId movement) j
          then [movementRow (nextId db) movement] else [])%list.
Proof.
  unfold movementsOf, afterMovement. simpl. now rewrite filter_app.
Qed.

Lemma consistent_afterMovement (db : DB) (movement : InsertStockMovement) :
  consistent db ->
  selectInventoryByItem (ism_itemId movement) db <> [] ->
  consistent (afterMovement db movement).
Proof.
  intros Hc Hrow it Hin.
  assert (In it (items db)) as Hin' by exact Hin.
  rewrite movementsOf_afterMovement.
  destruct (Nat.eqb (ism_itemId movement) (item_id it)) eqn:E.
  - apply Nat.eqb_eq in E. pose proof (Hc it Hin') as Hit.
    rewrite <- E in Hit |- *.
    rewrite projection_afterMovement_same, replay_app, replayStep_movementRow
      by assumption.
    now rewrite <- Hit.
  - apply Nat.eqb_neq in E.
    rewrite projection_afterMovement_other, app_nil_r by assumption.
    now apply Hc.
Qed.





(** ** C7: the preview read *)

Lemma run_getNextBillNumber (db : DB) :
  exists n, run getNextBillNumber db = (db, Ok n).
Proof.
  unfold getNextBillNumber. simpl.
  destruct (hd_error (selectLastBillNumber db)); eexists; reflexivity.
Qed.

Lemma run_getNextPurchaseNumber (db : DB) :
  exists n, run getNextPurchaseNumber db = (db, Ok n).
Proof.
  unfold getNextPurchaseNumber. simpl.
  destruct (hd_error (selectLastPurchaseNumber db)); eexists; reflexivity.
Qed.

(** C7.  Asking for the next number of either series leaves the database as
    it was, and asking twice in a row gives the same number twice. *)
Theorem next_number_is_a_pure_read (db : DB) :
  (exists n,
      run getNextBillNumber db = (db, Ok n)
      /\ run (first <- getNextBillNumber ;;
              second <- getNextBillNumber ;;
              Return (first, second)) db = (db, Ok (n, n)))
  /\ (exists n,
         run getNextPurchaseNumber db = (db, Ok n)
         /\ run (first <- getNextPurchaseNumber ;;
                 second <- getNextPurchaseNumber ;;
                 Return (first, second)) db = (db, Ok (n, n))).
Proof.
  split.
  - destruct (run_getNextBillNumber db) as [n Hn].
    exists n. split; [exact Hn |].
    rewrite run_bind, Hn, run_bind, Hn. reflexivity.
  - destruct (run_getNextPurchaseNumber db) as [n Hn].
    exists n. split; [exact Hn |].
    rewrite run_bind, Hn, run_bind, Hn. reflexivity.
Qed.

(** ** C8: bill status *)




(** ** C9: validation of a submitted bill *)

Lemma parseEach_refuses {A B : Type} (parse : A -> Result B) (xs : list A)
  (x : A) (e : Error) :
  In x xs -> parse x = Err e -> exists e', parseEach parse xs = Err e'.
Proof.
  induction xs as [| y xs IH]; simpl; [contradiction |].
  intros [-> | Hin] Hx.
  - rewrite Hx. eauto.
  - destruct (parse y); [| eauto].
    destruct (IH Hin Hx) as [e' ->]. eauto.
Qed.

Lemma zIntMin_below (q : Q) : (q < 1)%Q -> zIntMin 1 (Number q) = Err ZodError.
Proof.
  intros Hq. unfold zIntMin, toInteger.
  destruct (isInteger q); trivial. simpl.
  unfold Qlt in Hq. simpl in Hq.
  assert (Qnum q / Zpos (Qden q) < 1) as Hlt
      by (apply Z.div_lt_upper_bound; lia).
  assert ((1 <=? Qnum q / Zpos (Qden q)) = false) as ->
      by (apply Z.leb_gt; exact Hlt).
  reflexivity.
Qed.

Lemma zNumberMin_below (q : Q) : (q < 0)%Q -> zNumberMin 0 (Number q) = Err ZodError.
Proof.
  intros Hq. unfold zNumberMin.
  destruct (Qle_bool 0 q) eqn:E; trivial.
  apply Qle_bool_iff in E. apply Qlt_not_le in Hq. contradiction.
Qed.

Lemma insertBillItemSchema_refuses (item : BillItemBody) :
  invalidLine item -> insertBillItemSchema item = Err ZodError.
Proof.
  unfold insertBillItemSchema.
  intros [[q [-> Hq]] | [r [-> Hr]]].
  - now rewrite zIntMin_below.
  - rewrite zNumberMin_below by assumption.
    destruct (zIntMin 1 (bib_quantity item)); reflexivity.
Qed.

(** C9 (amended).  A submitted bill with a line whose quantity is below 1
    or whose rate is negative is answered 400 and nothing is written: the
    database is the one the request found. *)
Theorem invalid_line_rejected_before_any_write
  (db : DB) (sub : Id) (billData : BillBody) (billItemsData : list BillItemBody)
  (item : BillItemBody) :
  In item billItemsData ->
  invalidLine item ->
  run (postBills sub billData billItemsData) db
  = (db, Ok (Message 400 "Invalid bill data")).
Proof.
  intros Hin Hbad. unfold postBills.
  rewrite run_tryCatch, run_bind.
  destruct (run_getNextBillNumber db) as [n ->].
  rewrite run_bind, run_lift.
  destruct (insertBillSchema billData n sub) as [bill | e]; [| reflexivity].
  rewrite run_bind, run_lift.
  destruct (parseEach_refuses insertBillItemSchema billItemsData item ZodError
              Hin (insertBillItemSchema_refuses item Hbad)) as [e' ->].
  reflexivity.
Qed.

Lemma invalid_line_rejected_before_any_write_witness :
  run (postBills 1%nat billFor2 [units 2; units 0]) stocked
  = (stocked, Ok (Message 400 "Invalid bill data")).
Proof.
  apply (invalid_line_rejected_before_any_write stocked 1%nat billFor2
           [units 2; units 0] (units 0)).
  - right. left. reflexivity.
  - left. exists (0 # 1)%Q. split; reflexivity.
Defined.

(** C9, the claim as stated fails: a submission with no line at all is not
    validated; the header INV-2024-001 is written, the insert of the empty
    list of lines then throws, and the answer is 400 with the header left in
    the database. *)
Lemma empty_line_list_leaves_a_header :
  bills stocked = []
  /\ exists db' b,
       run (postBills 1%nat billFor2 []) stocked
       = (db', Ok (Message 400 "Invalid bill data"))
       /\ bills db' = [b]
       /\ bill_billNumber b = "INV-2024-001"
       /\ billItems db' = []
       /\ stockMovements db' = stockMovements stocked.
Proof. split; [reflexivity |]. eexists; eexists. repeat split. Qed.

(** ** C2: what [createBill] and [createPurchase] leave behind *)

Lemma sameDocuments_refl (db : DB) : sameDocuments db db.
Proof. repeat split. Qed.

Lemma sameDocuments_trans (db1 db2 db3 : DB) :
  sameDocuments db1 db2 -> sameDocuments db2 db3 -> sameDocuments db1 db3.
Proof.
  unfold sameDocuments. intros (A & B & C & D) (A' & B' & C' & D').
  repeat split; congruence.
Qed.

Lemma createStockMovement_outcome (movement : InsertStockMovement)
  (db db' : DB) (r : Result StockMovement) :
  run (createStockMovement movement) db = (db', r) ->
  sameDocuments db db'
  /\ forall row, r = Ok row ->
       stockMovements db' = (stockMovements db ++ [row])%list
       /\ written row = movement.
Proof.
  rewrite run_createStockMovement.
  unfold insertStockMovement, updateInventoryRows.
  destruct (negb (int32 (ism_quantity movement)));
    [intros H; inversion H; split; [apply sameDocuments_refl | discriminate] |].
  destruct (negb (hasItem db (ism_itemId movement)));
    [intros H; inversion H; split; [apply sameDocuments_refl | discriminate] |].
  destruct (hd_error _) as [inv |].
  - destruct (negb (int32 _)); intros H; inversion H; subst;
      (split; [repeat split | intros row Hrow; inversion Hrow; subst]).
    split; [reflexivity | destruct movement; reflexivity].
  - intros H; inversion H; subst.
    split; [repeat split | intros row Hrow; inversion Hrow; subst].
    split; [reflexivity | destruct movement; reflexivity].
Qed.

Lemma forOf_cons {A B : Type} (x : A) (xs : list A) (body : A -> Task B) :
  forOf (x :: xs) body = (body x ;;; forOf xs body).
Proof. reflexivity. Qed.

Lemma forOf_createStockMovement_outcome {A : Type}
  (f : A -> InsertStockMovement) (xs : list A) (db db' : DB) (r : Result unit) :
  run (forOf xs (fun x => createStockMovement (f x))) db = (db', r) ->
  sameDocuments db db'
  /\ forall u, r = Ok u ->
       exists ms, stockMovements db' = (stockMovements db ++ ms)%list
                  /\ map written ms = map f xs.
Proof.
  revert db. induction xs as [| x xs IH]; intros db.
  - simpl. intros H; inversion H; subst. split; [apply sameDocuments_refl |].
    intros _ _. exists []. now rewrite app_nil_r.
  - rewrite forOf_cons, run_bind.
    destruct (run (createStockMovement (f x)) db) as [db1 [row | e]] eqn:E;
      apply createStockMovement_outcome in E; destruct E as [Hdocs Hrow].
    + intros H. apply IH in H. destruct H as [Hdocs' Hms].
      split; [eapply sameDocuments_trans; eassumption |].
      intros u Hu. destruct (Hms u Hu) as [ms [Hsm Hmap]].
      destruct (Hrow row eq_refl) as [Hsm1 Hw].
      exists (row :: ms). split.
      * rewrite Hsm, Hsm1, <- app_assoc. reflexivity.
      * simpl. now rewrite Hw, Hmap.
    + intros H; inversion H; subst. split; [exact Hdocs | discriminate].
Qed.

Lemma insertBill_outcome (v : InsertBill) (db db' : DB) (r : Result Bill) :
  insertBill v db = (db', r) ->
  match r with
  | Ok newBill =>
      bills db' = (bills db ++ [newBill])%list
      /\ bill_billNumber newBill = ib_billNumber v
      /\ hasBill db' (bill_id newBill) = true
      /\ billItems db' = billItems db
      /\ stockMovements db' = stockMovements db
  | Err _ => db' = db
  end.
Proof.
  unfold insertBill.
  destruct (decimal_10_2 (ib_subtotal v)), (decimal_10_2 (ib_gstAmount v)),
    (decimal_10_2 (ib_total v)); try (intros H; inversion H; reflexivity).
  destruct (billNumberTaken db (ib_billNumber v));
    [intros H; inversion H; reflexivity |].
  destruct (negb (hasCustomer db (ib_customerId v)));
    [intros H; inversion H; reflexivity |].
  destruct (negb (hasUser db (ib_createdBy v)));
    intros H; inversion H; subst; [reflexivity |].
  repeat split. unfold hasBill. simpl.
  rewrite existsb_app. simpl. rewrite Nat.eqb_refl. apply orb_true_iff.
  right. reflexivity.
Qed.

Lemma billItemRows_lines (db : DB) (vs : list (Id * InsertBillItem)) :
  forall id rows,
    billItemRows db id vs = Ok rows ->
    map billLine rows
    = map (fun v => (fst v, ibi_itemId (snd v), ibi_quantity (snd v))) vs.
Proof.
  induction vs as [| [billId v] vs IH]; simpl; intros id rows.
  - intros H; inversion H. reflexivity.
  - destruct (negb (int32 (ibi_quantity v))); [discriminate |].
    destruct (decimal_10_2 (ibi_rate v)); [| discriminate].
    destruct (decimal_10_2 (ibi_amount v)); [| discriminate].
    destruct (negb (hasBill db billId)); [discriminate |].
    destruct (negb (hasItem db (ibi_itemId v))); [discriminate |].
    destruct (billItemRows db (S id) vs) as [rows' | e] eqn:E; [| discriminate].
    intros H; inversion H; subst. simpl. now rewrite (IH _ _ E).
Qed.

Lemma insertBillItems_outcome (vs : list (Id * InsertBillItem))
  (db db' : DB) (r : Result unit) :
  insertBillItems vs db = (db', r) ->
  match r with
  | Ok _ =>
      exists rows,
        billItems db' = (billItems db ++ rows)%list
        /\ map billLine rows
           = map (fun v => (fst v, ibi_itemId (snd v), ibi_quantity (snd v))) vs
        /\ bills db' = bills db
        /\ stockMovements db' = stockMovements db
  | Err _ => db' = db
  end.
Proof.
  unfold insertBillItems. destruct vs as [| v vs];
    [intros H; inversion H; reflexivity |].
  destruct (billItemRows db (nextId db) (v :: vs)) as [rows | e] eqn:E;
    intros H; inversion H; subst; [| reflexivity].
  exists rows. repeat split. now apply billItemRows_lines in E.
Qed.

Lemma run_getBill (id : Id) (db : DB) :
  exists r, run (getBill id) db = (db, Ok r).
Proof.
  unfold getBill. simpl.
  destruct (hd_error (selectBillWithCustomer id db)) as [[bill customer] |];
    simpl; eexists; reflexivity.
Qed.

Lemma createBill_outcome (bill : InsertBill) (billItemsData : list InsertBillItem)
  (db : DB) :
  match run (createBill bill billItemsData) db with
  | (db', Ok _) => billComplete db db' bill billItemsData
  | (db', Err _) => db' = db \/ billHeaderWritten db db' bill
  end.
Proof.
  unfold createBill. rewrite run_bind, run_await. simpl exec.
  destruct (insertBill bill db) as [db1 [newBill | e]] eqn:E1;
    apply insertBill_outcome in E1; [| now left].
  destruct E1 as (Hb1 & Hnum & _ & Hbi1 & Hsm1).
  rewrite run_bind, run_await. simpl exec.
  destruct (insertBillItems _ db1) as [db2 [[] | e]] eqn:E2;
    apply insertBillItems_outcome in E2;
    [| subst; right; exists newBill; now split].
  destruct E2 as (rows & Hbi2 & Hlines & Hb2 & Hsm2).
  rewrite run_bind.
  destruct (run (forOf billItemsData _) db2) as [db3 [[] | e]] eqn:E3;
    apply (forOf_createStockMovement_outcome
             (saleMovement (bill_billNumber newBill))) in E3;
    destruct E3 as [(Hb3 & Hbi3 & _ & _) Hms].
  - destruct (run_getBill (bill_id newBill) db3) as [r ->].
    destruct (Hms tt eq_refl) as [ms [Hsm3 Hmap]].
    exists newBill, rows, ms. rewrite Hb3, Hb2, Hbi3, Hbi2, Hbi1.
    rewrite Hsm3, Hsm2, Hsm1, <- Hnum. repeat split; trivial.
    rewrite Hlines, map_map. reflexivity.
  - right. exists newBill. rewrite Hb3, Hb2. now split.
Qed.

Lemma insertPurchase_outcome (v : InsertPurchase) (db db' : DB)
  (r : Result Purchase) :
  insertPurchase v db = (db', r) ->
  match r with
  | Ok newPurchase =>
      purchases db' = (purchases db ++ [newPurchase])%list
      /\ purchase_purchaseNumber newPurchase = ip_purchaseNumber v
      /\ purchaseItems db' = purchaseItems db
      /\ stockMovements db' = stockMovements db
  | Err _ => db' = db
  end.
Proof.
  unfold insertPurchase.
  destruct (decimal_10_2_text (ip_total v));
    [| intros H; inversion H; reflexivity].
  destruct (purchaseNumberTaken db (ip_purchaseNumber v));
    [intros H; inversion H; reflexivity |].
  destruct (negb (hasVendor db (ip_vendorId v)));
    [intros H; inversion H; reflexivity |].
  destruct (negb (hasUser db (ip_createdBy v)));
    intros H; inversion H; subst; [reflexivity |].
  repeat split.
Qed.

Lemma purchaseItemRows_lines (db : DB) (vs : list InsertPurchaseItem) :
  forall id rows,
    purchaseItemRows db id vs = Ok rows ->
    map purchaseLine rows
    = map (fun v => (ipi_purchaseId v, ipi_itemId v, ipi_quantity v)) vs.
Proof.
  induction vs as [| v vs IH]; simpl; intros id rows.
  - intros H; inversion H. reflexivity.
  - destruct (negb (int32 (ipi_quantity v))); [discriminate |].
    destruct (decimal_10_2_text (ipi_rate v));
      destruct (decimal_10_2_text (ipi_amount v)); try discriminate.
    destruct (negb (hasPurchase db (ipi_purchaseId v))); [discriminate |].
    destruct (negb (hasItem db (ipi_itemId v))); [discriminate |].
    destruct (purchaseItemRows db (S id) vs) as [rows' | e] eqn:E; [| discriminate].
    intros H; inversion H; subst. simpl. now rewrite (IH _ _ E).
Qed.

Lemma insertPurchaseItems_outcome (vs : list InsertPurchaseItem)
  (db db' : DB) (r : Result unit) :
  insertPurchaseItems vs db = (db', r) ->
  match r with
  | Ok _ =>
      exists rows,
        purchaseItems db' = (purchaseItems db ++ rows)%list
        /\ map purchaseLine rows
           = map (fun v => (ipi_purchaseId v, ipi_itemId v, ipi_quantity v)) vs
        /\ purchases db' = purchases db
        /\ stockMovements db' = stockMovements db
  | Err _ => db' = db
  end.
Proof.
  unfold insertPurchaseItems. destruct vs as [| v vs];
    [intros H; inversion H; reflexivity |].
  destruct (purchaseItemRows db (nextId db) (v :: vs)) as [rows | e] eqn:E;
    intros H; inversion H; subst; [| reflexivity].
  exists rows. repeat split. now apply purchaseItemRows_lines in E.
Qed.

Lemma run_getPurchase (id : Id) (db : DB) :
  exists r, run (getPurchase id) db = (db, Ok r).
Proof.
  unfold getPurchase. simpl.
  destruct (hd_error (selectPurchaseWithVendor id db)) as [[purchase vendor] |];
    simpl; eexists; reflexivity.
Qed.

Lemma createPurchase_outcome (purchase : InsertPurchase)
  (purchaseItemsData : list InsertPurchaseItem) (db : DB) :
  match run (createPurchase purchase purchaseItemsData) db with
  | (db', Ok _) => purchaseComplete db db' purchase purchaseItemsData
  | (db', Err _) => db' = db \/ purchaseHeaderWritten db db' purchase
  end.
Proof.
  unfold createPurchase. rewrite run_bind, run_await. simpl exec.
  destruct (insertPurchase purchase db) as [db1 [newPurchase | e]] eqn:E1;
    apply insertPurchase_outcome in E1; [| now left].
  destruct E1 as (Hp1 & Hnum & Hpi1 & Hsm1).
  rewrite run_bind, run_await. simpl exec.
  destruct (insertPurchaseItems _ db1) as [db2 [[] | e]] eqn:E2;
    apply insertPurchaseItems_outcome in E2;
    [| subst; right; exists newPurchase; now split].
  destruct E2 as (rows & Hpi2 & Hlines & Hp2 & Hsm2).
  rewrite run_bind.
  destruct (run (forOf purchaseItemsData _) db2) as [db3 [[] | e]] eqn:E3;
    apply (forOf_createStockMovement_outcome
             (purchaseMovement (purchase_purchaseNumber newPurchase))) in E3;
    destruct E3 as [(_ & _ & Hp3 & Hpi3) Hms].
  - destruct (run_getPurchase (purchase_id newPurchase) db3) as [r ->].
    destruct (Hms tt eq_refl) as [ms [Hsm3 Hmap]].
    exists newPurchase, rows, ms. rewrite Hp3, Hp2, Hpi3, Hpi2, Hpi1.
    rewrite Hsm3, Hsm2, Hsm1, <- Hnum. repeat split; trivial.
    rewrite Hlines, map_map. reflexivity.
  - right. exists newPurchase. rewrite Hp3, Hp2. now split.
Qed.



(** ** C1: numbering under concurrent requests *)

Lemma NoDup_snoc {A : Type} (l : list A) (x : A) :
  NoDup l -> ~ In x l -> NoDup (l ++ [x]).
Proof.
  induction l as [| y l IH]; simpl; intros Hl Hx.
  - constructor; [intros [] | constructor].
  - inversion Hl as [| ? ? Hy Hl']; subst. constructor.
    + rewrite in_app_iff. intros [H | [H | []]]; [contradiction | subst; auto].
    + apply IH; auto.
Qed.

Lemma billNumberTaken_false (db : DB) (n : string) :
  billNumberTaken db n = false -> ~ In n (map bill_billNumber (bills db)).
Proof.
  unfold billNumberTaken. intros H Hin.
  apply in_map_iff in Hin. destruct Hin as [b [Hb Hin]].
  assert (existsb (fun b => String.eqb (bill_billNumber b) n) (bills db) = true)
    as Ht by (apply existsb_exists; exists b; split; trivial;
              rewrite Hb; apply String.eqb_refl).
  congruence.
Qed.

Lemma purchaseNumberTaken_false (db : DB) (n : string) :
  purchaseNumberTaken db n = false ->
  ~ In n (map purchase_purchaseNumber (purchases db)).
Proof.
  unfold purchaseNumberTaken. intros H Hin.
  apply in_map_iff in Hin. destruct Hin as [p [Hp Hin]].
  assert (existsb (fun p => String.eqb (purchase_purchaseNumber p) n)
                  (purchases db) = true)
    as Ht by (apply existsb_exists; exists p; split; trivial;
              rewrite Hp; apply String.eqb_refl).
  congruence.
Qed.

Lemma setStatus_numbers (id : Id) (status : string) (l : list Bill) :
  map bill_billNumber (map (setStatus id status) l) = map bill_billNumber l.
Proof.
  rewrite map_map. apply map_ext. intros b. unfold setStatus.
  destruct (Nat.eqb (bill_id b) id); reflexivity.
Qed.

(** The unique constraints at work: no statement makes two documents share
    a number. *)
Lemma exec_keeps_uniqueNumbers {X : Type} (q : Query X) (db : DB) :
  uniqueNumbers db -> uniqueNumbers (fst (exec q db)).
Proof.
  unfold uniqueNumbers. intros [Hb Hp].
  destruct q; simpl; try (split; assumption).
  - unfold insertStockMovement.
    destruct (negb (int32 _)); [split; assumption |].
    destruct (negb (hasItem _ _)); split; assumption.
  - unfold updateInventoryRows.
    destruct (negb (int32 _)); split; assumption.
  - unfold insertBill.
    destruct (decimal_10_2 (ib_subtotal v)), (decimal_10_2 (ib_gstAmount v)),
      (decimal_10_2 (ib_total v)); try (split; assumption).
    destruct (billNumberTaken db (ib_billNumber v)) eqn:E; [split; assumption |].
    destruct (negb (hasCustomer _ _)); [split; assumption |].
    destruct (negb (hasUser _ _)); [split; assumption |].
    simpl. split; [| assumption].
    rewrite map_app. apply NoDup_snoc; [assumption |].
    now apply billNumberTaken_false.
  - unfold insertBillItems. destruct vs; [split; assumption |].
    destruct (billItemRows _ _ _); split; assumption.
  - rewrite setStatus_numbers. split; assumption.
  - unfold insertPurchase.
    destruct (decimal_10_2_text (ip_total v)); [| split; assumption].
    destruct (purchaseNumberTaken db (ip_purchaseNumber v)) eqn:E;
      [split; assumption |].
    destruct (negb (hasVendor _ _)); [split; assumption |].
    destruct (negb (hasUser _ _)); [split; assumption |].
    simpl. split; [assumption |].
    rewrite map_app. apply NoDup_snoc; [assumption |].
    now apply purchaseNumberTaken_false.
  - unfold insertPurchaseItems. destruct vs; [split; assumption |].
    destruct (purchaseItemRows _ _ _); split; assumption.
Qed.

Section Interleaving.

Context {A : Type}.

Lemma step_keeps_uniqueNumbers (t : Task A) (db : DB) :
  uniqueNumbers db -> uniqueNumbers (fst (step t db)).
Proof.
  intros H. destruct t as [a | e | X q k]; simpl; trivial.
  pose proof (exec_keeps_uniqueNumbers q db H) as Hq.
  destruct (exec q db) as [db' r]. exact Hq.
Qed.

Lemma stepAt_keeps_uniqueNumbers (i : nat) (pool : list (Task A)) (db : DB) :
  uniqueNumbers db -> uniqueNumbers (fst (stepAt i pool db)).
Proof.
  revert i. induction pool as [| t ts IH]; intros i H;
    destruct i as [| j]; simpl; trivial.
  - pose proof (step_keeps_uniqueNumbers t db H) as Ht.
    destruct (step t db) as [db' t']. exact Ht.
  - pose proof (IH j H) as Hj.
    destruct (stepAt j ts db) as [db' ts']. exact Hj.
Qed.

(** C1 (amended).  Whatever requests are in flight and however the event
    loop interleaves their statements, no two stored bills share a number
    and no two stored purchases share a number: the unique constraints
    refuse the later insert.  (The allocations themselves may coincide.) *)
Theorem stored_numbers_stay_unique
  (schedule : list nat) (pool : list (Task A)) (db : DB) :
  uniqueNumbers db ->
  uniqueNumbers (fst (interleave schedule pool db)).
Proof.
  revert pool db. induction schedule as [| i rest IH]; intros pool db H; simpl.
  - exact H.
  - pose proof (stepAt_keeps_uniqueNumbers i pool db H) as Hi.
    destruct (stepAt i pool db) as [db' pool']. apply IH. exact Hi.
Qed.

End Interleaving.

Lemma stored_numbers_stay_unique_witness :
  uniqueNumbers
    (fst (interleave racing
            [postBills 1%nat billFor2 [units 2];
             postBills 1%nat billFor2 [units 2]] stocked)).
Proof.
  apply (stored_numbers_stay_unique racing).
  split; constructor.
Defined.

(** C1, the claim as stated fails: two allocations in flight at once read
    the same last document and yield the same number, in either series; and
    two bills submitted at once end as one stored bill, the second request
    being answered 400. *)
Lemma concurrent_allocations_yield_the_same_number :
  interleave [0; 1]%nat [getNextBillNumber; getNextBillNumber] stocked
  = (stocked, [Return "INV-2024-001"; Return "INV-2024-001"])
  /\ interleave [0; 1]%nat [getNextPurchaseNumber; getNextPurchaseNumber] stocked
     = (stocked, [Return "PUR-2024-001"; Return "PUR-2024-001"])
  /\ exists db' created,
       interleave racing
         [postBills 1%nat billFor2 [units 2];
          postBills 1%nat billFor2 [units 2]] stocked
       = (db', [Return (Json 201 created);
                Return (Message 400 "Invalid bill data")])
       /\ map bill_billNumber (bills db') = ["INV-2024-001"].
Proof.
  split; [reflexivity |]. split; [reflexivity |].
  eexists; eexists. split; reflexivity.
Qed.

(** ** C6: the number handed out *)

Lemma decimalDigit_cases (c : ascii) :
  decimalDigit c = true ->
  c = "0"%char \/ c = "1"%char \/ c = "2"%char \/ c = "3"%char \/ c = "4"%char
  \/ c = "5"%char \/ c = "6"%char \/ c = "7"%char \/ c = "8"%char \/ c = "9"%char.
Proof.
  destruct c as [[] [] [] [] [] [] [] []]; intros H;
    try (vm_compute in H; discriminate H); tauto.
Qed.

Lemma digitsPrefix_decimal (c : ascii) (s : string) :
  decimalDigit c = true ->
  exists d, 0 <= d < 10 /\ digitsPrefix 10 (String c s) = d :: digitsPrefix 10 s.
Proof.
  intros H. apply decimalDigit_cases in H.
  repeat (destruct H as [-> | H]); [.. | subst c];
    eexists; (split; [| reflexivity]); vm_compute;
    (split; [discriminate | reflexivity]).
Qed.

Lemma split_decimal (s : string) :
  allDecimal s = true -> split "-" s = [s].
Proof.
  induction s as [| c s IH]; simpl; trivial.
  intros H. apply andb_true_iff in H. destruct H as [Hc Hs].
  destruct (Ascii.eqb c "-") eqn:E.
  - apply Ascii.eqb_eq in E. subst c. discriminate Hc.
  - now rewrite (IH Hs).
Qed.

Lemma allDecimal_app (s t : string) :
  allDecimal (s ++ t) = allDecimal s && allDecimal t.
Proof.
  induction s as [| c s IH]; simpl; trivial. now rewrite IH, andb_assoc.
Qed.

Lemma allDecimal_repeat_zero (k : nat) : allDecimal (repeatChar k "0") = true.
Proof. induction k; simpl; trivial. Qed.

Lemma allDecimal_string_of_uint (d : uint) :
  allDecimal (NilEmpty.string_of_uint d) = true.
Proof. induction d; simpl; trivial. Qed.

(** Text made of decimal digits is read as the number it spells. *)
Lemma parseInt_decimal (s : string) :
  s <> "" -> allDecimal s = true ->
  parseInt s = Num (digitsValue 10 (digitsPrefix 10 s)).
Proof.
  destruct s as [| c s]; [contradiction |]. intros _ H. simpl in H.
  apply andb_true_iff in H. destruct H as [Hc Hs].
  destruct (digitsPrefix_decimal c s Hc) as [d [Hd Hpre]].
  apply decimalDigit_cases in Hc.
  destruct Hc as [-> | Hc].
  - destruct s as [| c' t]; [reflexivity |].
    simpl in Hs. apply andb_true_iff in Hs. destruct Hs as [Hc' _].
    apply decimalDigit_cases in Hc'.
    repeat (destruct Hc' as [-> | Hc']); [.. | subst c'];
      match goal with
      | |- parseInt (String ?c ?s) = _ => parseInt_plain c s Hpre
      end.
  - repeat (destruct Hc as [-> | Hc]); [.. | subst c];
      match goal with
      | |- parseInt (String ?c ?s) = _ => parseInt_plain c s Hpre
      end.
Qed.

Lemma digits_of_uint_acc (d : uint) (p : positive) :
  fold_left (fun acc x => acc * 10 + x)
            (digitsPrefix 10 (NilEmpty.string_of_uint d)) (Zpos p)
  = Zpos (Pos.of_uint_acc d p).
Proof.
  revert p. induction d; intros p;
    cbn [NilEmpty.string_of_uint Pos.of_uint_acc]; [reflexivity | ..];
    read_digit; cbn [fold_left]; rewrite <- IHd; f_equal; lia.
Qed.

Lemma digits_of_uint (d : uint) :
  digitsValue 10 (digitsPrefix 10 (NilEmpty.string_of_uint d))
  = Z.of_N (Pos.of_uint d).
Proof.
  unfold digitsValue. induction d;
    cbn [NilEmpty.string_of_uint Pos.of_uint]; [reflexivity | ..];
    read_digit; cbn [fold_left];
    [exact IHd | apply digits_of_uint_acc ..].
Qed.

Lemma digits_after_padding (k : nat) (s : string) :
  digitsValue 10 (digitsPrefix 10 (repeatChar k "0" ++ s))
  = digitsValue 10 (digitsPrefix 10 s).
Proof.
  unfold digitsValue. induction k as [| k IH]; [reflexivity |].
  cbn [repeatChar append]. read_digit. cbn [fold_left]. exact IH.
Qed.

Lemma numberToString_nonneg (n : Z) :
  0 <= n ->
  exists d, numberToString (Num n) = NilEmpty.string_of_uint d
            /\ d <> Nil
            /\ Z.of_N (Pos.of_uint d) = n.
Proof.
  intros Hn. destruct n as [| p | p]; [| | lia].
  - exists (D0 Nil). repeat split. discriminate.
  - exists (Pos.to_uint p).
    pose proof (Unsigned.to_uint_nonnil p) as Hnil.
    split; [| split; [exact Hnil |]].
    + unfold numberToString. cbn [Z.to_int NilZero.string_of_int].
      unfold NilZero.string_of_uint.
      destruct (Pos.to_uint p); trivial. contradiction.
    + now rewrite DecimalPos.Unsigned.of_to.
Qed.

Lemma string_of_uint_nonempty (d : uint) :
  d <> Nil -> NilEmpty.string_of_uint d <> "".
Proof. destruct d; simpl; [contradiction | discriminate ..]. Qed.

Lemma append_nonempty (s t : string) : t <> "" -> s ++ t <> "".
Proof. destruct s; simpl; [trivial | discriminate]. Qed.

Lemma allDecimal_padded (n : Z) :
  0 <= n -> allDecimal (padStart 3 "0" (numberToString (Num n))) = true.
Proof.
  intros Hn. destruct (numberToString_nonneg n Hn) as (d & -> & _ & _).
  unfold padStart.
  now rewrite allDecimal_app, allDecimal_repeat_zero, allDecimal_string_of_uint.
Qed.

(** Reading back a padded suffix gives the number that was printed. *)
Lemma parseInt_padded (n : Z) :
  0 <= n -> parseInt (padStart 3 "0" (numberToString (Num n))) = Num n.
Proof.
  intros Hn. rewrite parseInt_decimal.
  - destruct (numberToString_nonneg n Hn) as (d & -> & _ & Hval).
    unfold padStart. now rewrite digits_after_padding, digits_of_uint, Hval.
  - destruct (numberToString_nonneg n Hn) as (d & -> & Hnil & _).
    unfold padStart. apply append_nonempty. now apply string_of_uint_nonempty.
  - now apply allDecimal_padded.
Qed.

Lemma split_prefixed (t : string) :
  split "-" t = [t] ->
  split "-" ("INV-2024-" ++ t) = ["INV"; "2024"; t]
  /\ split "-" ("PUR-2024-" ++ t) = ["PUR"; "2024"; t].
Proof. intros H. simpl. rewrite H. split; reflexivity. Qed.

Lemma suffix_of_billNumberOf (n : Z) :
  0 <= n -> parseIntAt (split "-" (billNumberOf n)) 2 = Num n.
Proof.
  intros Hn. unfold billNumberOf.
  destruct (split_prefixed _ (split_decimal _ (allDecimal_padded n Hn))) as [-> _].
  now apply parseInt_padded.
Qed.

Lemma suffix_of_purchaseNumberOf (n : Z) :
  0 <= n -> parseIntAt (split "-" (purchaseNumberOf n)) 2 = Num n.
Proof.
  intros Hn. unfold purchaseNumberOf.
  destruct (split_prefixed _ (split_decimal _ (allDecimal_padded n Hn))) as [_ ->].
  now apply parseInt_padded.
Qed.

Lemma selectLastBillNumber_snoc (db : DB) (older : list Bill) (b : Bill) :
  bills db = (older ++ [b])%list ->
  selectLastBillNumber db = [bill_billNumber b].
Proof.
  intros H. unfold selectLastBillNumber. now rewrite H, rev_unit.
Qed.

Lemma selectLastPurchaseNumber_snoc (db : DB) (older : list Purchase)
  (p : Purchase) :
  purchases db = (older ++ [p])%list ->
  selectLastPurchaseNumber db = [purchase_purchaseNumber p].
Proof.
  intros H. unfold selectLastPurchaseNumber. now rewrite H, rev_unit.
Qed.

(** C6 (amended).  The year in a number is the constant 2024, whatever the
    calendar says.  With no document in the series the next number is
    PREFIX-2024-001; otherwise it is the suffix of the document created
    last, plus one, zero-padded to 3 digits.  ([n] is that suffix, 0 when
    the series is empty.) *)
Theorem next_number_follows_the_last_document (db : DB) (n m : Z) :
  lastBillSuffix db n ->
  lastPurchaseSuffix db m ->
  run getNextBillNumber db = (db, Ok (billNumberOf (n + 1)))
  /\ run getNextPurchaseNumber db = (db, Ok (purchaseNumberOf (m + 1))).
Proof.
  intros Hb Hp. split.
  - unfold getNextBillNumber. rewrite run_bind, run_await. cbn [exec].
    destruct Hb as [[Hnil ->] | [Hn (b & older & Hlast & Hnum)]].
    + unfold selectLastBillNumber. rewrite Hnil. reflexivity.
    + rewrite (selectLastBillNumber_snoc db older b Hlast). cbn [hd_error run].
      rewrite Hnum, suffix_of_billNumberOf by lia. reflexivity.
  - unfold getNextPurchaseNumber. rewrite run_bind, run_await. cbn [exec].
    destruct Hp as [[Hnil ->] | [Hm (p & older & Hlast & Hnum)]].
    + unfold selectLastPurchaseNumber. rewrite Hnil. reflexivity.
    + rewrite (selectLastPurchaseNumber_snoc db older p Hlast). cbn [hd_error run].
      rewrite Hnum, suffix_of_purchaseNumberOf by lia. reflexivity.
Qed.

Lemma next_number_follows_the_last_document_witness :
  run getNextBillNumber billed = (billed, Ok "INV-2024-002")
  /\ run getNextPurchaseNumber billed = (billed, Ok "PUR-2024-001").
Proof.
  apply (next_number_follows_the_last_document billed 1 0).
  - right. split; [lia |]. eexists; exists []. split; reflexivity.
  - left. split; reflexivity.
Defined.

(** C6, the claim as stated fails: in calendar year 2025, with no bill
    issued yet, the specification asks for INV-2025-001 and the allocator,
    which never reads the calendar, answers INV-2024-001. *)
Lemma next_number_ignores_the_calendar_year :
  run getNextBillNumber emptyDB = (emptyDB, Ok "INV-2024-001")
  /\ specNextNumber "INV" 2025 (map bill_billNumber (bills emptyDB))
     = "INV-2025-001"
  /\ run getNextPurchaseNumber emptyDB = (emptyDB, Ok "PUR-2024-001")
  /\ specNextNumber "PUR" 2025 (map purchase_purchaseNumber (purchases emptyDB))
     = "PUR-2025-001"
  /\ run getNextBillNumber emptyDB
     <> (emptyDB,
         Ok (specNextNumber "INV" 2025 (map bill_billNumber (bills emptyDB)))).
Proof. repeat split. discriminate. Qed.

(** ** The scenario of the specification, run on the embedding

    ITM001 starts at 0; an inbound movement of 50 brings it to 50; a bill
    for 2 units is numbered INV-2024-001, records one sale of 2 and leaves
    48; a second bill for 60 units is numbered INV-2024-002, is recorded in
    full and leaves the projection clamped at 0. *)
Example ledger_scenario :
  projection shop 4%nat = 0
  /\ projection stocked 4%nat = 50
  /\ map bill_billNumber (bills billed) = ["INV-2024-001"]
  /\ map written (stockMovements billed)
     = [initialStock; saleMovement "INV-2024-001" (lineFor 4%nat 2)]
  /\ projection billed 4%nat = 48
  /\ map bill_billNumber
       (bills (fst (run (postBills 1%nat billFor2 [units 60]) billed)))
     = ["INV-2024-001"; "INV-2024-002"]
  /\ projection (fst (run (postBills 1%nat billFor2 [units 60]) billed)) 4%nat = 0.
Proof. repeat split. Qed.

(* ------------------------------------------------------------------ *)
(** * Part III. Further properties of the code *)
(* ------------------------------------------------------------------ *)

(** ** The ledger only grows *)

Lemma ledgerGrown_refl (db : DB) : ledgerGrown db db.
Proof. split; [exists []; now rewrite app_nil_r | split; reflexivity]. Qed.

Lemma ledgerGrown_trans (db1 db2 db3 : DB) :
  ledgerGrown db1 db2 -> ledgerGrown db2 db3 -> ledgerGrown db1 db3.
Proof.
  intros [[ms1 H1] [I1 R1]] [[ms2 H2] [I2 R2]]. split; [| split; congruence].
  exists (ms1 ++ ms2)%list. now rewrite H2, H1, app_assoc.
Qed.

Lemma setQuantity_keys (i : Id) (q : Z) (l : list Inventory) :
  map (fun r => (inv_id r, inv_itemId r)) (map (setQuantity i q) l)
  = map (fun r => (inv_id r, inv_itemId r)) l.
Proof.
  rewrite map_map. apply map_ext. intros r. unfold setQuantity.
  destruct (Nat.eqb (inv_itemId r) i); reflexivity.
Qed.

Lemma exec_ledgerGrown {X : Type} (q : Query X) (db : DB) :
  ledgerGrown db (fst (exec q db)).
Proof.
  destruct q; simpl;
    unfold insertStockMovement, updateInventoryRows, insertBill,
      insertBillItems, insertPurchase, insertPurchaseItems;
    repeat match goal with
           | |- ledgerGrown _ (fst (if ?c then _ else _)) => destruct c
           | |- ledgerGrown _ (fst match ?x with _ => _ end) => destruct x
           end;
    simpl;
    try (split; [exists []; simpl; now rewrite app_nil_r | split; reflexivity]).
  - split; [eexists; reflexivity | split; reflexivity].
  - split; [exists []; simpl; now rewrite app_nil_r | split; [reflexivity |]].
    simpl. apply setQuantity_keys.
Qed.

Section LedgerUnderInterleaving.

Context {A : Type}.

Lemma step_ledgerGrown (t : Task A) (db : DB) : ledgerGrown db (fst (step t db)).
Proof.
  destruct t as [a | e | X q k]; simpl; try apply ledgerGrown_refl.
  pose proof (exec_ledgerGrown q db) as H.
  destruct (exec q db) as [db' r]. exact H.
Qed.

Lemma stepAt_ledgerGrown (i : nat) (pool : list (Task A)) (db : DB) :
  ledgerGrown db (fst (stepAt i pool db)).
Proof.
  revert i. induction pool as [| t ts IH]; intros i;
    destruct i as [| j]; simpl; try apply ledgerGrown_refl.
  - pose proof (step_ledgerGrown t db) as H.
    destruct (step t db) as [db' t']. exact H.
  - pose proof (IH j) as H.
    destruct (stepAt j ts db) as [db' ts']. exact H.
Qed.

Lemma interleave_ledgerGrown
  (schedule : list nat) (pool : list (Task A)) (db : DB) :
  ledgerGrown db (fst (interleave schedule pool db)).
Proof.
  revert pool db. induction schedule as [| i rest IH]; intros pool db; simpl.
  - apply ledgerGrown_refl.
  - pose proof (stepAt_ledgerGrown i pool db) as H.
    destruct (stepAt i pool db) as [db' pool'].
    eapply ledgerGrown_trans; [exact H | apply IH].
Qed.

Lemma run_ledgerGrown (t : Task A) (db : DB) : ledgerGrown db (fst (run t db)).
Proof.
  revert db. induction t as [a | e | X q k IH]; intros db; simpl;
    try apply ledgerGrown_refl.
  pose proof (exec_ledgerGrown q db) as H.
  destruct (exec q db) as [db' r]. simpl in H.
  eapply ledgerGrown_trans; [exact H | apply IH].
Qed.

(** X1.  The ledger is append-only.  Whatever tasks are in flight and
    however they are interleaved, the movements recorded before are all
    still there, unchanged and in the same order, followed by the new ones;
    no inventory row is created or removed and the catalog is untouched. *)
Theorem ledger_is_append_only
  (schedule : list nat) (pool : list (Task A)) (db : DB) :
  ledgerGrown db (fst (interleave schedule pool db)).
Proof. apply interleave_ledgerGrown. Qed.

End LedgerUnderInterleaving.

(** ** Numbers handed out one request after the other *)

Lemma run_getNextBillNumber_suffix (db : DB) (n : Z) :
  lastBillSuffix db n ->
  run getNextBillNumber db = (db, Ok (billNumberOf (n + 1))).
Proof.
  intros Hb. unfold getNextBillNumber. rewrite run_bind, run_await. cbn [exec].
  destruct Hb as [[Hnil ->] | [Hn (b & older & Hlast & Hnum)]].
  - unfold selectLastBillNumber. rewrite Hnil. reflexivity.
  - rewrite (selectLastBillNumber_snoc db older b Hlast). cbn [hd_error run].
    rewrite Hnum, suffix_of_billNumberOf by lia. reflexivity.
Qed.

Lemma run_getNextPurchaseNumber_suffix (db : DB) (n : Z) :
  lastPurchaseSuffix db n ->
  run getNextPurchaseNumber db = (db, Ok (purchaseNumberOf (n + 1))).
Proof.
  intros Hp. unfold getNextPurchaseNumber. rewrite run_bind, run_await. cbn [exec].
  destruct Hp as [[Hnil ->] | [Hn (p & older & Hlast & Hnum)]].
  - unfold selectLastPurchaseNumber. rewrite Hnil. reflexivity.
  - rewrite (selectLastPurchaseNumber_snoc db older p Hlast). cbn [hd_error run].
    rewrite Hnum, suffix_of_purchaseNumberOf by lia. reflexivity.
Qed.

Lemma lastBillSuffix_nonneg (db : DB) (n : Z) : lastBillSuffix db n -> 0 <= n.
Proof. intros [[_ ->] | [H _]]; lia. Qed.

Lemma lastPurchaseSuffix_nonneg (db : DB) (n : Z) :
  lastPurchaseSuffix db n -> 0 <= n.
Proof. intros [[_ ->] | [H _]]; lia. Qed.

Lemma insertBillSchema_fields (billData : BillBody) (billNumber : string)
  (createdBy : Id) (bill : InsertBill) :
  insertBillSchema billData billNumber createdBy = Ok bill ->
  ib_billNumber bill = billNumber
  /\ ib_customerId bill = bb_customerId billData
  /\ ib_createdBy bill = createdBy.
Proof.
  unfold insertBillSchema.
  destruct (zNumberMin 0 (bb_subtotal billData)); [| discriminate].
  destruct (zNumberMin 0 (bb_gstAmount billData)); [| discriminate].
  destruct (zNumberMin 0 (bb_total billData)); [| discriminate].
  intros H; inversion H; subst. repeat split.
Qed.

(** What a 201 answer of [POST /api/bills] implies. *)
Lemma postBills_created (sub : Id) (billData : BillBody)
  (billItemsData : list BillItemBody) (db db' : DB)
  (payload : option BillWithDetails) :
  run (postBills sub billData billItemsData) db = (db', Ok (Json 201 payload)) ->
  exists billNumber bill lines,
    run getNextBillNumber db = (db, Ok billNumber)
    /\ insertBillSchema billData billNumber sub = Ok bill
    /\ parseEach insertBillItemSchema billItemsData = Ok lines
    /\ run (createBill bill lines) db = (db', Ok payload).
Proof.
  unfold postBills. rewrite run_tryCatch, run_bind.
  destruct (run_getNextBillNumber db) as [n Hn]. rewrite Hn.
  rewrite run_bind, run_lift.
  destruct (insertBillSchema billData n sub) as [bill | e] eqn:Eb;
    [| intros H; inversion H].
  rewrite run_bind, run_lift.
  destruct (parseEach insertBillItemSchema billItemsData) as [lines | e] eqn:El;
    [| intros H; inversion H].
  rewrite run_bind.
  destruct (run (createBill bill lines) db) as [db1 [r | e]] eqn:Ec;
    intros H; inversion H; subst.
  exists n, bill, lines. repeat split; trivial.
Qed.

(** X2.  Bills created one request after the other are numbered
    consecutively: when the last suffix of the series is [n] (0 for an empty
    series) and [POST /api/bills] answers 201, the bill it stored is the
    newest one and carries suffix [n + 1], and the next number offered is the
    one with suffix [n + 2]. *)
Theorem posted_bill_takes_the_next_number
  (db db' : DB) (sub : Id) (billData : BillBody)
  (billItemsData : list BillItemBody) (n : Z)
  (payload : option BillWithDetails) :
  lastBillSuffix db n ->
  n + 1 < 2 ^ 53 - 1 ->
  run (postBills sub billData billItemsData) db = (db', Ok (Json 201 payload)) ->
  (exists b, bills db' = (bills db ++ [b])%list
             /\ bill_billNumber b = billNumberOf (n + 1))
  /\ lastBillSuffix db' (n + 1)
  /\ run getNextBillNumber db' = (db', Ok (billNumberOf (n + 2))).
Proof.
  intros Hlast Hn Hrun.
  pose proof (lastBillSuffix_nonneg db n Hlast) as Hn0.
  destruct (postBills_created _ _ _ _ _ _ Hrun)
    as (billNumber & bill & lines & Hnum & Hbill & _ & Hcreate).
  rewrite (run_getNextBillNumber_suffix db n Hlast) in Hnum.
  inversion Hnum; subst billNumber.
  apply insertBillSchema_fields in Hbill. destruct Hbill as (Hnumber & _ & _).
  pose proof (createBill_outcome bill lines db) as Hout.
  rewrite Hcreate in Hout.
  destruct Hout as (newBill & rows & ms & Hbills & Hnew & _).
  rewrite Hnumber in Hnew.
  assert (lastBillSuffix db' (n + 1)) as Hlast'.
  { right. split; [lia |]. exists newBill, (bills db). now split. }
  split; [exists newBill; now split |]. split; [exact Hlast' |].
  replace (n + 2) with (n + 1 + 1) by lia.
  now apply run_getNextBillNumber_suffix.
Qed.

Lemma posted_bill_takes_the_next_number_witness :
  (exists b, bills billed = (bills stocked ++ [b])%list
             /\ bill_billNumber b = billNumberOf (0 + 1))
  /\ lastBillSuffix billed (0 + 1)
  /\ run getNextBillNumber billed = (billed, Ok (billNumberOf (0 + 2))).
Proof.
  apply (posted_bill_takes_the_next_number stocked billed 1%nat billFor2
           [units 2] 0 firstBillAnswer).
  - left. split; reflexivity.
  - reflexivity.
  - reflexivity.
Defined.

(** ** Documents and the agreement of ledger and projection *)

Lemma consistent_sameStock (db db' : DB) :
  sameStock db db' -> consistent db -> consistent db'.
Proof.
  intros (Hi & Hv & Hs) Hc it Hin. rewrite Hi in Hin.
  specialize (Hc it Hin).
  unfold projection, selectInventoryByItem, movementsOf in *.
  now rewrite Hv, Hs.
Qed.

Lemma hasRow_sameStock (db db' : DB) (j : Id) :
  sameStock db db' -> hasRow db j -> hasRow db' j.
Proof.
  intros (_ & Hv & _). unfold hasRow, selectInventoryByItem. now rewrite Hv.
Qed.

Lemma sameStock_trans (db1 db2 db3 : DB) :
  sameStock db1 db2 -> sameStock db2 db3 -> sameStock db1 db3.
Proof.
  unfold sameStock. intros (A1 & B1 & C1) (A2 & B2 & C2). repeat split; congruence.
Qed.

Lemma insertBill_sameStock (v : InsertBill) (db db' : DB) (r : Result Bill) :
  insertBill v db = (db', r) -> sameStock db db'.
Proof. unfold insertBill. documents_only. Qed.

Lemma insertBillItems_sameStock (vs : list (Id * InsertBillItem))
  (db db' : DB) (r : Result unit) :
  insertBillItems vs db = (db', r) -> sameStock db db'.
Proof. unfold insertBillItems. documents_only. Qed.

Lemma insertPurchase_sameStock (v : InsertPurchase) (db db' : DB)
  (r : Result Purchase) :
  insertPurchase v db = (db', r) -> sameStock db db'.
Proof. unfold insertPurchase. documents_only. Qed.

Lemma insertPurchaseItems_sameStock (vs : list InsertPurchaseItem)
  (db db' : DB) (r : Result unit) :
  insertPurchaseItems vs db = (db', r) -> sameStock db db'.
Proof. unfold insertPurchaseItems. documents_only. Qed.

(** A movement that was recorded for an item with a row went all the way. *)
Lemma createStockMovement_Ok_with_row (movement : InsertStockMovement)
  (db db' : DB) (row : StockMovement) :
  run (createStockMovement movement) db = (db', Ok row) ->
  hasRow db (ism_itemId movement) ->
  db' = afterMovement db movement.
Proof.
  intros Hrun Hrow. rewrite run_createStockMovement in Hrun.
  unfold insertStockMovement in Hrun.
  destruct (negb (int32 (ism_quantity movement))); [discriminate |].
  destruct (negb (hasItem db (ism_itemId movement))); [discriminate |].
  rewrite selectInventoryByItem_after_insert in Hrun.
  destruct (projection_of_row db _ Hrow) as [inv [Hhd Hinv]].
  rewrite Hhd, <- Hinv in Hrun. unfold updateInventoryRows in Hrun.
  destruct (negb (int32 _)); [discriminate |].
  inversion Hrun. reflexivity.
Qed.

Lemma hasRow_afterMovement (db : DB) (movement : InsertStockMovement) (j : Id) :
  hasRow db j -> hasRow (afterMovement db movement) j.
Proof.
  unfold hasRow, afterMovement, selectInventoryByItem. simpl. intros H.
  destruct (Nat.eq_dec (ism_itemId movement) j) as [<- | Hj].
  - rewrite select_after_set_same.
    destruct (filter _ (inventory db)); [contradiction | discriminate].
  - now rewrite select_after_set_other.
Qed.

Lemma forOf_keeps_consistent {A : Type} (f : A -> InsertStockMovement)
  (xs : list A) (db db' : DB) (u : unit) :
  consistent db ->
  (forall x, In x xs -> hasRow db (ism_itemId (f x))) ->
  run (forOf xs (fun x => createStockMovement (f x))) db = (db', Ok u) ->
  consistent db'.
Proof.
  revert db. induction xs as [| x xs IH]; intros db Hc Hrows.
  - simpl. intros H; inversion H; subst. exact Hc.
  - rewrite forOf_cons, run_bind.
    destruct (run (createStockMovement (f x)) db) as [db1 [row | e]] eqn:E;
      [| discriminate].
    assert (hasRow db (ism_itemId (f x))) as Hx by (apply Hrows; now left).
    apply createStockMovement_Ok_with_row in E; [| exact Hx]. subst db1.
    apply IH.
    + now apply consistent_afterMovement.
    + intros y Hy. apply hasRow_afterMovement. apply Hrows. now right.
Qed.

(** X3.  A bill that [createBill] creates in full keeps ledger and
    projection in agreement, when every line is for an item that has an
    inventory row: if they agreed on every item before the call and the
    call succeeds, they agree on every item after it. *)
Theorem createBill_keeps_projection_consistent
  (db db' : DB) (bill : InsertBill) (billItemsData : list InsertBillItem)
  (r : option BillWithDetails) :
  consistent db ->
  (forall l, In l billItemsData -> hasRow db (ibi_itemId l)) ->
  run (createBill bill billItemsData) db = (db', Ok r) ->
  consistent db'.
Proof.
  intros Hc Hrows. unfold createBill. rewrite run_bind, run_await. simpl exec.
  destruct (insertBill bill db) as [db1 [newBill | e]] eqn:E1; [| discriminate].
  apply insertBill_sameStock in E1.
  rewrite run_bind, run_await. simpl exec.
  destruct (insertBillItems _ db1) as [db2 [[] | e]] eqn:E2; [| discriminate].
  apply insertBillItems_sameStock in E2.
  pose proof (sameStock_trans _ _ _ E1 E2) as E12.
  rewrite run_bind.
  destruct (run (forOf billItemsData _) db2) as [db3 [[] | e]] eqn:E3;
    [| discriminate].
  destruct (run_getBill (bill_id newBill) db3) as [r' ->].
  intros H; inversion H; subst.
  apply (forOf_keeps_consistent
           (saleMovement (bill_billNumber newBill)) billItemsData db2 db' tt).
  - now apply (consistent_sameStock db).
  - intros l Hl. apply (hasRow_sameStock db); [exact E12 |]. now apply Hrows.
  - exact E3.
Qed.

Lemma consistent_stocked : consistent stocked.
Proof. intros it [<- | []]. reflexivity. Qed.

Lemma createBill_keeps_projection_consistent_witness :
  consistent (fst (run (createBill firstBill [lineFor 4%nat 2]) stocked)).
Proof.
  eapply (createBill_keeps_projection_consistent stocked _ firstBill
            [lineFor 4%nat 2]).
  - exact consistent_stocked.
  - intros l [<- | []]. discriminate.
  - reflexivity.
Defined.

(** X4.  The same for a purchase that [createPurchase] creates in full. *)
Theorem createPurchase_keeps_projection_consistent
  (db db' : DB) (purchase : InsertPurchase)
  (purchaseItemsData : list InsertPurchaseItem)
  (r : option PurchaseWithDetails) :
  consistent db ->
  (forall l, In l purchaseItemsData -> hasRow db (ipi_itemId l)) ->
  run (createPurchase purchase purchaseItemsData) db = (db', Ok r) ->
  consistent db'.
Proof.
  intros Hc Hrows. unfold createPurchase. rewrite run_bind, run_await. simpl exec.
  destruct (insertPurchase purchase db) as [db1 [newPurchase | e]] eqn:E1;
    [| discriminate].
  apply insertPurchase_sameStock in E1.
  rewrite run_bind, run_await. simpl exec.
  destruct (insertPurchaseItems _ db1) as [db2 [[] | e]] eqn:E2; [| discriminate].
  apply insertPurchaseItems_sameStock in E2.
  pose proof (sameStock_trans _ _ _ E1 E2) as E12.
  rewrite run_bind.
  destruct (run (forOf purchaseItemsData _) db2) as [db3 [[] | e]] eqn:E3;
    [| discriminate].
  destruct (run_getPurchase (purchase_id newPurchase) db3) as [r' ->].
  intros H; inversion H; subst.
  apply (forOf_keeps_consistent
           (purchaseMovement (purchase_purchaseNumber newPurchase))
           purchaseItemsData db2 db' tt).
  - now apply (consistent_sameStock db).
  - intros l Hl. apply (hasRow_sameStock db); [exact E12 |]. now apply Hrows.
  - exact E3.
Qed.

Lemma createPurchase_keeps_projection_consistent_witness :
  consistent
    (fst (run (createPurchase firstPurchase [purchaseLineFor 4%nat 10]) stocked)).
Proof.
  eapply (createPurchase_keeps_projection_consistent stocked _ firstPurchase
            [purchaseLineFor 4%nat 10]).
  - exact consistent_stocked.
  - intros l [<- | []]. discriminate.
  - reflexivity.
Defined.

(** ** Updates that find no row *)

Lemma set_bills_same (db : DB) : set_bills (bills db) db = db.
Proof. destruct db; reflexivity. Qed.

Lemma set_inventory_same (db : DB) : set_inventory (inventory db) db = db.
Proof. destruct db; reflexivity. Qed.

Lemma setStatus_no_match (id : Id) (status : string) (l : list Bill) :
  existsb (fun b => Nat.eqb (bill_id b) id) l = false ->
  map (setStatus id status) l = l
  /\ filter (fun b => Nat.eqb (bill_id b) id) l = [].
Proof.
  induction l as [| b l IH]; simpl; [split; reflexivity |].
  intros H. apply orb_false_iff in H. destruct H as [Hb Hl].
  destruct (IH Hl) as [-> ->]. unfold setStatus. rewrite Hb. split; reflexivity.
Qed.

Lemma setQuantity_no_match (i : Id) (q : Z) (l : list Inventory) :
  filter (fun r => Nat.eqb (inv_itemId r) i) l = [] ->
  map (setQuantity i q) l = l.
Proof.
  induction l as [| r l IH]; simpl; trivial.
  unfold setQuantity at 1.
  destruct (Nat.eqb (inv_itemId r) i); [discriminate |].
  intros H. now rewrite (IH H).
Qed.

Lemma integer_field (q : Z) :
  isInteger (q # 1) = true /\ toInteger (q # 1) = q.
Proof.
  unfold isInteger, toInteger. simpl. rewrite Z.mod_1_r, Z.div_1_r.
  split; reflexivity.
Qed.

(** X5.  Changing the status of a bill that does not exist is no error:
    [PATCH /api/bills/:id/status] answers 200 with an empty payload, and the
    database is left as it was. *)
Theorem status_of_unknown_bill_answers_200
  (db : DB) (id : Id) (status : string) :
  hasBill db id = false ->
  run (patchBillStatus id status) db = (db, Ok (Json 200 None)).
Proof.
  intros H. unfold patchBillStatus, updateBillStatus, hasBill in *.
  rewrite run_tryCatch, run_bind, run_bind, run_await. simpl.
  destruct (setStatus_no_match id status (bills db) H) as [Hmap Hsel].
  rewrite Hmap, Hsel, set_bills_same. reflexivity.
Qed.

Lemma status_of_unknown_bill_answers_200_witness :
  run (patchBillStatus 99%nat "paid") billed = (billed, Ok (Json 200 None)).
Proof.
  apply (status_of_unknown_bill_answers_200 billed 99%nat "paid").
  reflexivity.
Defined.

Lemma setStatus_twice (id : Id) (s1 s2 : string) (l : list Bill) :
  map (setStatus id s2) (map (setStatus id s1) l) = map (setStatus id s2) l.
Proof.
  rewrite map_map. apply map_ext. intros b. unfold setStatus.
  destruct (Nat.eqb (bill_id b) id) eqn:E; simpl; rewrite E; reflexivity.
Qed.

(** X6.  The last status written wins: two status updates of the same bill,
    one after the other, leave the database and give the answer of the
    second alone (so repeating an update changes nothing more). *)
Theorem last_status_update_wins (db : DB) (id : Id) (s1 s2 : string) :
  run (updateBillStatus id s1 ;;; updateBillStatus id s2) db
  = run (updateBillStatus id s2) db.
Proof.
  unfold updateBillStatus. rewrite !run_bind, !run_await. simpl.
  now rewrite setStatus_twice.
Qed.

(** ** Writing the projection directly *)

(** X7.  [PATCH /api/inventory/:itemId] does not clamp and does not record:
    for an item that has an inventory row and any integer that fits the
    column, negative ones included, the answer is 200, the projected
    quantity becomes exactly that integer, and the ledger is unchanged. *)
Theorem patchInventory_sets_the_quantity_as_given
  (db : DB) (itemId : Id) (quantity : Z) :
  hasRow db itemId ->
  int32 quantity = true ->
  exists db' inv,
    run (patchInventory itemId (Number (quantity # 1))) db
    = (db', Ok (Json 200 (Some inv)))
    /\ inv_itemId inv = itemId
    /\ inv_quantity inv = quantity
    /\ projection db' itemId = quantity
    /\ stockMovements db' = stockMovements db.
Proof.
  intros Hrow Hq. unfold patchInventory.
  destruct (integer_field quantity) as [-> ->].
  unfold updateInventory. rewrite run_tryCatch, run_bind, run_bind, run_await.
  simpl exec. unfold updateInventoryRows. rewrite Hq. simpl negb. cbv iota.
  pose proof (projection_after_set_same db itemId quantity Hrow) as Hproj.
  unfold projection in Hproj.
  destruct (selectInventoryByItem itemId
              (set_inventory (map (setQuantity itemId quantity) (inventory db)) db))
    as [| inv rest] eqn:E.
  - exfalso. unfold selectInventoryByItem in E. simpl in E.
    rewrite select_after_set_same in E. unfold hasRow, selectInventoryByItem in Hrow.
    destruct (filter _ (inventory db)); [contradiction | discriminate].
  - simpl in Hproj. exists (set_inventory (map (setQuantity itemId quantity) (inventory db)) db), inv.
    simpl. split; [reflexivity |].
    assert (In inv (selectInventoryByItem itemId
              (set_inventory (map (setQuantity itemId quantity) (inventory db)) db)))
      as Hin by (rewrite E; now left).
    apply filter_In in Hin. destruct Hin as [_ Hid]. apply Nat.eqb_eq in Hid.
    repeat split; trivial.
    unfold projection. now rewrite E.
Qed.

Lemma patchInventory_sets_the_quantity_as_given_witness :
  exists db' inv,
    run (patchInventory 4%nat (Number (-3 # 1))) stocked
    = (db', Ok (Json 200 (Some inv)))
    /\ inv_itemId inv = 4%nat
    /\ inv_quantity inv = -3
    /\ projection db' 4%nat = -3
    /\ stockMovements db' = stockMovements stocked.
Proof.
  apply (patchInventory_sets_the_quantity_as_given stocked 4%nat (-3)).
  - discriminate.
  - reflexivity.
Defined.

(** X8.  [PATCH /api/inventory/:itemId] for an item without an inventory
    row, known or not, is no error either: the answer is 200 with an empty
    payload, no row is created and the database is left as it was. *)
Theorem patchInventory_without_row_answers_200
  (db : DB) (itemId : Id) (quantity : Z) :
  selectInventoryByItem itemId db = [] ->
  int32 quantity = true ->
  run (patchInventory itemId (Number (quantity # 1))) db
  = (db, Ok (Json 200 None)).
Proof.
  intros Hrow Hq. unfold patchInventory.
  destruct (integer_field quantity) as [-> ->].
  unfold updateInventory. rewrite run_tryCatch, run_bind, run_bind, run_await.
  simpl exec. unfold updateInventoryRows. rewrite Hq. simpl negb. cbv iota.
  rewrite (setQuantity_no_match itemId quantity (inventory db) Hrow).
  rewrite set_inventory_same, Hrow. reflexivity.
Qed.

Lemma patchInventory_without_row_answers_200_witness :
  run (patchInventory 99%nat (Number (12 # 1))) stocked
  = (stocked, Ok (Json 200 None)).
Proof.
  apply (patchInventory_without_row_answers_200 stocked 99%nat 12);
    reflexivity.
Defined.

(** ** Creating and deleting items *)

Lemma hasItem_after_insert (db : DB) (it : Item) :
  hasItem (advance 1 (set_items (items db ++ [it]) db)) (item_id it) = true.
Proof.
  unfold hasItem. simpl. rewrite existsb_app. simpl.
  rewrite Nat.eqb_refl. apply orb_true_iff. right. reflexivity.
Qed.

Lemma createItem_outcome (item : InsertItem) (db : DB) :
  match createItem item db with
  | (db', Ok it) =>
      db' = afterCreateItem db it
      /\ item_id it = nextId db
      /\ item_code it = ii_code item
      /\ item_name it = ii_name item
      /\ item_lowStockThreshold it = ii_lowStockThreshold item
      /\ codeTaken db (ii_code item) = false
  | (db', Err _) => db' = db
  end.
Proof.
  unfold createItem, andThen, insertItem.
  destruct (decimal_10_2 (ii_price item)); [| reflexivity].
  destruct (decimal_5_2 (ii_gstRate item)); [| reflexivity].
  destruct (negb (int32 (ii_lowStockThreshold item))); [reflexivity |].
  destruct (codeTaken db (ii_code item)) eqn:Ecode; [reflexivity |].
  unfold insertInventory. simpl negb at 1. cbv iota.
  rewrite hasItem_after_insert. simpl. repeat split.
Qed.

(** X9.  [POST /api/items] is all or nothing.  Either it answers 201 and
    both the item and its inventory row, with quantity 0, have been written
    (the item under a code no other item had), or it answers 400 and the
    database is left as it was: an item is never left without its row. *)
Theorem postItems_writes_item_and_row_or_nothing (body : ItemBody) (db : DB) :
  match postItems body db with
  | (db', Ok (Json code it)) =>
      code = 201%nat
      /\ items db' = (items db ++ [it])%list
      /\ inventory db' = (inventory db ++ [firstRow db])%list
      /\ inv_itemId (firstRow db) = item_id it
      /\ inv_quantity (firstRow db) = 0
      /\ codeTaken db (item_code it) = false
  | (db', Ok (Message code _)) => code = 400%nat /\ db' = db
  | (_, Err _) => False
  end.
Proof.
  unfold postItems, orElse, andThen, liftScript, ret.
  destruct (insertItemSchema body) as [item | e]; [| split; reflexivity].
  pose proof (createItem_outcome item db) as H.
  destruct (createItem item db) as [db' [it | e]].
  - destruct H as (-> & Hid & Hcode & _ & _ & Hfree).
    rewrite Hcode. simpl. repeat split; auto.
  - subst. split; reflexivity.
Qed.

Lemma movementsOf_unused (db : DB) :
  nextKeyUnused db -> movementsOf db (nextId db) = [].
Proof.
  intros (_ & _ & Hm & _). unfold movementsOf.
  induction (stockMovements db) as [| m l IH]; simpl; trivial.
  destruct (Nat.eqb (sm_itemId m) (nextId db)) eqn:E.
  - apply Nat.eqb_eq in E. exfalso. apply (Hm m); [now left | exact E].
  - apply IH. intros m' Hin. apply Hm. now right.
Qed.

Lemma selectInventory_unused (db : DB) :
  nextKeyUnused db -> selectInventoryByItem (nextId db) db = [].
Proof.
  intros (_ & Hr & _). unfold selectInventoryByItem.
  induction (inventory db) as [| r l IH]; simpl; trivial.
  destruct (Nat.eqb (inv_itemId r) (nextId db)) eqn:E.
  - apply Nat.eqb_eq in E. exfalso. apply (Hr r); [now left | exact E].
  - apply IH. intros r' Hin. apply Hr. now right.
Qed.

Lemma projection_afterCreateItem (db : DB) (it : Item) (j : Id) :
  projection (afterCreateItem db it) j
  = if Nat.eqb (nextId db) j
    then match hd_error (selectInventoryByItem j db) with
         | Some inv => inv_quantity inv
         | None => 0
         end
    else projection db j.
Proof.
  unfold projection, afterCreateItem, selectInventoryByItem. simpl.
  rewrite filter_app. simpl.
  destruct (Nat.eqb (nextId db) j); [| now rewrite app_nil_r].
  destruct (filter _ (inventory db)); reflexivity.
Qed.

(** X10.  [createItem] keeps ledger and projection in agreement: the new
    item starts with a row at 0 and an empty ledger.  (The key given to the
    item is one that nothing in the database uses yet.) *)
Theorem createItem_keeps_projection_consistent
  (db db' : DB) (item : InsertItem) (it : Item) :
  consistent db ->
  nextKeyUnused db ->
  createItem item db = (db', Ok it) ->
  consistent db'
  /\ hasRow db' (item_id it)
  /\ projection db' (item_id it) = 0
  /\ movementsOf db' (item_id it) = [].
Proof.
  intros Hc Hfresh Hrun.
  pose proof (createItem_outcome item db) as H. rewrite Hrun in H.
  destruct H as (-> & Hid & _).
  pose proof (movementsOf_unused db Hfresh) as Hmov.
  pose proof (selectInventory_unused db Hfresh) as Hsel.
  assert (forall j, movementsOf (afterCreateItem db it) j = movementsOf db j)
    as Hsame by reflexivity.
  rewrite Hid. repeat split.
  - intros x Hin. rewrite Hsame, projection_afterCreateItem.
    unfold afterCreateItem in Hin. simpl in Hin. apply in_app_iff in Hin.
    destruct (Nat.eqb (nextId db) (item_id x)) eqn:E.
    + apply Nat.eqb_eq in E. rewrite <- E, Hsel, Hmov. reflexivity.
    + destruct Hin as [Hin | [<- | []]]; [now apply Hc |].
      rewrite Hid, Nat.eqb_refl in E. discriminate.
  - unfold hasRow, afterCreateItem, selectInventoryByItem. simpl.
    rewrite filter_app. simpl. rewrite Nat.eqb_refl.
    destruct (filter _ (inventory db)); discriminate.
  - rewrite projection_afterCreateItem, Nat.eqb_refl, Hsel. reflexivity.
  - rewrite Hsame. exact Hmov.
Qed.

Lemma nextKeyUnused_stocked : nextKeyUnused stocked.
Proof.
  repeat split; intros x Hin; simpl in Hin;
    repeat (destruct Hin as [<- | Hin]; [discriminate |]); contradiction.
Qed.

Lemma createItem_keeps_projection_consistent_witness :
  consistent (fst (createItem gadgetItem stocked))
  /\ hasRow (fst (createItem gadgetItem stocked)) 7%nat
  /\ projection (fst (createItem gadgetItem stocked)) 7%nat = 0
  /\ movementsOf (fst (createItem gadgetItem stocked)) 7%nat = [].
Proof.
  eapply (createItem_keeps_projection_consistent stocked _ gadgetItem
            {| item_id := 7%nat; item_code := "ITM002"; item_name := "Gadget";
               item_lowStockThreshold := 5 |}).
  - exact consistent_stocked.
  - exact nextKeyUnused_stocked.
  - reflexivity.
Defined.

Lemma itemReferenced_by_row (db : DB) (id : Id) :
  hasRow db id -> itemReferenced db id = true.
Proof.
  unfold hasRow, selectInventoryByItem, itemReferenced. intros H.
  assert (existsb (fun r => Nat.eqb (inv_itemId r) id) (inventory db) = true)
    as ->; [| reflexivity].
  induction (inventory db) as [| r l IH]; simpl in *; [contradiction |].
  destruct (Nat.eqb (inv_itemId r) id); [reflexivity | now apply IH].
Qed.

Lemma hasRow_ledgerGrown (db db' : DB) (id : Id) :
  ledgerGrown db db' -> hasRow db id -> hasRow db' id.
Proof.
  intros (_ & _ & Hkeys). unfold hasRow, selectInventoryByItem.
  revert Hkeys. generalize (inventory db') as l'.
  induction (inventory db) as [| r l IH]; intros l' Hkeys H; [contradiction |].
  destruct l' as [| r' l']; [discriminate |].
  simpl in Hkeys. inversion Hkeys as [[Hid Hitem Hrest]]. simpl in *.
  rewrite Hitem. destruct (Nat.eqb (inv_itemId r) id); [discriminate |].
  now apply IH.
Qed.

(** X11.  An item made by [createItem] can not be deleted afterwards.  Its
    inventory row references it, no modelled operation removes that row,
    and the reference declares no [onDelete]: after any tasks, interleaved
    in any way, [DELETE /api/items/:id] answers 500 and leaves the item. *)
Theorem created_item_can_not_be_deleted {A : Type}
  (db db1 : DB) (item : InsertItem) (it : Item)
  (schedule : list nat) (pool : list (Task A)) :
  createItem item db = (db1, Ok it) ->
  let db2 := fst (interleave schedule pool db1) in
  deleteItemRoute (item_id it) db2
  = (db2, Ok (StatusMessage 500 "Failed to delete item"))
  /\ In it (items db2).
Proof.
  intros Hrun db2.
  pose proof (createItem_outcome item db) as H. rewrite Hrun in H.
  destruct H as (-> & Hid & _).
  assert (hasRow (afterCreateItem db it) (item_id it)) as Hrow.
  { unfold hasRow, afterCreateItem, selectInventoryByItem. simpl.
    rewrite filter_app, Hid. simpl. rewrite Nat.eqb_refl.
    destruct (filter _ (inventory db)); discriminate. }
  pose proof (interleave_ledgerGrown schedule pool (afterCreateItem db it)) as Hg.
  fold db2 in Hg.
  pose proof (hasRow_ledgerGrown _ _ _ Hg Hrow) as Hrow2.
  destruct Hg as (_ & Hitems & _).
  assert (In it (items db2)) as Hin.
  { rewrite Hitems. unfold afterCreateItem. simpl. apply in_app_iff.
    right. now left. }
  split; [| exact Hin].
  unfold deleteItemRoute, orElse, andThen, deleteItem, deleteItemRows.
  rewrite (itemReferenced_by_row db2 _ Hrow2), andb_true_r.
  assert (hasItem db2 (item_id it) = true) as ->.
  { unfold hasItem. apply existsb_exists. exists it. split; [exact Hin |].
    apply Nat.eqb_refl. }
  reflexivity.
Qed.

Lemma created_item_can_not_be_deleted_witness :
  let db2 :=
    fst (interleave racing
           [postBills 1%nat billFor2 [units 2];
            postBills 1%nat billFor2 [units 2]]
           (fst (createItem gadgetItem stocked))) in
  deleteItemRoute 7%nat db2
  = (db2, Ok (StatusMessage 500 "Failed to delete item"))
  /\ In {| item_id := 7%nat; item_code := "ITM002"; item_name := "Gadget";
           item_lowStockThreshold := 5 |} (items db2).
Proof.
  apply (created_item_can_not_be_deleted stocked _ gadgetItem
           {| item_id := 7%nat; item_code := "ITM002"; item_name := "Gadget";
              item_lowStockThreshold := 5 |} racing).
  reflexivity.
Defined.

(** X12.  An item that nothing references is deleted for good: the answer
    is 204, no item with that key is left, and every other item, the
    inventory and the ledger are as they were. *)
Theorem unreferenced_item_is_deleted (db : DB) (id : Id) :
  itemReferenced db id = false ->
  exists db',
    deleteItemRoute id db = (db', Ok (Status 204))
    /\ hasItem db' id = false
    /\ (forall it, In it (items db') <-> In it (items db) /\ item_id it <> id)
    /\ inventory db' = inventory db
    /\ stockMovements db' = stockMovements db.
Proof.
  intros Href. unfold deleteItemRoute, orElse, andThen, deleteItem, deleteItemRows.
  rewrite Href, andb_false_r. eexists. split; [reflexivity |].
  simpl. split; [| split; [| split; reflexivity]].
  - unfold hasItem. simpl.
    induction (items db) as [| it l IH]; simpl; trivial.
    destruct (Nat.eqb (item_id it) id) eqn:E; simpl; [exact IH |].
    now rewrite E.
  - intros it. rewrite filter_In, negb_true_iff, Nat.eqb_neq. tauto.
Qed.

Lemma unreferenced_item_is_deleted_witness :
  exists db',
    deleteItemRoute 4%nat shopWithoutRow = (db', Ok (Status 204))
    /\ hasItem db' 4%nat = false
    /\ (forall it, In it (items db')
                   <-> In it (items shopWithoutRow) /\ item_id it <> 4%nat)
    /\ inventory db' = inventory shopWithoutRow
    /\ stockMovements db' = stockMovements shopWithoutRow.
Proof.
  apply (unreferenced_item_is_deleted shopWithoutRow 4%nat). reflexivity.
Defined.

(** ** Customers and vendors that have documents *)

Lemma exec_sameParties {X : Type} (q : Query X) (db : DB) :
  sameParties db (fst (exec q db)).
Proof.
  destruct q; simpl;
    unfold insertStockMovement, updateInventoryRows, insertBill,
      insertBillItems, insertPurchase, insertPurchaseItems;
    repeat match goal with
           | |- sameParties _ (fst (if ?c then _ else _)) => destruct c
           | |- sameParties _ (fst match ?x with _ => _ end) => destruct x
           end;
    repeat split.
Qed.

Lemma run_sameParties {A : Type} (t : Task A) (db : DB) :
  sameParties db (fst (run t db)).
Proof.
  revert db. induction t as [a | e | X q k IH]; intros db; simpl.
  - repeat split.
  - repeat split.
  - pose proof (exec_sameParties q db) as H.
    destruct (exec q db) as [db' r]. simpl in H.
    destruct H as (Hc & Hv & Hu). destruct (IH r db') as (Hc' & Hv' & Hu').
    repeat split; congruence.
Qed.

Lemma insertBill_Ok (v : InsertBill) (db db' : DB) (b : Bill) :
  insertBill v db = (db', Ok b) ->
  bill_customerId b = ib_customerId v
  /\ hasCustomer db (ib_customerId v) = true
  /\ bills db' = (bills db ++ [b])%list.
Proof.
  unfold insertBill.
  destruct (decimal_10_2 (ib_subtotal v)), (decimal_10_2 (ib_gstAmount v)),
    (decimal_10_2 (ib_total v)); try discriminate.
  destruct (billNumberTaken db (ib_billNumber v)); [discriminate |].
  destruct (hasCustomer db (ib_customerId v)); [| discriminate].
  destruct (negb (hasUser db (ib_createdBy v))); [discriminate |].
  intros H; inversion H; subst. repeat split.
Qed.

Lemma insertPurchase_Ok (v : InsertPurchase) (db db' : DB) (p : Purchase) :
  insertPurchase v db = (db', Ok p) ->
  purchase_vendorId p = ip_vendorId v
  /\ hasVendor db (ip_vendorId v) = true
  /\ purchases db' = (purchases db ++ [p])%list.
Proof.
  unfold insertPurchase.
  destruct (decimal_10_2_text (ip_total v)); [| discriminate].
  destruct (purchaseNumberTaken db (ip_purchaseNumber v)); [discriminate |].
  destruct (hasVendor db (ip_vendorId v)); [| discriminate].
  destruct (negb (hasUser db (ip_createdBy v))); [discriminate |].
  intros H; inversion H; subst. repeat split.
Qed.

(** The header a successful [createBill] leaves, and its customer. *)
Lemma createBill_Ok_header (bill : InsertBill)
  (billItemsData : list InsertBillItem) (db db' : DB)
  (r : option BillWithDetails) :
  run (createBill bill billItemsData) db = (db', Ok r) ->
  hasCustomer db (ib_customerId bill) = true
  /\ exists b, In b (bills db') /\ bill_customerId b = ib_customerId bill.
Proof.
  unfold createBill. rewrite run_bind, run_await. simpl exec.
  destruct (insertBill bill db) as [db1 [newBill | e]] eqn:E1; [| discriminate].
  apply insertBill_Ok in E1. destruct E1 as (Hcid & Hhas & Hb1).
  rewrite run_bind, run_await. simpl exec.
  destruct (insertBillItems _ db1) as [db2 [[] | e]] eqn:E2; [| discriminate].
  apply insertBillItems_outcome in E2. destruct E2 as (_ & _ & _ & Hb2 & _).
  rewrite run_bind.
  destruct (run (forOf billItemsData _) db2) as [db3 [[] | e]] eqn:E3;
    [| discriminate].
  apply (forOf_createStockMovement_outcome
           (saleMovement (bill_billNumber newBill))) in E3.
  destruct E3 as [(Hb3 & _) _].
  destruct (run_getBill (bill_id newBill) db3) as [r' ->].
  intros H; inversion H; subst.
  split; [exact Hhas |]. exists newBill. split; [| exact Hcid].
  rewrite Hb3, Hb2, Hb1. apply in_app_iff. right. now left.
Qed.

Lemma createPurchase_Ok_header (purchase : InsertPurchase)
  (purchaseItemsData : list InsertPurchaseItem) (db db' : DB)
  (r : option PurchaseWithDetails) :
  run (createPurchase purchase purchaseItemsData) db = (db', Ok r) ->
  hasVendor db (ip_vendorId purchase) = true
  /\ exists p, In p (purchases db')
               /\ purchase_vendorId p = ip_vendorId purchase.
Proof.
  unfold createPurchase. rewrite run_bind, run_await. simpl exec.
  destruct (insertPurchase purchase db) as [db1 [newPurchase | e]] eqn:E1;
    [| discriminate].
  apply insertPurchase_Ok in E1. destruct E1 as (Hvid & Hhas & Hp1).
  rewrite run_bind, run_await. simpl exec.
  destruct (insertPurchaseItems _ db1) as [db2 [[] | e]] eqn:E2; [| discriminate].
  apply insertPurchaseItems_outcome in E2. destruct E2 as (_ & _ & _ & Hp2 & _).
  rewrite run_bind.
  destruct (run (forOf purchaseItemsData _) db2) as [db3 [[] | e]] eqn:E3;
    [| discriminate].
  apply (forOf_createStockMovement_outcome
           (purchaseMovement (purchase_purchaseNumber newPurchase))) in E3.
  destruct E3 as [(_ & _ & Hp3 & _) _].
  destruct (run_getPurchase (purchase_id newPurchase) db3) as [r' ->].
  intros H; inversion H; subst.
  split; [exact Hhas |]. exists newPurchase. split; [| exact Hvid].
  rewrite Hp3, Hp2, Hp1. apply in_app_iff. right. now left.
Qed.

(** X13.  A customer who has been billed can not be deleted: once
    [createBill] has succeeded for a customer, [DELETE /api/customers/:id]
    for that customer answers 500 and the database is left as it was. *)
Theorem billed_customer_can_not_be_deleted
  (db db' : DB) (bill : InsertBill) (billItemsData : list InsertBillItem)
  (r : option BillWithDetails) :
  run (createBill bill billItemsData) db = (db', Ok r) ->
  deleteCustomerRoute (ib_customerId bill) db'
  = (db', Ok (StatusMessage 500 "Failed to delete customer")).
Proof.
  intros Hrun.
  pose proof (run_sameParties (createBill bill billItemsData) db) as Hp.
  rewrite Hrun in Hp. simpl in Hp. destruct Hp as (Hcust & _).
  destruct (createBill_Ok_header _ _ _ _ _ Hrun) as (Hhas & b & Hin & Hcid).
  assert (hasCustomer db' (ib_customerId bill) = true) as Hhas'
      by (unfold hasCustomer in *; now rewrite Hcust).
  assert (customerReferenced db' (ib_customerId bill) = true) as Href.
  { unfold customerReferenced. apply existsb_exists. exists b.
    split; [exact Hin |]. rewrite Hcid. apply Nat.eqb_refl. }
  unfold deleteCustomerRoute, orElse, andThen, deleteCustomer.
  rewrite Hhas', Href. reflexivity.
Qed.

Lemma billed_customer_can_not_be_deleted_witness :
  deleteCustomerRoute 2%nat
    (fst (run (createBill firstBill [lineFor 4%nat 2]) stocked))
  = (fst (run (createBill firstBill [lineFor 4%nat 2]) stocked),
     Ok (StatusMessage 500 "Failed to delete customer")).
Proof.
  eapply (billed_customer_can_not_be_deleted stocked _ firstBill
            [lineFor 4%nat 2]).
  reflexivity.
Defined.

(** X14.  A vendor with a purchase can not be deleted: once
    [createPurchase] has succeeded for a vendor, [DELETE /api/vendors/:id]
    for that vendor answers 500 and the database is left as it was. *)
Theorem vendor_with_purchase_can_not_be_deleted
  (db db' : DB) (purchase : InsertPurchase)
  (purchaseItemsData : list InsertPurchaseItem)
  (r : option PurchaseWithDetails) :
  run (createPurchase purchase purchaseItemsData) db = (db', Ok r) ->
  deleteVendorRoute (ip_vendorId purchase) db'
  = (db', Ok (StatusMessage 500 "Failed to delete vendor")).
Proof.
  intros Hrun.
  pose proof (run_sameParties (createPurchase purchase purchaseItemsData) db) as Hp.
  rewrite Hrun in Hp. simpl in Hp. destruct Hp as (_ & Hvend & _).
  destruct (createPurchase_Ok_header _ _ _ _ _ Hrun) as (Hhas & p & Hin & Hvid).
  assert (hasVendor db' (ip_vendorId purchase) = true) as Hhas'
      by (unfold hasVendor in *; now rewrite Hvend).
  assert (vendorReferenced db' (ip_vendorId purchase) = true) as Href.
  { unfold vendorReferenced. apply existsb_exists. exists p.
    split; [exact Hin |]. rewrite Hvid. apply Nat.eqb_refl. }
  unfold deleteVendorRoute, orElse, andThen, deleteVendor.
  rewrite Hhas', Href. reflexivity.
Qed.

Lemma vendor_with_purchase_can_not_be_deleted_witness :
  deleteVendorRoute 3%nat
    (fst (run (createPurchase firstPurchase [purchaseLineFor 4%nat 10]) stocked))
  = (fst (run (createPurchase firstPurchase [purchaseLineFor 4%nat 10]) stocked),
     Ok (StatusMessage 500 "Failed to delete vendor")).
Proof.
  eapply (vendor_with_purchase_can_not_be_deleted stocked _ firstPurchase
            [purchaseLineFor 4%nat 10]).
  reflexivity.
Defined.

(** ** Sorting *)

Lemma insertBy_perm {A : Type} (leb : A -> A -> bool) (x : A) (l : list A) :
  Permutation (insertBy leb x l) (x :: l).
Proof.
  induction l as [| y l IH]; simpl; [reflexivity |].
  destruct (leb x y); [reflexivity |].
  rewrite IH. apply perm_swap.
Qed.

Lemma sortBy_perm {A : Type} (leb : A -> A -> bool) (l : list A) :
  Permutation (sortBy leb l) l.
Proof.
  induction l as [| x l IH]; simpl; [constructor |].
  rewrite insertBy_perm. now constructor.
Qed.

Lemma In_sortBy {A : Type} (leb : A -> A -> bool) (l : list A) (x : A) :
  In x (sortBy leb l) <-> In x l.
Proof.
  split; apply Permutation_in; [| symmetry]; apply sortBy_perm.
Qed.

Section SortedByKey.

Context {A : Type} (key : A -> Z).

Let leb (a b : A) : bool := key a <=? key b.
Let le (a b : A) : Prop := key a <= key b.

Lemma insertBy_HdRel (y x : A) (l : list A) :
  HdRel le y l -> le y x -> HdRel le y (insertBy leb x l).
Proof.
  intros Hl Hx. destruct l as [| z l]; simpl; [now constructor |].
  destruct (leb x z); constructor; trivial. now inversion Hl.
Qed.

Lemma insertBy_sorted (x : A) (l : list A) :
  Sorted le l -> Sorted le (insertBy leb x l).
Proof.
  induction l as [| y l IH]; simpl; intros Hs.
  - repeat constructor.
  - destruct (leb x y) eqn:E.
    + constructor; [exact Hs |]. constructor. now apply Z.leb_le.
    + inversion Hs as [| ? ? Hs' Hhd]; subst. constructor; [now apply IH |].
      apply insertBy_HdRel; [exact Hhd |].
      unfold leb in E. apply Z.leb_gt in E. unfold le. lia.
Qed.

Lemma sortBy_sorted (l : list A) : Sorted le (sortBy leb l).
Proof.
  induction l as [| x l IH]; simpl; [constructor |]. now apply insertBy_sorted.
Qed.

End SortedByKey.

Lemma Sorted_map {A B : Type} (f : A -> B) (R : B -> B -> Prop) (l : list A) :
  Sorted (fun a b => R (f a) (f b)) l -> Sorted R (map f l).
Proof.
  induction 1 as [| a l Hs IH Hhd]; simpl; constructor; trivial.
  destruct Hhd; simpl; constructor; trivial.
Qed.

(** ** The low-stock list *)

Lemma In_selectLowStock (db : DB) (it : Item) (inv : Inventory) :
  In (it, inv) (selectLowStock db)
  <-> In it (items db) /\ In inv (inventory db)
      /\ inv_itemId inv = item_id it
      /\ inv_quantity inv <= item_lowStockThreshold it.
Proof.
  unfold selectLowStock. rewrite In_sortBy, in_flat_map. split.
  - intros (it' & Hit & Hin). apply in_map_iff in Hin.
    destruct Hin as (inv' & Heq & Hin). inversion Heq; subst.
    apply filter_In in Hin. destruct Hin as (Hin & Hc).
    apply andb_true_iff in Hc. destruct Hc as (Hid & Hq).
    apply Nat.eqb_eq in Hid. apply Z.leb_le in Hq. auto.
  - intros (Hit & Hin & Hid & Hq). exists it. split; [exact Hit |].
    apply in_map_iff. exists inv. split; [reflexivity |].
    apply filter_In. split; [exact Hin |].
    apply andb_true_iff. split; [apply Nat.eqb_eq; auto | now apply Z.leb_le].
Qed.

(** X15.  [getLowStockItems] lists exactly the pairs of a catalog item and
    an inventory row of that item whose quantity is at most the item's
    threshold, each with that quantity as current stock, in ascending order
    of quantity; it writes nothing. *)
Theorem getLowStockItems_lists_the_low_rows_in_order (db : DB) :
  exists result,
    getLowStockItems db = (db, Ok result)
    /\ (forall e,
          In e result
          <-> exists it inv,
                In it (items db) /\ In inv (inventory db)
                /\ inv_itemId inv = item_id it
                /\ inv_quantity inv <= item_lowStockThreshold it
                /\ e = lowStockEntry it inv)
    /\ Sorted (fun a b => iwi_currentStock a <= iwi_currentStock b) result.
Proof.
  eexists. split; [reflexivity |]. split.
  - intros e. rewrite in_map_iff. split.
    + intros ([it inv] & <- & Hin). apply In_selectLowStock in Hin.
      exists it, inv. tauto.
    + intros (it & inv & Hit & Hin & Hid & Hq & ->).
      exists (it, inv). split; [reflexivity |]. apply In_selectLowStock. tauto.
  - apply Sorted_map. simpl. unfold selectLowStock.
    apply (sortBy_sorted (fun row : Item * Inventory => inv_quantity (snd row))).
Qed.

(** ** The item list and the low-stock list *)

Lemma In_leftJoinInventory (db : DB) (it : Item) (oinv : option Inventory) :
  In (it, oinv) (leftJoinInventory db)
  <-> In it (items db)
      /\ match oinv with
         | Some inv => In inv (inventory db) /\ inv_itemId inv = item_id it
         | None => forall inv, In inv (inventory db) -> inv_itemId inv <> item_id it
         end.
Proof.
  unfold leftJoinInventory. rewrite in_flat_map. split.
  - intros (it' & Hit & Hin).
    destruct (filter (fun inv => Nat.eqb (item_id it') (inv_itemId inv))
                     (inventory db)) as [| r rs] eqn:E.
    + destruct Hin as [Heq | []]. inversion Heq; subst. split; [exact Hit |].
      intros inv Hinv Hid.
      assert (In inv (filter (fun inv => Nat.eqb (item_id it) (inv_itemId inv))
                             (inventory db))) as H
          by (apply filter_In; split; [exact Hinv | apply Nat.eqb_eq; auto]).
      rewrite E in H. contradiction.
    + apply in_map_iff in Hin. destruct Hin as (inv & Heq & Hin).
      inversion Heq; subst. split; [exact Hit |].
      rewrite <- E in Hin. apply filter_In in Hin. destruct Hin as (Hin & Hid).
      apply Nat.eqb_eq in Hid. auto.
  - intros (Hit & H). exists it. split; [exact Hit |].
    destruct (filter (fun inv => Nat.eqb (item_id it) (inv_itemId inv))
                     (inventory db)) as [| r rs] eqn:E.
    + destruct oinv as [inv |]; [| now left].
      destruct H as (Hin & Hid).
      assert (In inv (filter (fun inv => Nat.eqb (item_id it) (inv_itemId inv))
                             (inventory db))) as H'
          by (apply filter_In; split; [exact Hin | apply Nat.eqb_eq; auto]).
      rewrite E in H'. contradiction.
    + destruct oinv as [inv |].
      * destruct H as (Hin & Hid). apply in_map_iff. exists inv.
        split; [reflexivity |]. rewrite <- E. apply filter_In.
        split; [exact Hin | apply Nat.eqb_eq; auto].
      * exfalso.
        assert (In r (filter (fun inv => Nat.eqb (item_id it) (inv_itemId inv))
                             (inventory db))) as H' by (rewrite E; now left).
        apply filter_In in H'. destruct H' as (Hin & Hid).
        apply Nat.eqb_eq in Hid. apply (H r Hin). auto.
Qed.

(** X16.  The low-stock list is the item list cut down to the entries that
    are flagged low and have an inventory row, whatever the collation the
    item list is sorted by.  (An item without a row is shown with stock 0 in
    the item list, flagged low when its threshold is not negative, and is
    never in the low-stock list.) *)
Theorem low_stock_list_is_the_flagged_rows_of_the_item_list
  (nameLeb : string -> string -> bool) (db : DB) :
  exists all low,
    getItems nameLeb db = (db, Ok all)
    /\ getLowStockItems db = (db, Ok low)
    /\ forall e,
         In e low
         <-> In e all /\ iwi_isLowStock e = true /\ iwi_inventory e <> None.
Proof.
  eexists; eexists. split; [reflexivity |]. split; [reflexivity |].
  intros e. rewrite !in_map_iff. split.
  - intros ([it inv] & <- & Hin). apply In_selectLowStock in Hin.
    destruct Hin as (Hit & Hin & Hid & Hq). simpl.
    split; [| split; [reflexivity | discriminate]].
    exists (it, Some inv). split.
    + unfold withInventory. simpl.
      assert ((inv_quantity inv <=? item_lowStockThreshold it) = true) as ->
          by (now apply Z.leb_le).
      reflexivity.
    + apply In_sortBy, In_leftJoinInventory. auto.
  - intros (([it oinv] & <- & Hin) & Hlow & Hsome).
    apply In_sortBy, In_leftJoinInventory in Hin. destruct Hin as (Hit & H).
    destruct oinv as [inv |]; [| now contradiction Hsome].
    destruct H as (Hin & Hid). unfold withInventory in *. simpl in *.
    exists (it, inv). split; [simpl; now rewrite Hlow |].
    apply In_selectLowStock. apply Z.leb_le in Hlow. auto.
Qed.

(** ** The list of recent movements *)

Lemma createStockMovement_Ok_item (movement : InsertStockMovement)
  (db db' : DB) (row : StockMovement) :
  run (createStockMovement movement) db = (db', Ok row) ->
  hasItem db (ism_itemId movement) = true.
Proof.
  rewrite run_createStockMovement. unfold insertStockMovement.
  destruct (negb (int32 (ism_quantity movement))); [discriminate |].
  destruct (hasItem db (ism_itemId movement)); [reflexivity | discriminate].
Qed.

(** X17.  A movement just recorded heads the list of recent movements,
    joined to its item, and that list never holds more than 50 entries. *)
Theorem recorded_movement_heads_the_recent_list
  (db db' : DB) (movement : InsertStockMovement) (row : StockMovement) :
  run (createStockMovement movement) db = (db', Ok row) ->
  exists it rest,
    getStockMovements db' = (db', Ok ((row, it) :: rest))
    /\ item_id it = ism_itemId movement
    /\ written row = movement
    /\ (List.length ((row, it) :: rest) <= 50)%nat.
Proof.
  intros Hrun.
  pose proof (createStockMovement_Ok_item _ _ _ _ Hrun) as Hitem.
  pose proof (run_ledgerGrown (createStockMovement movement) db) as Hg.
  rewrite Hrun in Hg. simpl in Hg. destruct Hg as (_ & Hitems & _).
  destruct (createStockMovement_outcome _ _ _ _ Hrun) as (_ & Hrow).
  destruct (Hrow row eq_refl) as (Hsm & Hw).
  assert (sm_itemId row = ism_itemId movement) as Hid by (now rewrite <- Hw).
  unfold hasItem in Hitem. apply existsb_exists in Hitem.
  destruct Hitem as (it0 & Hin0 & Heq0). apply Nat.eqb_eq in Heq0.
  destruct (filter (fun it => Nat.eqb (sm_itemId row) (item_id it)) (items db'))
    as [| it rest'] eqn:E.
  { exfalso.
    assert (In it0 (filter (fun it => Nat.eqb (sm_itemId row) (item_id it))
                           (items db'))) as H.
    { apply filter_In. rewrite Hitems. split; [exact Hin0 |].
      apply Nat.eqb_eq. congruence. }
    rewrite E in H. contradiction. }
  assert (In it (filter (fun it => Nat.eqb (sm_itemId row) (item_id it))
                        (items db'))) as Hit by (rewrite E; now left).
  apply filter_In in Hit. destruct Hit as (_ & Hit). apply Nat.eqb_eq in Hit.
  assert (exists rest, selectRecentMovements db' = (row, it) :: rest
                       /\ (List.length ((row, it) :: rest) <= 50)%nat)
    as (rest & Hsel & Hlen).
  { unfold selectRecentMovements. rewrite Hsm, rev_unit. cbn [flat_map].
    rewrite E. cbn [map]. rewrite <- app_comm_cons.
    match goal with
    | |- exists rest, firstn 50 (?x :: ?l) = _ /\ _ =>
        exists (firstn 49 l); split; [reflexivity |];
        pose proof (firstn_le_length 49 l) as Hle
    end.
    cbn [List.length]. lia. }
  exists it, rest. unfold getStockMovements, andThen, select, ret.
  rewrite Hsel. repeat split; trivial. congruence.
Qed.

Lemma recorded_movement_heads_the_recent_list_witness :
  exists it rest,
    getStockMovements stocked
    = (stocked, Ok ((movementRow 6%nat initialStock, it) :: rest))
    /\ item_id it = ism_itemId initialStock
    /\ written (movementRow 6%nat initialStock) = initialStock
    /\ (List.length ((movementRow 6%nat initialStock, it) :: rest) <= 50)%nat.
Proof.
  apply (recorded_movement_heads_the_recent_list shop stocked initialStock).
  reflexivity.
Defined.

(** ** Purchases submitted through the handler *)

(** X18.  A purchase line must carry a [purchaseId], although the server
    sets it itself: when a submitted line has none, [POST /api/purchases]
    answers 400 and writes nothing. *)
Theorem purchase_line_without_purchaseId_is_rejected
  (db : DB) (sub : Id) (purchaseData : PurchaseBody)
  (purchaseItemsData : list PurchaseItemBody) (item : PurchaseItemBody) :
  In item purchaseItemsData ->
  pib_purchaseId item = None ->
  run (postPurchases sub purchaseData purchaseItemsData) db
  = (db, Ok (Message 400 "Invalid purchase data")).
Proof.
  intros Hin Hnone. unfold postPurchases.
  rewrite run_tryCatch, run_bind.
  destruct (run_getNextPurchaseNumber db) as [n ->].
  rewrite run_bind, run_lift.
  destruct (insertPurchaseSchema purchaseData n sub) as [purchase | e];
    [| reflexivity].
  rewrite run_bind, run_lift.
  assert (insertPurchaseItemSchema item = Err ZodError) as Hbad
      by (unfold insertPurchaseItemSchema; now rewrite Hnone).
  destruct (parseEach_refuses insertPurchaseItemSchema purchaseItemsData item
              ZodError Hin Hbad) as [e' ->].
  reflexivity.
Qed.

Lemma purchase_line_without_purchaseId_is_rejected_witness :
  run (postPurchases 1%nat purchaseOf500 [purchasedUnits None 10]) stocked
  = (stocked, Ok (Message 400 "Invalid purchase data")).
Proof.
  apply (purchase_line_without_purchaseId_is_rejected stocked 1%nat
           purchaseOf500 [purchasedUnits None 10] (purchasedUnits None 10)).
  - now left.
  - reflexivity.
Defined.

Lemma parseEach_length {A B : Type} (parse : A -> Result B) (xs : list A)
  (ys : list B) :
  parseEach parse xs = Ok ys -> List.length ys = List.length xs.
Proof.
  revert ys. induction xs as [| x xs IH]; simpl; intros ys.
  - intros H; inversion H. reflexivity.
  - destruct (parse x); [| discriminate].
    destruct (parseEach parse xs) as [ys' |]; [| discriminate].
    intros H; inversion H. simpl. now rewrite (IH ys').
Qed.

Lemma purchase_rows_key (k : Id) (rows : list PurchaseItem)
  (lines : list InsertPurchaseItem) :
  map purchaseLine rows
  = map (fun l => (k, ipi_itemId l, ipi_quantity l)) lines ->
  Forall (fun r => pi_purchaseId r = k) rows.
Proof.
  revert lines. induction rows as [| r rows IH]; intros lines H; [constructor |].
  destruct lines as [| l lines]; [discriminate |].
  simpl in H. unfold purchaseLine at 1 in H. injection H as Hk _ _ Ht.
  constructor; [exact Hk | now apply (IH lines)].
Qed.

Lemma postPurchases_created (sub : Id) (purchaseData : PurchaseBody)
  (purchaseItemsData : list PurchaseItemBody) (db db' : DB)
  (payload : option PurchaseWithDetails) :
  run (postPurchases sub purchaseData purchaseItemsData) db
  = (db', Ok (Json 201 payload)) ->
  exists purchaseNumber purchase lines,
    run getNextPurchaseNumber db = (db, Ok purchaseNumber)
    /\ insertPurchaseSchema purchaseData purchaseNumber sub = Ok purchase
    /\ parseEach insertPurchaseItemSchema purchaseItemsData = Ok lines
    /\ run (createPurchase purchase lines) db = (db', Ok payload).
Proof.
  unfold postPurchases. rewrite run_tryCatch, run_bind.
  destruct (run_getNextPurchaseNumber db) as [n Hn]. rewrite Hn.
  rewrite run_bind, run_lift.
  destruct (insertPurchaseSchema purchaseData n sub) as [purchase | e] eqn:Eb;
    [| intros H; inversion H].
  rewrite run_bind, run_lift.
  destruct (parseEach insertPurchaseItemSchema purchaseItemsData)
    as [lines | e] eqn:El; [| intros H; inversion H].
  rewrite run_bind.
  destruct (run (createPurchase purchase lines) db) as [db1 [r | e]] eqn:Ec;
    intros H; inversion H; subst.
  exists n, purchase, lines. repeat split; trivial.
Qed.

(** X19.  Purchases created one request after the other are numbered
    consecutively, and the [purchaseId] sent with a line is ignored: when
    the last suffix of the series is [n] and [POST /api/purchases] answers
    201, the purchase it stored is the newest one and carries suffix
    [n + 1], one line row per submitted line was stored, each under the key
    of that purchase, and the next number offered has suffix [n + 2]. *)
Theorem posted_purchase_takes_the_next_number
  (db db' : DB) (sub : Id) (purchaseData : PurchaseBody)
  (purchaseItemsData : list PurchaseItemBody) (n : Z)
  (payload : option PurchaseWithDetails) :
  lastPurchaseSuffix db n ->
  n + 1 < 2 ^ 53 - 1 ->
  run (postPurchases sub purchaseData purchaseItemsData) db
  = (db', Ok (Json 201 payload)) ->
  (exists p rows,
      purchases db' = (purchases db ++ [p])%list
      /\ purchase_purchaseNumber p = purchaseNumberOf (n + 1)
      /\ purchaseItems db' = (purchaseItems db ++ rows)%list
      /\ List.length rows = List.length purchaseItemsData
      /\ Forall (fun r => pi_purchaseId r = purchase_id p) rows)
  /\ run getNextPurchaseNumber db' = (db', Ok (purchaseNumberOf (n + 2))).
Proof.
  intros Hlast Hn Hrun.
  pose proof (lastPurchaseSuffix_nonneg db n Hlast) as Hn0.
  destruct (postPurchases_created _ _ _ _ _ _ Hrun)
    as (purchaseNumber & purchase & lines & Hnum & Hp & Hlines & Hcreate).
  rewrite (run_getNextPurchaseNumber_suffix db n Hlast) in Hnum.
  inversion Hnum; subst purchaseNumber.
  assert (ip_purchaseNumber purchase = purchaseNumberOf (n + 1)) as Hnumber.
  { unfold insertPurchaseSchema in Hp.
    destruct (zString (pb_total purchaseData)); [| discriminate].
    inversion Hp. reflexivity. }
  pose proof (createPurchase_outcome purchase lines db) as Hout.
  rewrite Hcreate in Hout.
  destruct Hout as (p & rows & ms & Hps & Hnew & Hrows & Hmap & _).
  rewrite Hnumber in Hnew.
  split.
  - exists p, rows. repeat split; trivial.
    + rewrite <- (parseEach_length _ _ _ Hlines).
      apply (f_equal (@List.length _)) in Hmap.
      now rewrite !length_map in Hmap.
    + now apply (purchase_rows_key _ _ lines).
  - replace (n + 2) with (n + 1 + 1) by lia.
    apply run_getNextPurchaseNumber_suffix.
    right. split; [lia |]. exists p, (purchases db). now split.
Qed.

Lemma posted_purchase_takes_the_next_number_witness :
  (exists p rows,
      purchases purchased = (purchases stocked ++ [p])%list
      /\ purchase_purchaseNumber p = purchaseNumberOf (0 + 1)
      /\ purchaseItems purchased = (purchaseItems stocked ++ rows)%list
      /\ List.length rows = List.length [purchasedUnits (Some 77%nat) 10]
      /\ Forall (fun r => pi_purchaseId r = purchase_id p) rows)
  /\ run getNextPurchaseNumber purchased
     = (purchased, Ok (purchaseNumberOf (0 + 2))).
Proof.
  apply (posted_purchase_takes_the_next_number stocked purchased 1%nat
           purchaseOf500 [purchasedUnits (Some 77%nat) 10] 0
           firstPurchaseAnswer).
  - left. split; reflexivity.
  - reflexivity.
  - reflexivity.
Defined.

(** ** The routing table *)

Lemma firstMatch_app (pre post : list Route) (m : Method) (path : list string) :
  firstMatch (pre ++ post) m path
  = match firstMatch pre m path with
    | Some hit => Some hit
    | None => firstMatch post m path
    end.
Proof.
  induction pre as [| r pre IH]; simpl; trivial.
  destruct (matchRoute r m path); trivial.
Qed.

Lemma firstMatch_Some (rs : list Route) (m : Method) (path : list string)
  (e : Endpoint) (params : list string) :
  firstMatch rs m path = Some (e, params) ->
  exists r, In r rs /\ route_endpoint r = e
            /\ matchRoute r m path = Some params.
Proof.
  induction rs as [| r rs IH]; simpl; [discriminate |].
  destruct (matchRoute r m path) as [ps |] eqn:E.
  - intros H; inversion H; subst. exists r. auto.
  - intros H. destruct (IH H) as (r' & Hin & He & Hm). exists r'. auto.
Qed.

Lemma firstMatch_None (rs : list Route) (m : Method) (path : list string)
  (r : Route) :
  firstMatch rs m path = None -> In r rs -> matchRoute r m path = None.
Proof.
  induction rs as [| r' rs IH]; simpl; [contradiction |].
  destruct (matchRoute r' m path) eqn:E; [discriminate |].
  intros H [<- | Hin]; auto.
Qed.

Lemma sameText_nonempty (s seg : string) :
  s <> "" -> sameText s seg = true -> seg <> "".
Proof.
  intros Hs H ->. destruct s as [| c s]; [contradiction |].
  unfold sameText in H. simpl in H. discriminate.
Qed.

(** A path that matches [/api/<what>/next-number] matches
    [/api/<what>/:id] too. *)
Lemma next_number_matches_id (what name : string) (path params : list string) :
  matchPath [Lit "api"; Lit what; Lit "next-number"] path = Some params ->
  matchPath [Lit "api"; Lit what; Param name] path <> None.
Proof.
  destruct path as [| s1 [| s2 [| s3 [| s4 rest]]]]; simpl; try discriminate.
  - destruct (sameText "api" s1); discriminate.
  - destruct (sameText "api" s1); [| discriminate].
    destruct (sameText what s2); discriminate.
  - destruct (sameText "api" s1); [| discriminate].
    destruct (sameText what s2); [| discriminate].
    destruct (sameText "next-number" s3) eqn:E; [| discriminate].
    intros _. apply sameText_nonempty in E; [| discriminate].
    destruct s3; [contradiction | discriminate].
  - destruct (sameText "api" s1); [| discriminate].
    destruct (sameText what s2); [| discriminate].
    destruct (sameText "next-number" s3); discriminate.
Qed.

Lemma nothing_before_answers (e : Endpoint) :
  e = BillsNextNumber \/ e = PurchasesNextNumber ->
  forallb (fun r => negb (endpointEqb (route_endpoint r) e)) (routesBefore e)
  = true.
Proof. intros [-> | ->]; reflexivity. Qed.

Lemma endpointEqb_refl (e : Endpoint) : endpointEqb e e = true.
Proof. destruct e; reflexivity. Qed.

(** X20.  The two next-number endpoints can not be reached.
    [GET /api/bills/:id] is registered before [GET /api/bills/next-number]
    and takes every request the latter would match, with ["next-number"] as
    the bill key; the same holds for purchases.  So no request at all is
    dispatched to a next-number handler. *)
Theorem next_number_routes_are_shadowed (m : Method) (path params : list string) :
  dispatch m path <> Some (BillsNextNumber, params)
  /\ dispatch m path <> Some (PurchasesNextNumber, params)
  /\ dispatch GET ["api"; "bills"; "next-number"]
     = Some (BillsGet, ["next-number"])
  /\ dispatch GET ["api"; "purchases"; "next-number"]
     = Some (PurchasesGet, ["next-number"]).
Proof.
  split; [| split; [| split; reflexivity]].
  - unfold dispatch.
    change routes with (routesBefore BillsNextNumber ++ skipn 28 routes)%list.
    rewrite firstMatch_app. intros H.
    destruct (firstMatch (routesBefore BillsNextNumber) m path)
      as [hit |] eqn:Epre.
    + inversion H; subst hit. apply firstMatch_Some in Epre.
      destruct Epre as (r & Hin & He & _).
      pose proof (nothing_before_answers BillsNextNumber (or_introl eq_refl)) as Hall.
      rewrite forallb_forall in Hall. specialize (Hall r Hin).
      rewrite He, endpointEqb_refl in Hall. discriminate.
    + assert (matchRoute {| route_method := GET;
                            route_path := [Lit "api"; Lit "bills"; Param "id"];
                            route_endpoint := BillsGet |} m path = None) as Hget.
      { apply (firstMatch_None _ _ _ _ Epre). simpl. tauto. }
      apply firstMatch_Some in H. destruct H as (r & Hin & He & Hm).
      simpl in Hin. destruct Hin as [<- | Hin].
      * unfold matchRoute in *. cbn [route_method route_path] in *.
        destruct (methodMatches GET m); [| discriminate Hm].
        now apply (next_number_matches_id "bills" "id") in Hm.
      * repeat (destruct Hin as [<- | Hin]; [discriminate He |]).
        contradiction.
  - unfold dispatch.
    change routes with (routesBefore PurchasesNextNumber ++ skipn 32 routes)%list.
    rewrite firstMatch_app. intros H.
    destruct (firstMatch (routesBefore PurchasesNextNumber) m path)
      as [hit |] eqn:Epre.
    + inversion H; subst hit. apply firstMatch_Some in Epre.
      destruct Epre as (r & Hin & He & _).
      pose proof (nothing_before_answers PurchasesNextNumber (or_intror eq_refl))
        as Hall.
      rewrite forallb_forall in Hall. specialize (Hall r Hin).
      rewrite He, endpointEqb_refl in Hall. discriminate.
    + assert (matchRoute {| route_method := GET;
                            route_path := [Lit "api"; Lit "purchases"; Param "id"];
                            route_endpoint := PurchasesGet |} m path = None)
        as Hget.
      { apply (firstMatch_None _ _ _ _ Epre). simpl. tauto. }
      apply firstMatch_Some in H. destruct H as (r & Hin & He & Hm).
      simpl in Hin. destruct Hin as [<- | Hin].
      * unfold matchRoute in *. cbn [route_method route_path] in *.
        destruct (methodMatches GET m); [| discriminate Hm].
        now apply (next_number_matches_id "purchases" "id") in Hm.
      * repeat (destruct Hin as [<- | Hin]; [discriminate He |]).
        contradiction.
Qed.
